(** * arbagent: opportunity detection and validation

    A shallow embedding of [PriceAnalyzer] (src/analyzer.py) and
    [ArbitrageDetector] (src/detector.py).

    Conventions of the embedding:
    - Python numbers (reserves, prices, fees, percentages, USD amounts) are
      exact rationals [Q]; the rounding of binary64 is not modelled there.
      Statements about them are kept to what rounding preserves (the order
      of evaluation, comparisons, monotonicity); where the last bit of a
      product decides, module [Binary64] runs the same code on binary64.
    - A pool record carries its ["id"] and, for each token dict it has, the
      ["symbol"]; records without them ([KeyError] in the code) and integers
      too large for a binary64 quotient ([OverflowError]) are outside the
      embedding.
    - A Python [dict] that is iterated keeps its insertion order, so it is an
      association list whose keys are looked up first-match.
    - Raised exceptions are values of [exn]; code that appends to
      [self.price_discrepancies] runs in the [analysis] monad, which keeps
      the list built so far when an exception escapes.
    - [time.time()] is a clock reading [now] passed by the caller. *)

From Stdlib Require Import QArith Qminmax Lqa ZArith Lia List String Ascii Bool Arith Sorted Permutation.
From Stdlib Require PrimFloat.
Import ListNotations.
Open Scope string_scope.
Open Scope list_scope.
Open Scope Q_scope.

Set Implicit Arguments.

(* ================================================================= *)
(** ** Python built-ins used by the two modules *)

Inductive exn : Type :=
| ZeroDivisionError
| ValueError
| IndexError
| KeyError.

Inductive outcome (A : Type) : Type :=
| Ok (a : A)
| Raise (e : exn).
Arguments Ok {A} a.
Arguments Raise {A} e.

(** [x < y] on numbers. *)
Definition Qltb (x y : Q) : bool := negb (Qle_bool y x).

(** [a / b]: Python raises on a zero divisor. *)
Definition py_div (a b : Q) : outcome Q :=
  if Qeq_bool b 0 then Raise ZeroDivisionError else Ok (a / b).

(** [min(a, b)] and [max(a, b)]: the first argument is kept unless the
    second is strictly better. *)
Definition py_min2 (a b : Q) : Q := if Qltb b a then b else a.
Definition py_max2 (a b : Q) : Q := if Qltb a b then b else a.
Definition py_min3 (a b c : Q) : Q := py_min2 (py_min2 a b) c.

(** [min(xs, key=k)] and [max(xs, key=k)] on a non-empty list [x :: xs]:
    one pass, the first best element wins. *)
Definition py_min_by {A : Type} (k : A -> Q) (x : A) (xs : list A) : A :=
  fold_left (fun best y => if Qltb (k y) (k best) then y else best) xs x.
Definition py_max_by {A : Type} (k : A -> Q) (x : A) (xs : list A) : A :=
  fold_left (fun best y => if Qltb (k best) (k y) then y else best) xs x.

(** [s.split("_")]. *)
Fixpoint py_split (s : string) : list string :=
  match s with
  | EmptyString => [EmptyString]
  | String c s' =>
      if Ascii.eqb c "_"%char then EmptyString :: py_split s'
      else match py_split s' with
           | [] => [String c EmptyString]
           | h :: t => String c h :: t
           end
  end.

(** [a, b = parts]: unpacking into two names. *)
Definition unpack2 (parts : list string) : outcome (string * string) :=
  match parts with
  | [a; b] => Ok (a, b)
  | _ => Raise ValueError
  end.

(** [f"{a}_{b}"]. *)
Definition fmt_key (a b : string) : string :=
  String.append a (String.append "_" b).

(** [xs[:n]] for a Python [int] [n]: a negative bound counts from the end. *)
Definition py_slice_to {A : Type} (xs : list A) (n : Z) : list A :=
  if (0 <=? n)%Z then firstn (Z.to_nat n) xs
  else firstn (List.length xs - Z.to_nat (- n)) xs.

(** [s.lower()] on ASCII letters. *)
Definition lower_ascii (c : ascii) : ascii :=
  let n := nat_of_ascii c in
  if ((65 <=? n) && (n <=? 90))%nat then ascii_of_nat (n + 32) else c.
Fixpoint lower (s : string) : string :=
  match s with
  | EmptyString => EmptyString
  | String c s' => String (lower_ascii c) (lower s')
  end.

(* ----------------------------------------------------------------- *)
(** *** Insertion-ordered dictionaries with string keys *)

Section Dict.
Variable V : Type.

Definition dict : Type := list (string * V).

Definition keys (d : dict) : list string := map fst d.

Fixpoint dict_get (k : string) (d : dict) : option V :=
  match d with
  | [] => None
  | (k', v) :: d' => if String.eqb k' k then Some v else dict_get k d'
  end.

(** [k in d] *)
Definition dict_mem (k : string) (d : dict) : bool :=
  match dict_get k d with Some _ => true | None => false end.

(** [d[k] = v]: an existing key keeps its position. *)
Fixpoint dict_set (k : string) (v : V) (d : dict) : dict :=
  match d with
  | [] => [(k, v)]
  | (k', v') :: d' =>
      if String.eqb k' k then (k', v) :: d' else (k', v') :: dict_set k v d'
  end.

(** [d[k]] *)
Definition dict_item (k : string) (d : dict) : outcome V :=
  match dict_get k d with Some v => Ok v | None => Raise KeyError end.
End Dict.

(* ================================================================= *)
(** ** Data model *)

(** A liquidity-pool record as the collector stores it: a dict with an
    ["id"] and whichever of the other keys the venue supplies.  A key that
    may be absent is an [option]; [token0]/[token1]/[coins] hold the
    ["symbol"] of the nested token dicts. *)
Record pool : Type := {
  p_id : string;
  p_token0 : option string;
  p_token1 : option string;
  p_reserve0 : option Q;
  p_reserve1 : option Q;
  p_reserveUSD : option Q;
  p_volumeUSD24h : option Q;
  p_feeTier : option Q;
  p_coins : option (list string);
  p_balances : option (list Q);
  p_fee : option Q
}.

(** [pool.get(key, default)] *)
Definition get_or (o : option Q) (default : Q) : Q :=
  match o with Some v => v | None => default end.

(** One entry of [pair_prices[pair_key]]. *)
Record price_obs : Type := {
  o_dex_id : string;
  o_network_id : string;
  o_pool_id : string;
  o_price : Q;
  o_reserve_a : Q;
  o_reserve_b : Q;
  o_reserveUSD : option Q;
  o_fee : Q
}.

(** One entry of [token_graph[a][b]]. *)
Record edge : Type := {
  e_price : Q;
  e_pool_id : string;
  e_fee : Q
}.

Record cross_dex : Type := {
  cd_token_pair : string;
  cd_token0 : string;
  cd_token1 : string;
  cd_buy_dex : string;
  cd_buy_network : string;
  cd_buy_pool : string;
  cd_buy_price : Q;
  cd_sell_dex : string;
  cd_sell_network : string;
  cd_sell_pool : string;
  cd_sell_price : Q;
  cd_price_diff_pct : Q;
  cd_buy_fee : Q;
  cd_sell_fee : Q;
  cd_estimated_gas_cost_pct : Q;
  cd_net_profit_pct : Q;
  cd_timestamp : Q
}.

Record triangular : Type := {
  tr_dex_id : string;
  tr_network_id : string;
  tr_token_a : string;
  tr_token_b : string;
  tr_token_c : string;
  tr_price_a_to_b : Q;
  tr_price_b_to_c : Q;
  tr_price_c_to_a : Q;
  tr_round_trip_rate : Q;
  tr_pool_a_to_b : string;
  tr_pool_b_to_c : string;
  tr_pool_c_to_a : string;
  tr_total_fee : Q;
  tr_estimated_gas_cost_pct : Q;
  tr_net_profit_pct : Q;
  tr_timestamp : Q
}.

(** An opportunity dict, discriminated by its ["type"]. *)
Inductive opportunity : Type :=
| CrossDex (o : cross_dex)
| Triangular (o : triangular).

(** [opp["net_profit_pct"]] *)
Definition net_profit_pct (opp : opportunity) : Q :=
  match opp with
  | CrossDex o => cd_net_profit_pct o
  | Triangular o => tr_net_profit_pct o
  end.

(* ================================================================= *)
(** ** The analysis monad: [self.price_discrepancies] plus exceptions *)

Definition analysis (A : Type) : Type :=
  list opportunity -> outcome A * list opportunity.

Definition ret {A : Type} (a : A) : analysis A := fun st => (Ok a, st).
Definition raise {A : Type} (e : exn) : analysis A := fun st => (Raise e, st).
Definition bind {A B : Type} (m : analysis A) (f : A -> analysis B) : analysis B :=
  fun st => match m st with
            | (Ok a, st') => f a st'
            | (Raise e, st') => (Raise e, st')
            end.
Definition lift {A : Type} (r : outcome A) : analysis A := fun st => (r, st).

(** [self.price_discrepancies.append(opp)] *)
Definition append (opp : opportunity) : analysis unit :=
  fun st => (Ok tt, st ++ [opp]).

Notation "x <- m ;; k" := (bind m (fun x => k))
  (at level 61, m at next level, right associativity).
Notation "m ;;; k" := (bind m (fun _ => k))
  (at level 61, right associativity).

(** [for x in xs: body(x)] *)
Fixpoint for_each {A : Type} (xs : list A) (body : A -> analysis unit) : analysis unit :=
  match xs with
  | [] => ret tt
  | x :: xs' => body x ;;; for_each xs' body
  end.

(** The same loop for code that only raises (no state). *)
Fixpoint fold_raise {A S : Type} (xs : list A) (body : S -> A -> outcome S) (s : S) : outcome S :=
  match xs with
  | [] => Ok s
  | x :: xs' =>
      match body s x with
      | Ok s' => fold_raise xs' body s'
      | Raise e => Raise e
      end
  end.

Definition obind {A B : Type} (r : outcome A) (f : A -> outcome B) : outcome B :=
  match r with Ok a => f a | Raise e => Raise e end.

(** [xs[i]] for an index [i >= 0]. *)
Definition py_index {A : Type} (xs : list A) (i : nat) : outcome A :=
  match nth_error xs i with Some v => Ok v | None => Raise IndexError end.

(* ================================================================= *)
(** ** analyzer.py: [PriceAnalyzer] *)

Module Analyzer.

(** ["token0" in pool and "token1" in pool and "reserve0" in pool and
    "reserve1" in pool] *)
Definition uniswap_like (p : pool) : option (string * string * Q * Q) :=
  match p_token0 p, p_token1 p, p_reserve0 p, p_reserve1 p with
  | Some t0, Some t1, Some r0, Some r1 => Some (t0, t1, r0, r1)
  | _, _, _, _ => None
  end.

(** ["coins" in pool and "balances" in pool] *)
Definition curve_like (p : pool) : option (list string * list Q) :=
  match p_coins p, p_balances p with
  | Some cs, Some bs => Some (cs, bs)
  | _, _ => None
  end.

(** [b / a if a > 0 else 0] *)
Definition ratio_or_zero (b a : Q) : Q := if Qltb 0 a then b / a else 0.

Definition pair_prices : Type := dict (list price_obs).

(** [if pair_key not in pair_prices: pair_prices[pair_key] = []]
    followed by [pair_prices[pair_key].append(obs)]. *)
Fixpoint record_price (pair_key : string) (obs : price_obs) (pp : pair_prices) : pair_prices :=
  match pp with
  | [] => [(pair_key, [obs])]
  | (k, l) :: pp' =>
      if String.eqb k pair_key then (k, l ++ [obs]) :: pp'
      else (k, l) :: record_price pair_key obs pp'
  end.

Definition uniswap_obs (dex_id network_id : string) (p : pool) (r0 r1 : Q) : price_obs :=
  {| o_dex_id := dex_id;
     o_network_id := network_id;
     o_pool_id := p_id p;
     o_price := ratio_or_zero r1 r0;
     o_reserve_a := r0;
     o_reserve_b := r1;
     o_reserveUSD := Some (get_or (p_reserveUSD p) 0);
     o_fee := get_or (p_feeTier p) 0.003 |}.

(** The index pairs of
    [for i in range(len(coins) - 1): for j in range(i + 1, len(coins))]. *)
Definition coin_pairs (n : nat) : list (nat * nat) :=
  flat_map (fun i => map (fun j => (i, j)) (seq (S i) (n - S i))) (seq 0 (n - 1)).

(** Body of the inner loop over a Curve-like pool. *)
Definition curve_step (dex_id network_id : string) (p : pool)
    (coins : list string) (balances : list Q)
    (pp : pair_prices) (ij : nat * nat) : outcome pair_prices :=
  let (i, j) := ij in
  obind (py_index coins i) (fun token_i =>
  obind (py_index coins j) (fun token_j =>
  obind (py_index balances i) (fun bi =>
  obind (py_index balances j) (fun bj =>
    Ok (record_price (fmt_key token_i token_j)
          {| o_dex_id := dex_id;
             o_network_id := network_id;
             o_pool_id := p_id p;
             o_price := ratio_or_zero bj bi;
             o_reserve_a := bi;
             o_reserve_b := bj;
             o_reserveUSD := None;
             o_fee := get_or (p_fee p) 0.0004 |} pp))))).

(** Body of [for pool in pools]. *)
Definition extract_pool (dex_id network_id : string)
    (pp : pair_prices) (p : pool) : outcome pair_prices :=
  match uniswap_like p with
  | Some (token0, token1, r0, r1) =>
      Ok (record_price (fmt_key token0 token1) (uniswap_obs dex_id network_id p r0 r1) pp)
  | None =>
      match curve_like p with
      | Some (coins, balances) =>
          fold_raise (coin_pairs (List.length coins))
                     (curve_step dex_id network_id p coins balances) pp
      | None => Ok pp
      end
  end.

(** Body of [for key, pools in all_pools.items()]. *)
Definition extract_group (pp : pair_prices) (kv : string * list pool) : outcome pair_prices :=
  let (key, pools) := kv in
  obind (unpack2 (py_split key)) (fun dn =>
    let (dex_id, network_id) := dn in
    fold_raise pools (extract_pool dex_id network_id) pp).

(** The first loop of [analyze_cross_dex_opportunities]. *)
Definition extract (all_pools : dict (list pool)) : outcome pair_prices :=
  fold_raise all_pools extract_group [].

Definition estimated_gas_cost_pct_cross : Q := 0.001.

(** The quantities computed for one pair from its two extreme observations. *)
Definition cross_net (price_diff_pct : Q) (lowest highest : price_obs) : Q :=
  price_diff_pct - o_fee lowest - o_fee highest - estimated_gas_cost_pct_cross.

Definition cross_opportunity (now : Q) (pair_key token0 token1 : string)
    (lowest highest : price_obs) (price_diff_pct : Q) : cross_dex :=
  {| cd_token_pair := pair_key;
     cd_token0 := token0;
     cd_token1 := token1;
     cd_buy_dex := o_dex_id lowest;
     cd_buy_network := o_network_id lowest;
     cd_buy_pool := o_pool_id lowest;
     cd_buy_price := o_price lowest;
     cd_sell_dex := o_dex_id highest;
     cd_sell_network := o_network_id highest;
     cd_sell_pool := o_pool_id highest;
     cd_sell_price := o_price highest;
     cd_price_diff_pct := price_diff_pct;
     cd_buy_fee := o_fee lowest;
     cd_sell_fee := o_fee highest;
     cd_estimated_gas_cost_pct := estimated_gas_cost_pct_cross;
     cd_net_profit_pct := cross_net price_diff_pct lowest highest;
     cd_timestamp := now |}.

(** Body of [for pair_key, prices in pair_prices.items()]. *)
Definition scan_pair (MIN_PROFIT_THRESHOLD now : Q)
    (kv : string * list price_obs) : analysis unit :=
  let (pair_key, prices) := kv in
  match prices with
  | [] => ret tt
  | x :: xs =>
      if (List.length prices <? 2)%nat then ret tt
      else
        let lowest_price := py_min_by o_price x xs in
        let highest_price := py_max_by o_price x xs in
        price_diff_pct <- lift (py_div (o_price highest_price - o_price lowest_price)
                                       (o_price lowest_price)) ;;
        if Qle_bool MIN_PROFIT_THRESHOLD (cross_net price_diff_pct lowest_price highest_price)
        then
          ts <- lift (unpack2 (py_split pair_key)) ;;
          append (CrossDex (cross_opportunity now pair_key (fst ts) (snd ts)
                              lowest_price highest_price price_diff_pct))
        else ret tt
  end.

Definition analyze_cross_dex_opportunities (MIN_PROFIT_THRESHOLD now : Q)
    (all_pools : dict (list pool)) : analysis unit :=
  pp <- lift (extract all_pools) ;;
  for_each pp (scan_pair MIN_PROFIT_THRESHOLD now).

(* ----------------------------------------------------------------- *)
(** *** Triangular scan *)

Definition token_graph : Type := dict (dict edge).

(** [if t not in token_graph: token_graph[t] = {}] *)
Definition ensure_token (t : string) (g : token_graph) : token_graph :=
  if dict_mem t g then g else g ++ [(t, [])].

(** [token_graph.get(a, {})] *)
Definition neighbours (g : token_graph) (a : string) : dict edge :=
  match dict_get a g with Some adj => adj | None => [] end.

(** [token_graph[a][b] = e]; [a] is a key when this runs. *)
Definition set_edge (a b : string) (e : edge) (g : token_graph) : token_graph :=
  match dict_get a g with
  | Some adj => dict_set a (dict_set b e adj) g
  | None => g
  end.

(** Body of the graph-building [for pool in pools]. *)
Definition add_pool (g : token_graph) (p : pool) : token_graph :=
  match uniswap_like p with
  | Some (token0, token1, r0, r1) =>
      let price_0_to_1 := ratio_or_zero r1 r0 in
      let price_1_to_0 := ratio_or_zero r0 r1 in
      let g := ensure_token token0 g in
      let g := ensure_token token1 g in
      let g := set_edge token0 token1
                 {| e_price := price_0_to_1; e_pool_id := p_id p;
                    e_fee := get_or (p_feeTier p) 0.003 |} g in
      set_edge token1 token0
        {| e_price := price_1_to_0; e_pool_id := p_id p;
           e_fee := get_or (p_feeTier p) 0.003 |} g
  | None => g
  end.

Definition build_graph (pools : list pool) : token_graph :=
  fold_left add_pool pools [].

(** [token_graph[a][b]] *)
Definition edge_item (g : token_graph) (a b : string) : outcome edge :=
  obind (dict_item a g) (fun adj => dict_item b adj).

Definition estimated_gas_cost_pct_tri : Q := 0.002.

Definition round_trip (ab bc ca : edge) : Q := e_price ab * e_price bc * e_price ca.
Definition fee_sum (ab bc ca : edge) : Q := e_fee ab + e_fee bc + e_fee ca.
Definition tri_net (ab bc ca : edge) : Q :=
  round_trip ab bc ca - 1 - fee_sum ab bc ca - estimated_gas_cost_pct_tri.

Definition tri_opportunity (now : Q) (dex_id network_id a b c : string)
    (ab bc ca : edge) : triangular :=
  {| tr_dex_id := dex_id;
     tr_network_id := network_id;
     tr_token_a := a;
     tr_token_b := b;
     tr_token_c := c;
     tr_price_a_to_b := e_price ab;
     tr_price_b_to_c := e_price bc;
     tr_price_c_to_a := e_price ca;
     tr_round_trip_rate := round_trip ab bc ca;
     tr_pool_a_to_b := e_pool_id ab;
     tr_pool_b_to_c := e_pool_id bc;
     tr_pool_c_to_a := e_pool_id ca;
     tr_total_fee := fee_sum ab bc ca;
     tr_estimated_gas_cost_pct := estimated_gas_cost_pct_tri;
     tr_net_profit_pct := tri_net ab bc ca;
     tr_timestamp := now |}.

(** Body of the innermost loop, for one [(token_a, token_b, token_c)]. *)
Definition tri_step (MIN_PROFIT_THRESHOLD now : Q) (dex_id network_id : string)
    (g : token_graph) (a b c : string) : analysis unit :=
  if dict_mem c g && dict_mem a (neighbours g c) then
    ab <- lift (edge_item g a b) ;;
    bc <- lift (edge_item g b c) ;;
    ca <- lift (edge_item g c a) ;;
    if Qle_bool MIN_PROFIT_THRESHOLD (tri_net ab bc ca)
    then append (Triangular (tri_opportunity now dex_id network_id a b c ab bc ca))
    else ret tt
  else ret tt.

(** The three nested loops over one token graph. *)
Definition scan_graph (MIN_PROFIT_THRESHOLD now : Q) (dex_id network_id : string)
    (g : token_graph) : analysis unit :=
  for_each (keys g) (fun a =>
    for_each (keys (neighbours g a)) (fun b =>
      for_each (keys (neighbours g b)) (fun c =>
        tri_step MIN_PROFIT_THRESHOLD now dex_id network_id g a b c))).

(** Body of [for key, pools in all_pools.items()]. *)
Definition scan_group (MIN_PROFIT_THRESHOLD now : Q)
    (kv : string * list pool) : analysis unit :=
  let (key, pools) := kv in
  dn <- lift (unpack2 (py_split key)) ;;
  if (List.length pools <? 3)%nat then ret tt
  else scan_graph MIN_PROFIT_THRESHOLD now (fst dn) (snd dn) (build_graph pools).

Definition analyze_triangular_opportunities (MIN_PROFIT_THRESHOLD now : Q)
    (all_pools : dict (list pool)) : analysis unit :=
  for_each all_pools (scan_group MIN_PROFIT_THRESHOLD now).

(** The [try] block of [analyze_prices]: the list is reset, both scans run,
    and an exception ends the block with what was appended so far. *)
Definition analyze_prices (MIN_PROFIT_THRESHOLD now : Q)
    (all_pools : dict (list pool)) : outcome unit * list opportunity :=
  (analyze_cross_dex_opportunities MIN_PROFIT_THRESHOLD now all_pools ;;;
   analyze_triangular_opportunities MIN_PROFIT_THRESHOLD now all_pools) [].

(* ----------------------------------------------------------------- *)
(** *** Ranking *)

(** [sorted(xs, key=k, reverse=True)]: the stable descending order. *)
Fixpoint insert_desc {A : Type} (k : A -> Q) (x : A) (l : list A) : list A :=
  match l with
  | [] => [x]
  | y :: l' => if Qltb (k x) (k y) then y :: insert_desc k x l' else x :: y :: l'
  end.
Definition sorted_desc {A : Type} (k : A -> Q) (l : list A) : list A :=
  fold_right (insert_desc k) [] l.

Definition get_arbitrage_opportunities (price_discrepancies : list opportunity)
    (min_profit : Q) (limit : Z) : list opportunity :=
  let filtered_opportunities :=
    filter (fun opp => Qle_bool min_profit (net_profit_pct opp)) price_discrepancies in
  let sorted_opportunities := sorted_desc net_profit_pct filtered_opportunities in
  py_slice_to sorted_opportunities limit.

End Analyzer.

(* ================================================================= *)
(** ** detector.py: [ArbitrageDetector] *)

(** What the detector reads from [MarketDataService]. *)
Record market_data : Type := {
  token_prices : dict Q;
  liquidity_pools : dict (list pool)
}.

(** The dict threaded through the [validate_*] methods; [vd_extra] holds the
    keys that [update] adds on success. *)
Record validation_details : Type := {
  validation_timestamp : Q;
  is_valid : bool;
  validation_message : string;
  expected_profit_usd : Q;
  max_trade_size_usd : Q;
  optimal_trade_size_usd : Q;
  estimated_execution_time_ms : Q;
  risk_score : Q;
  vd_extra : dict Q
}.

Module Detector.

(** [collector.get_token_price] *)
Definition get_token_price (md : market_data) (token_id : string) : option Q :=
  dict_get token_id (token_prices md).

(** [collector.get_liquidity_pools] *)
Definition get_liquidity_pools (md : market_data) (dex_id network_id : string) : list pool :=
  match dict_get (fmt_key dex_id network_id) (liquidity_pools md) with
  | Some pools => pools
  | None => []
  end.

(** [x or 1.0] on an optional number. *)
Definition or_one (x : option Q) : Q :=
  match x with
  | Some v => if Qeq_bool v 0 then 1 else v
  | None => 1
  end.

Definition placeholder (pool_id : string) : pool :=
  {| p_id := pool_id;
     p_token0 := None; p_token1 := None;
     p_reserve0 := None; p_reserve1 := None;
     p_reserveUSD := Some 500000;
     p_volumeUSD24h := Some 1000000;
     p_feeTier := None; p_coins := None; p_balances := None; p_fee := None |}.

(** The return type is [Optional[Dict]]; [None] is how a caller would see
    "no record". *)
Definition get_pool_details (md : market_data)
    (dex_id network_id pool_id : string) : option pool :=
  let pools := get_liquidity_pools md dex_id network_id in
  match find (fun p => String.eqb (p_id p) pool_id) pools with
  | Some p => Some p
  | None => Some (placeholder pool_id)
  end.

Definition calculate_optimal_trade_size (buy_liquidity sell_liquidity profit_pct : Q) : Q :=
  let base_size := py_min2 buy_liquidity sell_liquidity * 0.005 in
  let profit_multiplier := 1 + profit_pct * 10 in
  let max_size := py_min2 buy_liquidity sell_liquidity * 0.05 in
  py_min2 (base_size * profit_multiplier) max_size.

Definition calculate_optimal_trade_size_triangular
    (liquidity_a_to_b liquidity_b_to_c liquidity_c_to_a profit_pct : Q) : Q :=
  let base_size := py_min3 liquidity_a_to_b liquidity_b_to_c liquidity_c_to_a * 0.003 in
  let profit_multiplier := 1 + profit_pct * 8 in
  let max_size := py_min3 liquidity_a_to_b liquidity_b_to_c liquidity_c_to_a * 0.03 in
  py_min2 (base_size * profit_multiplier) max_size.

Definition calculate_risk_score
    (profit_pct buy_liquidity sell_liquidity : Q) (cross_network : bool) : Q :=
  let risk_score := 50 in
  let risk_score := risk_score + profit_pct * 1000 in
  let min_liquidity := py_min2 buy_liquidity sell_liquidity in
  let risk_score :=
    if Qltb min_liquidity 100000 then risk_score + 20
    else if Qltb min_liquidity 500000 then risk_score + 10
    else if Qltb min_liquidity 1000000 then risk_score + 5
    else risk_score in
  let risk_score := if cross_network then risk_score + 15 else risk_score in
  py_max2 0 (py_min2 100 risk_score).

(** Modelled from the spec: the end of [calculate_risk_score_triangular].
    src/detector.py stops inside that function, right after its first
    liquidity branch; the remaining tiers ("+10 if <$500k, +5 if <$1M, else
    0") and the final clamp to [0,100] follow the specification's wording. *)
Definition risk_score_triangular_rest (min_liquidity risk_score : Q) : Q :=
  if Qltb min_liquidity 500000 then risk_score + 10
  else if Qltb min_liquidity 1000000 then risk_score + 5
  else risk_score.

(** Modelled from the spec: the [return] of [calculate_risk_score_triangular],
    also past the end of src/detector.py; "clamp to [0,100]", written as the
    cross-venue method writes it. *)
Definition risk_score_triangular_return (risk_score : Q) : Q :=
  py_max2 0 (py_min2 100 risk_score).

Definition calculate_risk_score_triangular
    (profit_pct liquidity_a_to_b liquidity_b_to_c liquidity_c_to_a : Q) : Q :=
  let risk_score := 40 in
  let risk_score := risk_score + profit_pct * 1200 in
  let min_liquidity := py_min3 liquidity_a_to_b liquidity_b_to_c liquidity_c_to_a in
  let risk_score :=
    if Qltb min_liquidity 100000 then risk_score + 25
    else risk_score_triangular_rest min_liquidity risk_score in
  risk_score_triangular_return risk_score.

Definition initial_details (now : Q) : validation_details :=
  {| validation_timestamp := now;
     is_valid := false;
     validation_message := "";
     expected_profit_usd := 0;
     max_trade_size_usd := 0;
     optimal_trade_size_usd := 0;
     estimated_execution_time_ms := 0;
     risk_score := 0;
     vd_extra := [] |}.

(** [validation_details["validation_message"] = msg] *)
Definition with_message (msg : string) (d : validation_details) : validation_details :=
  {| validation_timestamp := validation_timestamp d;
     is_valid := is_valid d;
     validation_message := msg;
     expected_profit_usd := expected_profit_usd d;
     max_trade_size_usd := max_trade_size_usd d;
     optimal_trade_size_usd := optimal_trade_size_usd d;
     estimated_execution_time_ms := estimated_execution_time_ms d;
     risk_score := risk_score d;
     vd_extra := vd_extra d |}.

(** [d.update(extra)] for a list of fresh or existing keys. *)
Definition update_extra (extra : dict Q) (d : dict Q) : dict Q :=
  fold_left (fun acc kv => dict_set (fst kv) (snd kv) acc) extra d.

Section Validation.
(** [self.market_data] and [self.min_liquidity]. *)
Variable md : market_data.
Variable min_liquidity : Q.

(** [self.get_pool_details], as the validation methods call it: a bound
    method, [get_pool_details md] on the detector itself. *)
Variable pool_details : string -> string -> string -> option pool.

(** [estimate_execution_time] and [estimate_execution_time_triangular] lie
    beyond the end of src/detector.py; they are parameters. *)
Variable estimate_execution_time : string -> string -> Q.
Variable estimate_execution_time_triangular : string -> Q.

Definition validate_cross_dex_opportunity (opportunity : cross_dex)
    (details : validation_details) : bool * validation_details :=
  let token0 := cd_token0 opportunity in
  let token1 := cd_token1 opportunity in
  let token0_price := or_one (get_token_price md (lower token0)) in
  let token1_price := or_one (get_token_price md (lower token1)) in
  let buy_pool := pool_details (cd_buy_dex opportunity) (cd_buy_network opportunity)
                               (cd_buy_pool opportunity) in
  let sell_pool := pool_details (cd_sell_dex opportunity) (cd_sell_network opportunity)
                                (cd_sell_pool opportunity) in
  match buy_pool, sell_pool with
  | Some buy_pool, Some sell_pool =>
      let buy_liquidity_usd := get_or (p_reserveUSD buy_pool) 0 in
      let sell_liquidity_usd := get_or (p_reserveUSD sell_pool) 0 in
      if Qltb buy_liquidity_usd min_liquidity || Qltb sell_liquidity_usd min_liquidity
      then (false, with_message "Insufficient liquidity" details)
      else
        let max_trade_size := py_min2 buy_liquidity_usd sell_liquidity_usd * 0.05 in
        let optimal_trade_size :=
          calculate_optimal_trade_size buy_liquidity_usd sell_liquidity_usd
                                       (cd_net_profit_pct opportunity) in
        let expected_profit := optimal_trade_size * cd_net_profit_pct opportunity in
        let risk :=
          calculate_risk_score (cd_net_profit_pct opportunity)
            buy_liquidity_usd sell_liquidity_usd
            (negb (String.eqb (cd_buy_network opportunity) (cd_sell_network opportunity))) in
        let execution_time :=
          estimate_execution_time (cd_buy_network opportunity)
                                  (cd_sell_network opportunity) in
        (true,
         {| validation_timestamp := validation_timestamp details;
            is_valid := true;
            validation_message := "Opportunity validated successfully";
            expected_profit_usd := expected_profit;
            max_trade_size_usd := max_trade_size;
            optimal_trade_size_usd := optimal_trade_size;
            estimated_execution_time_ms := execution_time;
            risk_score := risk;
            vd_extra :=
              update_extra [("token0_price_usd", token0_price);
                            ("token1_price_usd", token1_price);
                            ("buy_liquidity_usd", buy_liquidity_usd);
                            ("sell_liquidity_usd", sell_liquidity_usd)]
                           (vd_extra details) |})
  | _, _ => (false, with_message "Could not retrieve pool details" details)
  end.

Definition validate_triangular_opportunity (opportunity : triangular)
    (details : validation_details) : bool * validation_details :=
  let lookup := pool_details (tr_dex_id opportunity) (tr_network_id opportunity) in
  match lookup (tr_pool_a_to_b opportunity),
        lookup (tr_pool_b_to_c opportunity),
        lookup (tr_pool_c_to_a opportunity) with
  | Some pool_a_to_b, Some pool_b_to_c, Some pool_c_to_a =>
      let liquidity_a_to_b := get_or (p_reserveUSD pool_a_to_b) 0 in
      let liquidity_b_to_c := get_or (p_reserveUSD pool_b_to_c) 0 in
      let liquidity_c_to_a := get_or (p_reserveUSD pool_c_to_a) 0 in
      let smallest := py_min3 liquidity_a_to_b liquidity_b_to_c liquidity_c_to_a in
      if Qltb smallest min_liquidity
      then (false, with_message "Insufficient liquidity" details)
      else
        let max_trade_size := smallest * 0.03 in
        let optimal_trade_size :=
          calculate_optimal_trade_size_triangular
            liquidity_a_to_b liquidity_b_to_c liquidity_c_to_a
            (tr_round_trip_rate opportunity - 1) in
        let expected_profit :=
          optimal_trade_size *
          (tr_round_trip_rate opportunity - 1 - tr_total_fee opportunity) in
        let risk :=
          calculate_risk_score_triangular (tr_round_trip_rate opportunity - 1)
            liquidity_a_to_b liquidity_b_to_c liquidity_c_to_a in
        let execution_time :=
          estimate_execution_time_triangular (tr_network_id opportunity) in
        (true,
         {| validation_timestamp := validation_timestamp details;
            is_valid := true;
            validation_message := "Opportunity validated successfully";
            expected_profit_usd := expected_profit;
            max_trade_size_usd := max_trade_size;
            optimal_trade_size_usd := optimal_trade_size;
            estimated_execution_time_ms := execution_time;
            risk_score := risk;
            vd_extra :=
              update_extra [("liquidity_a_to_b", liquidity_a_to_b);
                            ("liquidity_b_to_c", liquidity_b_to_c);
                            ("liquidity_c_to_a", liquidity_c_to_a)]
                           (vd_extra details) |})
  | _, _, _ => (false, with_message "Could not retrieve pool details" details)
  end.

(** The dispatch on [opportunity["type"]]. *)
Definition validate_opportunity (now : Q) (opportunity : opportunity)
    : bool * validation_details :=
  match opportunity with
  | CrossDex o => validate_cross_dex_opportunity o (initial_details now)
  | Triangular o => validate_triangular_opportunity o (initial_details now)
  end.
End Validation.

(** The detector as deployed: its own [get_pool_details] is the lookup. *)
Definition validate (md : market_data) (min_liquidity : Q)
    (estimate_execution_time : string -> string -> Q)
    (estimate_execution_time_triangular : string -> Q)
    (now : Q) (opp : opportunity) : bool * validation_details :=
  validate_opportunity md min_liquidity (get_pool_details md)
    estimate_execution_time estimate_execution_time_triangular now opp.

(** Defaults of src/config.py. *)
Definition MIN_PROFIT_THRESHOLD_default : Q := 0.005.
Definition MIN_LIQUIDITY_THRESHOLD_default : Q := 100000.

End Detector.

Unset Implicit Arguments.

(* ================================================================= *)
(** ** Vocabulary of the specification *)

Module Spec.

(** "clamp to [0,100]" *)
Definition clamp_0_100 (x : Q) : Q := Qmax 0 (Qmin 100 x).

(** "+20 if <$100k, +10 if <$500k, +5 if <$1M, else 0, using the smallest leg" *)
Definition liquidity_penalty (smallest : Q) : Q :=
  if Qltb smallest 100000 then 20
  else if Qltb smallest 500000 then 10
  else if Qltb smallest 1000000 then 5
  else 0.

(** "base value 50 + profit_pct * 1000 + penalty + 15 if cross-network" *)
Definition risk_cross (profit_pct buy_liquidity sell_liquidity : Q) (cross_network : bool) : Q :=
  clamp_0_100 (50 + profit_pct * 1000
               + liquidity_penalty (Qmin buy_liquidity sell_liquidity)
               + (if cross_network then 15 else 0)).

(** "base value 40 + profit_pct * 1200 + penalty" *)
Definition risk_triangular (profit_pct la lb lc : Q) : Q :=
  clamp_0_100 (40 + profit_pct * 1200 + liquidity_penalty (Qmin (Qmin la lb) lc)).

(** The tiers the triangular score is computed with: 25 in the lowest one. *)
Definition liquidity_penalty_triangular (smallest : Q) : Q :=
  if Qltb smallest 100000 then 25
  else if Qltb smallest 500000 then 10
  else if Qltb smallest 1000000 then 5
  else 0.

(** "sorted descending by net_profit_pct" *)
Definition descending (l : list opportunity) : Prop :=
  StronglySorted (fun a b => net_profit_pct b <= net_profit_pct a) l.

(** The opportunities of a list whose net profit is [v], in list order. *)
Definition with_net (v : Q) (l : list opportunity) : list opportunity :=
  filter (fun o => Qeq_bool (net_profit_pct o) v) l.

Definition prefix_of {A : Type} (l1 l2 : list A) : Prop :=
  exists rest, l2 = l1 ++ rest.

(** "stable order": opportunities of equal net profit come out in the
    order they had in the input (truncation may drop the last of them). *)
Definition keeps_input_order (input output : list opportunity) : Prop :=
  forall v, prefix_of (with_net v output) (with_net v input).

(** [obs] is one of the observations grouped under [pair_key]. *)
Definition grouped_under (pp : Analyzer.pair_prices) (pair_key : string)
    (obs : price_obs) : Prop :=
  exists l, dict_get pair_key pp = Some l /\ In obs l.

(** The symbol contains no ["_"]. *)
Fixpoint no_underscore (s : string) : bool :=
  match s with
  | EmptyString => true
  | String c s' => negb (Ascii.eqb c "_"%char) && no_underscore s'
  end.

(** "price(A→B)": the entry the scanner reads as [token_graph[a][b]]. *)
Definition edge_of (g : Analyzer.token_graph) (a b : string) : option edge :=
  dict_get b (Analyzer.neighbours g a).

(** What one [(a, b, c)] of the enumeration contributes. *)
Definition tri_found_at (thr now : Q) (dex_id network_id : string)
    (g : Analyzer.token_graph) (a b c : string) : list opportunity :=
  match edge_of g a b, edge_of g b c, edge_of g c a with
  | Some ab, Some bc, Some ca =>
      if Qle_bool thr (Analyzer.tri_net ab bc ca)
      then [Triangular (Analyzer.tri_opportunity now dex_id network_id a b c ab bc ca)]
      else []
  | _, _, _ => []
  end.

(** The opportunities of one token graph, in enumeration order. *)
Definition tri_found (thr now : Q) (dex_id network_id : string)
    (g : Analyzer.token_graph) : list opportunity :=
  flat_map (fun a =>
    flat_map (fun b =>
      flat_map (fun c => tri_found_at thr now dex_id network_id g a b c)
               (keys (Analyzer.neighbours g b)))
             (keys (Analyzer.neighbours g a)))
           (keys g).

(** "the pool lookup yields no record for any leg" *)
Definition missing_leg (lookup : string -> string -> string -> option pool)
    (opp : opportunity) : Prop :=
  match opp with
  | CrossDex o =>
      lookup (cd_buy_dex o) (cd_buy_network o) (cd_buy_pool o) = None \/
      lookup (cd_sell_dex o) (cd_sell_network o) (cd_sell_pool o) = None
  | Triangular o =>
      lookup (tr_dex_id o) (tr_network_id o) (tr_pool_a_to_b o) = None \/
      lookup (tr_dex_id o) (tr_network_id o) (tr_pool_b_to_c o) = None \/
      lookup (tr_dex_id o) (tr_network_id o) (tr_pool_c_to_a o) = None
  end.

(** "no pool with the given id is found among the known pools" *)
Definition unknown_pool (md : market_data) (dex_id network_id pool_id : string) : Prop :=
  find (fun p => String.eqb (p_id p) pool_id)
       (Detector.get_liquidity_pools md dex_id network_id) = None.

(** Every leg of the opportunity names a pool id that is not known. *)
Definition all_legs_unknown (md : market_data) (opp : opportunity) : Prop :=
  match opp with
  | CrossDex o =>
      unknown_pool md (cd_buy_dex o) (cd_buy_network o) (cd_buy_pool o) /\
      unknown_pool md (cd_sell_dex o) (cd_sell_network o) (cd_sell_pool o)
  | Triangular o =>
      unknown_pool md (tr_dex_id o) (tr_network_id o) (tr_pool_a_to_b o) /\
      unknown_pool md (tr_dex_id o) (tr_network_id o) (tr_pool_b_to_c o) /\
      unknown_pool md (tr_dex_id o) (tr_network_id o) (tr_pool_c_to_a o)
  end.

(** "expected_profit_usd = optimal_trade_size_usd * net_profit_pct" *)
Definition profit_is_size_times_net (opp : opportunity) (d : validation_details) : Prop :=
  expected_profit_usd d == optimal_trade_size_usd d * net_profit_pct opp.

End Spec.

(* ================================================================= *)
(** ** Sample snapshots *)

Module Sample.

Definition two_token_pool (id t0 t1 : string) (r0 r1 usd : Q) (fee : option Q) : pool :=
  {| p_id := id;
     p_token0 := Some t0; p_token1 := Some t1;
     p_reserve0 := Some r0; p_reserve1 := Some r1;
     p_reserveUSD := Some usd;
     p_volumeUSD24h := None;
     p_feeTier := fee;
     p_coins := None; p_balances := None; p_fee := None |}.

(** One venue with a profitable triangle ETH -> USDC -> DAI -> ETH:
    2000 * 1.01 * (1/1900) is about 1.063. *)
Definition triangle_pools : dict (list pool) :=
  [("uniswap_polygon",
    [two_token_pool "0xe1" "ETH" "USDC" 1 2000 1000000 (Some 0.003);
     two_token_pool "0xe2" "USDC" "DAI" 100 101 1000000 (Some 0.003);
     two_token_pool "0xe3" "DAI" "ETH" 1900 1 1000000 (Some 0.003)])].

Definition triangle_market : market_data :=
  {| token_prices := []; liquidity_pools := triangle_pools |}.

(** Two venues quoting WETH/USDC at 2000 and 2050, no pool fee. *)
Definition spread_pools : dict (list pool) :=
  [("uniswap_polygon", [two_token_pool "0xa1" "WETH" "USDC" 1 2000 1000000 (Some 0)]);
   ("quickswap_polygon", [two_token_pool "0xa2" "WETH" "USDC" 1 2050 1000000 (Some 0)])].


Definition spread_market : market_data :=
  {| token_prices := []; liquidity_pools := spread_pools |}.

(** The triangle ETH -> USDC (2000), USDC -> DAI (1.001), DAI -> ETH (1/2005). *)
Definition losing_triangle_pools : dict (list pool) :=
  [("uniswap_polygon",
    [two_token_pool "0xb1" "ETH" "USDC" 1 2000 1000000 (Some 0.003);
     two_token_pool "0xb2" "USDC" "DAI" 1000 1001 1000000 (Some 0.003);
     two_token_pool "0xb3" "DAI" "ETH" 2005 1 1000000 (Some 0.003)])].

(** WETH/USDC on two venues; the first pool has an empty [reserve0]. *)
Definition zero_reserve_pools : dict (list pool) :=
  [("uniswap_polygon", [two_token_pool "0xc1" "WETH" "USDC" 0 1000 1000000 (Some 0.003)]);
   ("quickswap_polygon", [two_token_pool "0xc2" "WETH" "USDC" 1 2000 1000000 (Some 0.003)])].

(** The same two symbols, listed in opposite order by the two venues. *)
Definition weth_usdc : pool := two_token_pool "0xd1" "WETH" "USDC" 1 2000 1000000 (Some 0.003).
Definition usdc_weth : pool := two_token_pool "0xd2" "USDC" "WETH" 2100 1 1000000 (Some 0.003).
Definition obs_weth_usdc : price_obs :=
  Analyzer.uniswap_obs "uniswap" "polygon" weth_usdc 1 2000.
Definition obs_usdc_weth : price_obs :=
  Analyzer.uniswap_obs "quickswap" "polygon" usdc_weth 2100 1.
Definition swapped_pools : dict (list pool) :=
  [("uniswap_polygon", [weth_usdc]); ("quickswap_polygon", [usdc_weth])].

Definition empty_market : market_data :=
  {| token_prices := []; liquidity_pools := [] |}.

Definition no_latency2 (buy_network sell_network : string) : Q := 0.
Definition no_latency1 (network : string) : Q := 0.

Definition emitted (all_pools : dict (list pool)) : list opportunity :=
  snd (Analyzer.analyze_prices Detector.MIN_PROFIT_THRESHOLD_default 0 all_pools).

Definition first_of (opps : list opportunity) : option opportunity :=
  match opps with o :: _ => Some o | [] => None end.

End Sample.

(* ================================================================= *)
(** ** collector.py: the read side of [MarketDataCollector] *)

Module Collector.

(** [pool.copy()] with the two keys ["dex_id"] and ["network_id"] added. *)
Record pool_with_meta : Type := {
  pm_pool : pool;
  pm_dex_id : string;
  pm_network_id : string
}.

(** ["volumeUSD24h" in pool and pool["volumeUSD24h"] >= min_volume] *)
Definition high_volume (min_volume : Q) (p : pool) : bool :=
  match p_volumeUSD24h p with
  | Some v => Qle_bool min_volume v
  | None => false
  end.

(** Body of [for pool in pools]; the key is split only for a pool that
    passes the test. *)
Definition tag_pool (key : string) (min_volume : Q)
    (high_volume_pools : list pool_with_meta) (p : pool)
    : outcome (list pool_with_meta) :=
  if high_volume min_volume p then
    obind (unpack2 (py_split key)) (fun dn =>
      Ok (high_volume_pools ++
          [{| pm_pool := p; pm_dex_id := fst dn; pm_network_id := snd dn |}]))
  else Ok high_volume_pools.

(** Body of [for key, pools in self.liquidity_pools.items()]. *)
Definition tag_group (min_volume : Q)
    (high_volume_pools : list pool_with_meta) (kv : string * list pool)
    : outcome (list pool_with_meta) :=
  fold_raise (snd kv) (tag_pool (fst kv) min_volume) high_volume_pools.

(** [x.get("volumeUSD24h", 0)] *)
Definition pm_volume (x : pool_with_meta) : Q :=
  get_or (p_volumeUSD24h (pm_pool x)) 0.

Definition get_high_volume_pools (md : market_data) (min_volume : Q)
    : outcome (list pool_with_meta) :=
  obind (fold_raise (liquidity_pools md) (tag_group min_volume) [])
        (fun high_volume_pools => Ok (Analyzer.sorted_desc pm_volume high_volume_pools)).

(** The dict comprehension of [get_token_prices]. *)
Definition get_token_prices (md : market_data) (token_ids : list string) : dict Q :=
  fold_left (fun acc token_id =>
               match dict_get token_id (token_prices md) with
               | Some price => dict_set token_id price acc
               | None => acc
               end)
            token_ids [].

End Collector.

(* ================================================================= *)
(** ** detector.py: the detection cycle of [ArbitrageDetector] *)

Module Cycle.

(** What the detector sees of [MarketDataService]: the collector's data and
    the analyzer's current [price_discrepancies]. *)
Record service : Type := {
  svc_market : market_data;
  svc_price_discrepancies : list opportunity
}.

(** [MarketDataService.get_arbitrage_opportunities(min_profit)], with its
    default [limit = 10]. *)
Definition get_arbitrage_opportunities (svc : service) (min_profit : Q)
    : list opportunity :=
  Analyzer.get_arbitrage_opportunities (svc_price_discrepancies svc) min_profit 10.

(** The attributes of the detector that the cycle reads and writes.  A
    validated opportunity [{**opp, **validation_details}] is the pair of the
    two dicts, whose keys are disjoint. *)
Record detector : Type := {
  det_opportunities : list opportunity;
  det_validated_opportunities : list (opportunity * validation_details);
  det_last_detection : Q;
  det_detection_interval : Q;
  det_min_profit_threshold : Q;
  det_min_liquidity : Q
}.

Section Run.
Variable estimate_execution_time : string -> string -> Q.
Variable estimate_execution_time_triangular : string -> Q.

(** The loop of [validate_opportunities], before the sort. *)
Definition validated_of (svc : service) (min_liquidity now : Q)
    (opps : list opportunity) : list (opportunity * validation_details) :=
  flat_map (fun opp =>
              let r := Detector.validate (svc_market svc) min_liquidity
                         estimate_execution_time estimate_execution_time_triangular
                         now opp in
              if fst r then [(opp, snd r)] else [])
           opps.

(** [x.get("expected_profit_usd", 0)] on a validated opportunity. *)
Definition expected_profit (x : opportunity * validation_details) : Q :=
  expected_profit_usd (snd x).

Definition validate_opportunities (svc : service) (self : detector) (now : Q)
    : detector :=
  let validated := validated_of svc (det_min_liquidity self) now (det_opportunities self) in
  {| det_opportunities := det_opportunities self;
     det_validated_opportunities := Analyzer.sorted_desc expected_profit validated;
     det_last_detection := det_last_detection self;
     det_detection_interval := det_detection_interval self;
     det_min_profit_threshold := det_min_profit_threshold self;
     det_min_liquidity := det_min_liquidity self |}.

(** [current_time] is the clock reading taken on entry, [now] the one
    taken while validating. *)
Definition detect_opportunities (svc : service) (self : detector)
    (current_time now : Q) : detector :=
  if Qltb (current_time - det_last_detection self) (det_detection_interval self)
  then self
  else
    let raw_opportunities :=
      get_arbitrage_opportunities svc (det_min_profit_threshold self) in
    let self :=
      {| det_opportunities := raw_opportunities;
         det_validated_opportunities := det_validated_opportunities self;
         det_last_detection := det_last_detection self;
         det_detection_interval := det_detection_interval self;
         det_min_profit_threshold := det_min_profit_threshold self;
         det_min_liquidity := det_min_liquidity self |} in
    let self := validate_opportunities svc self now in
    {| det_opportunities := det_opportunities self;
       det_validated_opportunities := det_validated_opportunities self;
       det_last_detection := current_time;
       det_detection_interval := det_detection_interval self;
       det_min_profit_threshold := det_min_profit_threshold self;
       det_min_liquidity := det_min_liquidity self |}.
End Run.

(** [ArbitrageDetector.__init__] *)
Definition init : detector :=
  {| det_opportunities := [];
     det_validated_opportunities := [];
     det_last_detection := 0;
     det_detection_interval := 30;
     det_min_profit_threshold := Detector.MIN_PROFIT_THRESHOLD_default;
     det_min_liquidity := Detector.MIN_LIQUIDITY_THRESHOLD_default |}.

End Cycle.

(* ================================================================= *)
(** ** Predicates for the properties below *)

Module Inv.

(** [pool.get("reserveUSD", 0)] *)
Definition leg_liquidity (p : pool) : Q := get_or (p_reserveUSD p) 0.

(** Every leg has a record and at least [min_liquidity] of USD liquidity. *)
Definition all_legs_liquid (lookup : string -> string -> string -> option pool)
    (min_liquidity : Q) (opp : opportunity) : Prop :=
  match opp with
  | CrossDex o =>
      exists bp sp,
        lookup (cd_buy_dex o) (cd_buy_network o) (cd_buy_pool o) = Some bp /\
        lookup (cd_sell_dex o) (cd_sell_network o) (cd_sell_pool o) = Some sp /\
        min_liquidity <= leg_liquidity bp /\ min_liquidity <= leg_liquidity sp
  | Triangular o =>
      exists p1 p2 p3,
        lookup (tr_dex_id o) (tr_network_id o) (tr_pool_a_to_b o) = Some p1 /\
        lookup (tr_dex_id o) (tr_network_id o) (tr_pool_b_to_c o) = Some p2 /\
        lookup (tr_dex_id o) (tr_network_id o) (tr_pool_c_to_a o) = Some p3 /\
        min_liquidity <= leg_liquidity p1 /\ min_liquidity <= leg_liquidity p2 /\
        min_liquidity <= leg_liquidity p3
  end.

(** The gain that scales the trade size: [net_profit_pct] for a cross-venue
    opportunity, [round_trip_rate - 1] for a triangular one. *)
Definition sizing_gain (opp : opportunity) : Q :=
  match opp with
  | CrossDex o => cd_net_profit_pct o
  | Triangular o => tr_round_trip_rate o - 1
  end.

(** The gain that [expected_profit_usd] multiplies. *)
Definition profit_gain (opp : opportunity) : Q :=
  match opp with
  | CrossDex o => cd_net_profit_pct o
  | Triangular o => tr_round_trip_rate o - 1 - tr_total_fee o
  end.

(** What every entry of [price_discrepancies] is expected to satisfy by
    the code that reads it: it clears the threshold it was found with and
    its derived numbers follow from its own prices and fees. *)
Definition consistent (thr : Q) (opp : opportunity) : Prop :=
  match opp with
  | CrossDex o =>
      thr <= cd_net_profit_pct o /\
      cd_net_profit_pct o
      = cd_price_diff_pct o - cd_buy_fee o - cd_sell_fee o - cd_estimated_gas_cost_pct o /\
      cd_estimated_gas_cost_pct o = 0.001 /\
      cd_price_diff_pct o = (cd_sell_price o - cd_buy_price o) / cd_buy_price o /\
      ~ cd_buy_price o == 0 /\
      cd_buy_price o <= cd_sell_price o /\
      cd_token_pair o = fmt_key (cd_token0 o) (cd_token1 o)
  | Triangular o =>
      thr <= tr_net_profit_pct o /\
      tr_net_profit_pct o
      = tr_round_trip_rate o - 1 - tr_total_fee o - tr_estimated_gas_cost_pct o /\
      tr_estimated_gas_cost_pct o = 0.002 /\
      tr_round_trip_rate o
      = tr_price_a_to_b o * tr_price_b_to_c o * tr_price_c_to_a o
  end.

(** The key of an [all_pools] entry unpacks into [dex_id, network_id]. *)
Definition key_unpacks (key : string) : bool :=
  match py_split key with
  | [_; _] => true
  | _ => false
  end.

(** The pool can be read by the extractor: a two-token pool, a pool of
    neither shape, or a multi-token pool that has a balance for each coin
    (or fewer than two coins, so that no pair is formed). *)
Definition pool_readable (p : pool) : bool :=
  match Analyzer.uniswap_like p with
  | Some _ => true
  | None =>
      match Analyzer.curve_like p with
      | Some (coins, balances) =>
          (List.length coins <=? 1)%nat
          || (List.length coins <=? List.length balances)%nat
      | None => true
      end
  end.

Definition group_readable (kv : string * list pool) : bool :=
  key_unpacks (fst kv) && forallb pool_readable (snd kv).

(** The two directions between a pair of tokens are written together from
    one pool: same pool id, same fee, and, between two different tokens,
    prices that are reciprocal or have a zero product. *)
Definition mirrored (g : Analyzer.token_graph) : Prop :=
  forall a b e,
    Spec.edge_of g a b = Some e ->
    exists e',
      Spec.edge_of g b a = Some e' /\
      e_pool_id e' = e_pool_id e /\
      e_fee e' = e_fee e /\
      (a <> b -> e_price e * e_price e' == 1 \/ e_price e * e_price e' == 0).

(** No token occurs twice as a key, at either level of the graph. *)
Definition keyed_once (g : Analyzer.token_graph) : Prop :=
  NoDup (keys g) /\ Forall (fun kv => NoDup (keys (snd kv))) g.

(** [x] is a pool of the snapshot that passes the volume test, tagged with
    the two parts of the key of its group. *)
Definition tagged_from (md : market_data) (min_volume : Q)
    (x : Collector.pool_with_meta) : Prop :=
  Collector.high_volume min_volume (Collector.pm_pool x) = true /\
  exists key pools,
    In (key, pools) (liquidity_pools md) /\ In (Collector.pm_pool x) pools /\
    py_split key = [Collector.pm_dex_id x; Collector.pm_network_id x].

(** A group is harmless for [get_high_volume_pools] when none of its pools
    passes the volume test or its key unpacks. *)
Definition group_taggable (min_volume : Q) (kv : string * list pool) : bool :=
  negb (existsb (Collector.high_volume min_volume) (snd kv)) || key_unpacks (fst kv).

(** The triangular entries of a list, in order. *)
Definition triangular_of (l : list opportunity) : list triangular :=
  flat_map (fun o => match o with Triangular t => [t] | CrossDex _ => [] end) l.

(** Some path a -> b -> c of the graph can be closed by an edge c -> a. *)
Definition has_triangle (g : Analyzer.token_graph) : bool :=
  existsb (fun a =>
    existsb (fun b =>
      existsb (fun c => dict_mem c g && dict_mem a (Analyzer.neighbours g c))
              (keys (Analyzer.neighbours g b)))
            (keys (Analyzer.neighbours g a)))
          (keys g).

(** The path [token_a -> token_b -> token_c] of a triangular entry. *)
Definition path_of (o : triangular) : string * string * string :=
  (tr_token_a o, tr_token_b o, tr_token_c o).

(** ["_".join(parts)] *)
Fixpoint py_join (parts : list string) : string :=
  match parts with
  | [] => EmptyString
  | [a] => a
  | a :: rest => String.append a (String.append "_" (py_join rest))
  end.

Definition by_expected_profit (l : list (opportunity * validation_details)) : Prop :=
  StronglySorted (fun a b => expected_profit_usd (snd b) <= expected_profit_usd (snd a)) l.

(** The share of the smallest leg's liquidity that makes the base size:
    0.5 % for a cross-venue opportunity, 0.3 % for a triangular one. *)
Definition base_fraction (opp : opportunity) : Q :=
  match opp with
  | CrossDex _ => 0.005
  | Triangular _ => 0.003
  end.

End Inv.

(* ================================================================= *)
(** ** Vocabulary for the cross-venue scan as a whole *)

Module Cross.

(** The observations found under [k], the empty list for an absent key. *)
Definition listed (k : string) (pp : Analyzer.pair_prices) : list price_obs :=
  match dict_get k pp with Some l => l | None => [] end.

(** The entries of a keyed list whose key is [k], in order. *)
Definition under (k : string) (kos : list (string * price_obs)) : list price_obs :=
  map snd (filter (fun ko => String.eqb (fst ko) k) kos).

(** The observation a multi-token pool gives for the coins [i] and [j]. *)
Definition curve_obs (dex_id network_id : string) (p : pool) (bi bj : Q) : price_obs :=
  {| o_dex_id := dex_id;
     o_network_id := network_id;
     o_pool_id := p_id p;
     o_price := Analyzer.ratio_or_zero bj bi;
     o_reserve_a := bi;
     o_reserve_b := bj;
     o_reserveUSD := None;
     o_fee := get_or (p_fee p) 0.0004 |}.

(** What one pool record has to say, each observation with the ordered key
    of its own two symbols: token0_token1 for a two-token pool, coin_i_coin_j
    (i < j) for a multi-token pool. *)
Definition filed_by_pool (dex_id network_id : string) (p : pool)
    : list (string * price_obs) :=
  match Analyzer.uniswap_like p with
  | Some (token0, token1, r0, r1) =>
      [(fmt_key token0 token1, Analyzer.uniswap_obs dex_id network_id p r0 r1)]
  | None =>
      match Analyzer.curve_like p with
      | Some (coins, balances) =>
          flat_map (fun ij =>
                      match nth_error coins (fst ij), nth_error coins (snd ij),
                            nth_error balances (fst ij), nth_error balances (snd ij) with
                      | Some token_i, Some token_j, Some bi, Some bj =>
                          [(fmt_key token_i token_j,
                            curve_obs dex_id network_id p bi bj)]
                      | _, _, _, _ => []
                      end)
                   (Analyzer.coin_pairs (List.length coins))
      | None => []
      end
  end.

Definition filed_by_group (kv : string * list pool) : list (string * price_obs) :=
  match unpack2 (py_split (fst kv)) with
  | Ok dn => flat_map (filed_by_pool (fst dn) (snd dn)) (snd kv)
  | Raise _ => []
  end.

(** All keyed observations of a snapshot, in snapshot order. *)
Definition filed (all_pools : dict (list pool)) : list (string * price_obs) :=
  flat_map filed_by_group all_pools.

(** The buy side of an opportunity is the observation [obs]. *)
Definition buy_side_of (o : cross_dex) (obs : price_obs) : Prop :=
  cd_buy_dex o = o_dex_id obs /\ cd_buy_network o = o_network_id obs /\
  cd_buy_pool o = o_pool_id obs /\ cd_buy_price o = o_price obs /\
  cd_buy_fee o = o_fee obs.

Definition sell_side_of (o : cross_dex) (obs : price_obs) : Prop :=
  cd_sell_dex o = o_dex_id obs /\ cd_sell_network o = o_network_id obs /\
  cd_sell_pool o = o_pool_id obs /\ cd_sell_price o = o_price obs /\
  cd_sell_fee o = o_fee obs.


End Cross.

(* ================================================================= *)
(** ** The triangular scan over binary64

    Python's [float] is IEEE 754 binary64.  The three rotations of a cycle
    multiply the same three prices in three different orders, and the last
    bit of the product can decide [net_profit_pct >= MIN_PROFIT_THRESHOLD].
    For that question the exact rationals of [Analyzer] are not the
    program; this module is the same scan, for a group of two-token pools,
    with the numbers and operations of binary64.  The emitted records are
    returned when the loops end normally. *)

Module Binary64.
Import PrimFloat.
Local Open Scope float_scope.
Local Set Warnings "-inexact-float".

(** A two-token pool record; ["feeTier"] may be absent. *)
Record pool64 : Type := {
  k_id : string;
  k_token0 : string;
  k_token1 : string;
  k_reserve0 : float;
  k_reserve1 : float;
  k_feeTier : option float
}.

Record edge64 : Type := {
  x_price : float;
  x_pool_id : string;
  x_fee : float
}.

Record triangular64 : Type := {
  t_dex_id : string;
  t_network_id : string;
  t_token_a : string;
  t_token_b : string;
  t_token_c : string;
  t_price_a_to_b : float;
  t_price_b_to_c : float;
  t_price_c_to_a : float;
  t_round_trip_rate : float;
  t_pool_a_to_b : string;
  t_pool_b_to_c : string;
  t_pool_c_to_a : string;
  t_total_fee : float;
  t_estimated_gas_cost_pct : float;
  t_net_profit_pct : float;
  t_timestamp : float
}.

(** [b / a if a > 0 else 0] *)
Definition ratio_or_zero (b a : float) : float := if 0 <? a then b / a else 0.

(** [pool.get("feeTier", 0.003)] *)
Definition fee_or_default (o : option float) : float :=
  match o with Some v => v | None => 0.003 end.

Definition token_graph : Type := dict (dict edge64).

Definition ensure_token (t : string) (g : token_graph) : token_graph :=
  if dict_mem t g then g else g ++ [(t, [])].

Definition neighbours (g : token_graph) (a : string) : dict edge64 :=
  match dict_get a g with Some adj => adj | None => [] end.

Definition set_edge (a b : string) (e : edge64) (g : token_graph) : token_graph :=
  match dict_get a g with
  | Some adj => dict_set a (dict_set b e adj) g
  | None => g
  end.

Definition add_pool (g : token_graph) (p : pool64) : token_graph :=
  let token0 := k_token0 p in
  let token1 := k_token1 p in
  let price_0_to_1 := ratio_or_zero (k_reserve1 p) (k_reserve0 p) in
  let price_1_to_0 := ratio_or_zero (k_reserve0 p) (k_reserve1 p) in
  let g := ensure_token token0 g in
  let g := ensure_token token1 g in
  let g := set_edge token0 token1
             {| x_price := price_0_to_1; x_pool_id := k_id p;
                x_fee := fee_or_default (k_feeTier p) |} g in
  set_edge token1 token0
    {| x_price := price_1_to_0; x_pool_id := k_id p;
       x_fee := fee_or_default (k_feeTier p) |} g.

Definition build_graph (pools : list pool64) : token_graph :=
  fold_left add_pool pools [].

Definition edge_item (g : token_graph) (a b : string) : outcome edge64 :=
  obind (dict_item a g) (fun adj => dict_item b adj).

(** Body of the innermost loop. *)
Definition tri_step (MIN_PROFIT_THRESHOLD now : float) (dex_id network_id : string)
    (g : token_graph) (a b c : string) (found : list triangular64)
    : outcome (list triangular64) :=
  if dict_mem c g && dict_mem a (neighbours g c) then
    obind (edge_item g a b) (fun ab =>
    obind (edge_item g b c) (fun bc =>
    obind (edge_item g c a) (fun ca =>
      let price_a_to_b := x_price ab in
      let price_b_to_c := x_price bc in
      let price_c_to_a := x_price ca in
      let round_trip_rate := price_a_to_b * price_b_to_c * price_c_to_a in
      let total_fee := x_fee ab + x_fee bc + x_fee ca in
      let estimated_gas_cost_pct := 0.002 in
      let net_profit_pct := round_trip_rate - 1 - total_fee - estimated_gas_cost_pct in
      if MIN_PROFIT_THRESHOLD <=? net_profit_pct then
        Ok (found ++
            [{| t_dex_id := dex_id;
                t_network_id := network_id;
                t_token_a := a;
                t_token_b := b;
                t_token_c := c;
                t_price_a_to_b := price_a_to_b;
                t_price_b_to_c := price_b_to_c;
                t_price_c_to_a := price_c_to_a;
                t_round_trip_rate := round_trip_rate;
                t_pool_a_to_b := x_pool_id ab;
                t_pool_b_to_c := x_pool_id bc;
                t_pool_c_to_a := x_pool_id ca;
                t_total_fee := total_fee;
                t_estimated_gas_cost_pct := estimated_gas_cost_pct;
                t_net_profit_pct := net_profit_pct;
                t_timestamp := now |}])
      else Ok found)))
  else Ok found.

(** The three nested loops over one token graph. *)
Definition scan_graph (MIN_PROFIT_THRESHOLD now : float) (dex_id network_id : string)
    (g : token_graph) (found : list triangular64) : outcome (list triangular64) :=
  fold_raise (keys g) (fun found a =>
    fold_raise (keys (neighbours g a)) (fun found b =>
      fold_raise (keys (neighbours g b)) (fun found c =>
        tri_step MIN_PROFIT_THRESHOLD now dex_id network_id g a b c found)
      found)
    found)
  found.

(** Body of [for key, pools in all_pools.items()]. *)
Definition scan_group (MIN_PROFIT_THRESHOLD now : float)
    (found : list triangular64) (kv : string * list pool64)
    : outcome (list triangular64) :=
  obind (unpack2 (py_split (fst kv))) (fun dn =>
    if (List.length (snd kv) <? 3)%nat then Ok found
    else scan_graph MIN_PROFIT_THRESHOLD now (fst dn) (snd dn)
                    (build_graph (snd kv)) found).

Definition analyze_triangular_opportunities (MIN_PROFIT_THRESHOLD now : float)
    (all_pools : dict (list pool64)) : outcome (list triangular64) :=
  fold_raise all_pools (scan_group MIN_PROFIT_THRESHOLD now) [].

(** The default of src/config.py, [float("0.005")]. *)
Definition MIN_PROFIT_THRESHOLD_default : float := 0.005.

Definition path_of (o : triangular64) : string * string * string :=
  (t_token_a o, t_token_b o, t_token_c o).



(** One venue whose triangle AAA -> BBB -> CCC -> AAA has a net profit
    within rounding distance of the default threshold. *)
Definition boundary_group : list pool64 :=
  [{| k_id := "0x91"; k_token0 := "AAA"; k_token1 := "BBB";
      k_reserve0 := 1; k_reserve1 := 1850; k_feeTier := None |};
   {| k_id := "0x92"; k_token0 := "BBB"; k_token1 := "CCC";
      k_reserve0 := 1000; k_reserve1 := 999; k_feeTier := None |};
   {| k_id := "0x93"; k_token0 := "CCC"; k_token1 := "AAA";
      k_reserve0 := 924075; k_reserve1 := 508; k_feeTier := None |}].

Definition boundary_pools : dict (list pool64) :=
  [("uniswap_polygon", boundary_group)].


End Binary64.

Module Sample2.

(** A chain ETH - USDC - DAI with a second ETH/USDC pool: three pools, no
    triangle. *)
Definition chain_pools : list pool :=
  [Sample.two_token_pool "0xf1" "ETH" "USDC" 1 2000 1000000 (Some 0.003);
   Sample.two_token_pool "0xf2" "USDC" "DAI" 100 101 1000000 (Some 0.003);
   Sample.two_token_pool "0xf3" "ETH" "USDC" 1 2100 1000000 (Some 0.003)].

Definition triangle : list pool :=
  [Sample.two_token_pool "0xe1" "ETH" "USDC" 1 2000 1000000 (Some 0.003);
   Sample.two_token_pool "0xe2" "USDC" "DAI" 100 101 1000000 (Some 0.003);
   Sample.two_token_pool "0xe3" "DAI" "ETH" 1900 1 1000000 (Some 0.003)].

(** The pools of [Binary64.boundary_pools] with exact numbers. *)
Definition boundary_pools : list pool :=
  [Sample.two_token_pool "0x91" "AAA" "BBB" 1 1850 1000000 None;
   Sample.two_token_pool "0x92" "BBB" "CCC" 1000 999 1000000 None;
   Sample.two_token_pool "0x93" "CCC" "AAA" 924075 508 1000000 None].



End Sample2.

(* ================================================================= *)
(** ** Facts about the built-ins *)

Lemma Qltb_lt (x y : Q) : Qltb x y = true <-> x < y.
Proof.
  unfold Qltb. rewrite negb_true_iff.
  split; intro H.
  - apply Qnot_le_lt. intro Hle. apply Qle_bool_iff in Hle. congruence.
  - destruct (Qle_bool y x) eqn:E; [|reflexivity].
    apply Qle_bool_iff in E. exfalso. apply (Qlt_not_le _ _ H E).
Qed.

Lemma Qltb_ge (x y : Q) : Qltb x y = false <-> y <= x.
Proof.
  unfold Qltb. rewrite negb_false_iff. apply Qle_bool_iff.
Qed.

Lemma Qle_bool_false (x y : Q) : Qle_bool x y = false <-> y < x.
Proof.
  rewrite <- Qltb_lt. unfold Qltb. rewrite negb_true_iff. reflexivity.
Qed.

Lemma Qltb_compat (x x' y y' : Q) : x == x' -> y == y' -> Qltb x y = Qltb x' y'.
Proof.
  intros Hx Hy. unfold Qltb. f_equal. apply Qleb_comp; assumption.
Qed.

Ltac qcases :=
  repeat match goal with
  | |- context [Qltb ?a ?b] =>
      let E := fresh "E" in
      destruct (Qltb a b) eqn:E;
      [apply Qltb_lt in E | apply Qltb_ge in E]
  | |- context [Qle_bool ?a ?b] =>
      let E := fresh "E" in
      destruct (Qle_bool a b) eqn:E;
      [apply Qle_bool_iff in E | apply Qle_bool_false in E]
  end.

Lemma py_min2_Qmin (a b : Q) : py_min2 a b == Qmin a b.
Proof.
  unfold py_min2. qcases.
  - symmetry. apply Q.min_r. lra.
  - symmetry. apply Q.min_l. assumption.
Qed.



Lemma py_min3_Qmin (a b c : Q) : py_min3 a b c == Qmin (Qmin a b) c.
Proof.
  unfold py_min3. rewrite py_min2_Qmin.
  apply Q.min_compat; [apply py_min2_Qmin | reflexivity].
Qed.

(** The clamp [max(0, min(100, x))] stays in range. *)
Lemma py_clamp_range (x : Q) : 0 <= py_max2 0 (py_min2 100 x) <= 100.
Proof.
  unfold py_max2, py_min2. qcases; lra.
Qed.

(* ----------------------------------------------------------------- *)
(** *** Loops in the analysis monad *)

Lemma for_each_emits {A : Type} (xs : list A) (body : A -> analysis unit)
    (emit : A -> list opportunity) :
  (forall x, In x xs -> forall st, body x st = (Ok tt, st ++ emit x)) ->
  forall st, for_each xs body st = (Ok tt, st ++ flat_map emit xs).
Proof.
  induction xs as [|x xs IH]; intros Hbody st; simpl.
  - unfold ret. rewrite app_nil_r. reflexivity.
  - unfold bind. rewrite (Hbody x (or_introl eq_refl)).
    rewrite IH by (intros y Hy; apply Hbody; right; exact Hy).
    rewrite app_assoc. reflexivity.
Qed.

Lemma fold_raise_invariant {A S : Type} (P : S -> Prop)
    (body : S -> A -> outcome S) (xs : list A) :
  (forall s x s', In x xs -> P s -> body s x = Ok s' -> P s') ->
  forall s s', P s -> fold_raise xs body s = Ok s' -> P s'.
Proof.
  induction xs as [|x xs IH]; intros Hstep s s' Hs Hrun; simpl in Hrun.
  - injection Hrun as <-. exact Hs.
  - destruct (body s x) as [s1|e] eqn:E; [|discriminate].
    apply (IH (fun s0 y s0' Hy => Hstep s0 y s0' (or_intror Hy)) s1 s').
    + apply (Hstep s x s1 (or_introl eq_refl) Hs E).
    + exact Hrun.
Qed.

(** A property that one iteration establishes and the others keep holds
    after the loop. *)
Lemma fold_raise_establishes {A S : Type} (P : S -> Prop)
    (body : S -> A -> outcome S) (xs : list A) (x0 : A) :
  In x0 xs ->
  (forall s s', body s x0 = Ok s' -> P s') ->
  (forall s x s', P s -> body s x = Ok s' -> P s') ->
  forall s s', fold_raise xs body s = Ok s' -> P s'.
Proof.
  induction xs as [|x xs IH]; intros Hin Hest Hkeep s s' Hrun; [contradiction|].
  simpl in Hrun. destruct (body s x) as [s1|e] eqn:E; [|discriminate].
  destruct Hin as [->|Hin].
  - apply (fold_raise_invariant P body xs
             (fun s0 y s0' _ => Hkeep s0 y s0') s1 s' (Hest s s1 E) Hrun).
  - apply (IH Hin Hest Hkeep s1 s' Hrun).
Qed.

(* ----------------------------------------------------------------- *)
(** *** Dictionaries *)

Lemma dict_get_in_keys {V : Type} (k : string) (d : dict V) :
  In k (keys d) <-> exists v, dict_get k d = Some v.
Proof.
  induction d as [|[k' v'] d IH]; simpl.
  - split; [contradiction | intros [v H]; discriminate].
  - destruct (String.eqb k' k) eqn:E.
    + apply String.eqb_eq in E. split; [eauto | intros _; left; exact E].
    + apply String.eqb_neq in E. rewrite <- IH. tauto.
Qed.



(* ================================================================= *)
(** ** Pair price extraction *)

Lemma record_price_here (k : string) (o : price_obs) (pp : Analyzer.pair_prices) :
  Spec.grouped_under (Analyzer.record_price k o pp) k o.
Proof.
  unfold Spec.grouped_under.
  induction pp as [|[k' l] pp IH]; simpl.
  - rewrite String.eqb_refl. exists [o]. split; [reflexivity | left; reflexivity].
  - destruct (String.eqb k' k) eqn:E; simpl; rewrite E.
    + exists (l ++ [o]). split; [reflexivity|]. apply in_or_app. right. left. reflexivity.
    + exact IH.
Qed.

Lemma record_price_keeps (k k' : string) (o o' : price_obs) (pp : Analyzer.pair_prices) :
  Spec.grouped_under pp k o ->
  Spec.grouped_under (Analyzer.record_price k' o' pp) k o.
Proof.
  unfold Spec.grouped_under.
  induction pp as [|[k0 l0] pp IH]; simpl; intros (l & Hget & Hin).
  - discriminate.
  - destruct (String.eqb k0 k') eqn:E'; simpl.
    + destruct (String.eqb k0 k) eqn:E.
      * injection Hget as <-. exists (l0 ++ [o']).
        split; [reflexivity|]. apply in_or_app. left. exact Hin.
      * exists l. split; assumption.
    + destruct (String.eqb k0 k) eqn:E.
      * exists l. split; assumption.
      * apply IH. exists l. split; assumption.
Qed.

Lemma curve_step_keeps (dex_id network_id : string) (p : pool)
    (coins : list string) (balances : list Q)
    (pp pp' : Analyzer.pair_prices) (ij : nat * nat) (k : string) (o : price_obs) :
  Spec.grouped_under pp k o ->
  Analyzer.curve_step dex_id network_id p coins balances pp ij = Ok pp' ->
  Spec.grouped_under pp' k o.
Proof.
  intros Hg. unfold Analyzer.curve_step. destruct ij as [i j].
  destruct (py_index coins i); simpl; [|discriminate].
  destruct (py_index coins j); simpl; [|discriminate].
  destruct (py_index balances i); simpl; [|discriminate].
  destruct (py_index balances j); simpl; [|discriminate].
  intro H. injection H as <-. apply record_price_keeps. exact Hg.
Qed.

Lemma extract_pool_keeps (dex_id network_id : string)
    (pp pp' : Analyzer.pair_prices) (p : pool) (k : string) (o : price_obs) :
  Spec.grouped_under pp k o ->
  Analyzer.extract_pool dex_id network_id pp p = Ok pp' ->
  Spec.grouped_under pp' k o.
Proof.
  intros Hg. unfold Analyzer.extract_pool.
  destruct (Analyzer.uniswap_like p) as [[[[t0 t1] r0] r1]|].
  - intro H. injection H as <-. apply record_price_keeps. exact Hg.
  - destruct (Analyzer.curve_like p) as [[coins balances]|].
    + apply (fold_raise_invariant (fun s => Spec.grouped_under s k o)); [|exact Hg].
      intros s ij s' _ Hs Hstep.
      apply (curve_step_keeps dex_id network_id p coins balances s s' ij k o Hs Hstep).
    + intro H. injection H as <-. exact Hg.
Qed.

Lemma extract_pool_records (dex_id network_id : string)
    (pp pp' : Analyzer.pair_prices) (p : pool) (t0 t1 : string) (r0 r1 : Q) :
  Analyzer.uniswap_like p = Some (t0, t1, r0, r1) ->
  Analyzer.extract_pool dex_id network_id pp p = Ok pp' ->
  Spec.grouped_under pp' (fmt_key t0 t1) (Analyzer.uniswap_obs dex_id network_id p r0 r1).
Proof.
  intros Hu. unfold Analyzer.extract_pool. rewrite Hu.
  intro H. injection H as <-. apply record_price_here.
Qed.

Lemma extract_group_keeps (pp pp' : Analyzer.pair_prices)
    (kv : string * list pool) (k : string) (o : price_obs) :
  Spec.grouped_under pp k o ->
  Analyzer.extract_group pp kv = Ok pp' ->
  Spec.grouped_under pp' k o.
Proof.
  intros Hg. destruct kv as [key pools]. unfold Analyzer.extract_group.
  destruct (unpack2 (py_split key)) as [[dex_id network_id]|]; simpl; [|discriminate].
  apply (fold_raise_invariant (fun s => Spec.grouped_under s k o)); [|exact Hg].
  intros s q s' _ Hs Hstep.
  apply (extract_pool_keeps dex_id network_id s s' q k o Hs Hstep).
Qed.

Lemma extract_group_records (pp pp' : Analyzer.pair_prices)
    (key : string) (pools : list pool) (p : pool) (t0 t1 : string) (r0 r1 : Q) :
  In p pools ->
  Analyzer.uniswap_like p = Some (t0, t1, r0, r1) ->
  Analyzer.extract_group pp (key, pools) = Ok pp' ->
  exists dex_id network_id,
    unpack2 (py_split key) = Ok (dex_id, network_id) /\
    Spec.grouped_under pp' (fmt_key t0 t1)
      (Analyzer.uniswap_obs dex_id network_id p r0 r1).
Proof.
  intros Hin Hu. unfold Analyzer.extract_group.
  destruct (unpack2 (py_split key)) as [[dex_id network_id]|]; simpl; [|discriminate].
  intro Hrun. exists dex_id, network_id. split; [reflexivity|].
  revert Hrun.
  apply (fold_raise_establishes
           (fun s => Spec.grouped_under s (fmt_key t0 t1)
                       (Analyzer.uniswap_obs dex_id network_id p r0 r1))
           (Analyzer.extract_pool dex_id network_id) pools p Hin).
  - intros s s' Hstep.
    apply (extract_pool_records dex_id network_id s s' p t0 t1 r0 r1 Hu Hstep).
  - intros s q s' Hs Hstep.
    apply (extract_pool_keeps dex_id network_id s s' q _ _ Hs Hstep).
Qed.

Lemma extract_records (all_pools : dict (list pool)) (pp : Analyzer.pair_prices)
    (key : string) (pools : list pool) (p : pool) (t0 t1 : string) (r0 r1 : Q) :
  Analyzer.extract all_pools = Ok pp ->
  In (key, pools) all_pools -> In p pools ->
  Analyzer.uniswap_like p = Some (t0, t1, r0, r1) ->
  exists dex_id network_id,
    unpack2 (py_split key) = Ok (dex_id, network_id) /\
    Spec.grouped_under pp (fmt_key t0 t1)
      (Analyzer.uniswap_obs dex_id network_id p r0 r1).
Proof.
  intros Hrun Hkv Hin Hu. unfold Analyzer.extract in Hrun.
  revert Hrun.
  apply (fold_raise_establishes
           (fun s => exists dex_id network_id,
                       unpack2 (py_split key) = Ok (dex_id, network_id) /\
                       Spec.grouped_under s (fmt_key t0 t1)
                         (Analyzer.uniswap_obs dex_id network_id p r0 r1))
           Analyzer.extract_group all_pools (key, pools) Hkv).
  - intros s s' Hstep.
    apply (extract_group_records s s' key pools p t0 t1 r0 r1 Hin Hu Hstep).
  - intros s kv s' (d & n & Hk & Hg) Hstep.
    exists d, n. split; [exact Hk|].
    apply (extract_group_keeps s s' kv _ _ Hg Hstep).
Qed.

(** The key determines both symbols when the first one has no ["_"]. *)
Lemma fmt_key_injective (a a' b b' : string) :
  Spec.no_underscore a = true -> Spec.no_underscore a' = true ->
  fmt_key a b = fmt_key a' b' -> a = a' /\ b = b'.
Proof.
  unfold fmt_key. revert a'.
  induction a as [|c r IH]; intros [|c' r'] Ha Ha' H; simpl in *.
  - injection H as <-. auto.
  - injection H as <- _. discriminate.
  - injection H as -> _. discriminate.
  - injection H as <- H.
    apply andb_true_iff in Ha. apply andb_true_iff in Ha'.
    destruct (IH r' (proj2 Ha) (proj2 Ha') H) as [<- <-]. auto.
Qed.

(** C4, as stated, fails: a WETH/USDC pool and a USDC/WETH pool are filed
    under the two different keys WETH_USDC and USDC_WETH, no key holds both
    observations, and the scan compares nothing. *)
Lemma C4_swapped_symbols_not_grouped :
  Analyzer.extract Sample.swapped_pools
  = Ok [("WETH_USDC", [Sample.obs_weth_usdc]); ("USDC_WETH", [Sample.obs_usdc_weth])] /\
  (forall pp, Analyzer.extract Sample.swapped_pools = Ok pp ->
     ~ exists key, Spec.grouped_under pp key Sample.obs_weth_usdc /\
                   Spec.grouped_under pp key Sample.obs_usdc_weth) /\
  Sample.emitted Sample.swapped_pools = [].
Proof.
  assert (E : Analyzer.extract Sample.swapped_pools
              = Ok [("WETH_USDC", [Sample.obs_weth_usdc]);
                    ("USDC_WETH", [Sample.obs_usdc_weth])])
    by (vm_compute; reflexivity).
  split; [exact E|]. split; [|vm_compute; reflexivity].
  intros pp Hpp. rewrite E in Hpp. injection Hpp as <-.
  intros (key & (l1 & G1 & I1) & (l2 & G2 & I2)).
  cbn [dict_get] in G1, G2.
  destruct (String.eqb "WETH_USDC" key).
  - injection G2 as <-. destruct I2 as [I2|[]]. discriminate I2.
  - destruct (String.eqb "USDC_WETH" key); [|discriminate].
    injection G1 as <-. destruct I1 as [I1|[]]. discriminate I1.
Qed.


(* ================================================================= *)
(** ** Cross-venue scan *)

Lemma py_min_by_spec {A : Type} (k : A -> Q) (xs : list A) (x : A) :
  In (py_min_by k x xs) (x :: xs) /\
  forall y, In y (x :: xs) -> k (py_min_by k x xs) <= k y.
Proof.
  unfold py_min_by. revert x.
  induction xs as [|z xs IH]; intro x; simpl.
  - split; [left; reflexivity|]. intros y [<-|[]]. apply Qle_refl.
  - destruct (Qltb (k z) (k x)) eqn:E.
    + apply Qltb_lt in E. destruct (IH z) as [Hin Hle]. split.
      * right. exact Hin.
      * intros y [<-|Hy]; [|apply Hle; exact Hy].
        apply Qle_trans with (k z); [apply Hle; left; reflexivity | lra].
    + apply Qltb_ge in E. destruct (IH x) as [Hin Hle]. split.
      * destruct Hin as [Hin|Hin]; [left; exact Hin | right; right; exact Hin].
      * intros y [<-|[<-|Hy]].
        -- apply Hle. left. reflexivity.
        -- apply Qle_trans with (k x); [apply Hle; left; reflexivity | exact E].
        -- apply Hle. right. exact Hy.
Qed.

Lemma py_max_by_spec {A : Type} (k : A -> Q) (xs : list A) (x : A) :
  In (py_max_by k x xs) (x :: xs) /\
  forall y, In y (x :: xs) -> k y <= k (py_max_by k x xs).
Proof.
  unfold py_max_by. revert x.
  induction xs as [|z xs IH]; intro x; simpl.
  - split; [left; reflexivity|]. intros y [<-|[]]. apply Qle_refl.
  - destruct (Qltb (k x) (k z)) eqn:E.
    + apply Qltb_lt in E. destruct (IH z) as [Hin Hle]. split.
      * right. exact Hin.
      * intros y [<-|Hy]; [|apply Hle; exact Hy].
        apply Qle_trans with (k z); [lra | apply Hle; left; reflexivity].
    + apply Qltb_ge in E. destruct (IH x) as [Hin Hle]. split.
      * destruct Hin as [Hin|Hin]; [left; exact Hin | right; right; exact Hin].
      * intros y [<-|[<-|Hy]].
        -- apply Hle. left. reflexivity.
        -- apply Qle_trans with (k x); [exact E | apply Hle; left; reflexivity].
        -- apply Hle. right. exact Hy.
Qed.


Lemma py_div_zero (a b : Q) : b == 0 -> py_div a b = Raise ZeroDivisionError.
Proof.
  intro H. unfold py_div. apply Qeq_bool_iff in H. rewrite H. reflexivity.
Qed.


(** The loop body on a pair with at least two observations whose lowest
    price is zero. *)
Lemma scan_pair_zero_price (thr now : Q) (pair_key : string)
    (x y : price_obs) (rest : list price_obs) (st : list opportunity) :
  o_price (py_min_by o_price x (y :: rest)) == 0 ->
  Analyzer.scan_pair thr now (pair_key, x :: y :: rest) st
  = (Raise ZeroDivisionError, st).
Proof.
  intro Hz. unfold Analyzer.scan_pair.
  change (List.length (x :: y :: rest) <? 2)%nat with false. cbv iota.
  unfold bind at 1. unfold lift at 1.
  rewrite (py_div_zero _ _ Hz). reflexivity.
Qed.


Example spread_is_emitted :
  exists o,
    Sample.emitted Sample.spread_pools = [CrossDex o] /\
    cd_buy_pool o = "0xa1" /\ cd_sell_pool o = "0xa2" /\
    cd_price_diff_pct o == 0.025 /\ cd_net_profit_pct o == 0.024.
Proof.
  eexists. split; [vm_compute; reflexivity|].
  repeat split.
Qed.

(* ----------------------------------------------------------------- *)
(** *** A zero price *)

Example zero_reserve_extracted :
  exists lo hi,
    Analyzer.extract Sample.zero_reserve_pools = Ok [("WETH_USDC", [lo; hi])] /\
    o_price lo = 0 /\ o_price hi == 2000.
Proof.
  eexists. eexists. split; [vm_compute; reflexivity|]. split; reflexivity.
Qed.

(** C3 does not hold of the code: on two WETH/USDC pools of which one has
    [reserve0 = 0] the lowest price of the pair is 0, the division by it
    raises [ZeroDivisionError], the cross-venue scan ends with that
    exception, and [analyze_prices] ends without running the triangular
    scan. *)
Theorem C3_zero_price_raises :
  (forall thr now st,
     Analyzer.analyze_cross_dex_opportunities thr now Sample.zero_reserve_pools st
     = (Raise ZeroDivisionError, st)) /\
  (forall thr now,
     Analyzer.analyze_prices thr now Sample.zero_reserve_pools
     = (Raise ZeroDivisionError, [])).
Proof.
  split; intros; vm_compute; reflexivity.
Qed.

(* ================================================================= *)
(** ** Triangular scan *)

Lemma edge_of_key (g : Analyzer.token_graph) (a b : string) (e : edge) :
  Spec.edge_of g a b = Some e ->
  exists adj, dict_get a g = Some adj /\ dict_get b adj = Some e.
Proof.
  unfold Spec.edge_of, Analyzer.neighbours.
  destruct (dict_get a g) as [adj|]; [eauto | discriminate].
Qed.

Lemma edge_item_of (g : Analyzer.token_graph) (a b : string) (e : edge) :
  Spec.edge_of g a b = Some e -> Analyzer.edge_item g a b = Ok e.
Proof.
  intro H. destruct (edge_of_key g a b e H) as (adj & Ha & Hb).
  unfold Analyzer.edge_item, dict_item. rewrite Ha. simpl. rewrite Hb. reflexivity.
Qed.

Lemma closing_guard (g : Analyzer.token_graph) (c a : string) :
  dict_mem c g && dict_mem a (Analyzer.neighbours g c)
  = match Spec.edge_of g c a with Some _ => true | None => false end.
Proof.
  unfold Spec.edge_of, dict_mem, Analyzer.neighbours.
  destruct (dict_get c g) as [adj|]; simpl; reflexivity.
Qed.

(** One pass of the innermost loop, for [b] reached from [a] and [c]
    reached from [b]. *)
Lemma tri_step_run (thr now : Q) (dex_id network_id : string)
    (g : Analyzer.token_graph) (a b c : string) (st : list opportunity) :
  In b (keys (Analyzer.neighbours g a)) ->
  In c (keys (Analyzer.neighbours g b)) ->
  Analyzer.tri_step thr now dex_id network_id g a b c st
  = (Ok tt, st ++ Spec.tri_found_at thr now dex_id network_id g a b c).
Proof.
  intros Hb Hc.
  apply dict_get_in_keys in Hb. destruct Hb as [ab Hab].
  apply dict_get_in_keys in Hc. destruct Hc as [bc Hbc].
  unfold Analyzer.tri_step, Spec.tri_found_at.
  rewrite closing_guard.
  change (dict_get b (Analyzer.neighbours g a)) with (Spec.edge_of g a b) in Hab.
  change (dict_get c (Analyzer.neighbours g b)) with (Spec.edge_of g b c) in Hbc.
  rewrite Hab, Hbc.
  destruct (Spec.edge_of g c a) as [ca|] eqn:Hca.
  - unfold bind, lift.
    rewrite (edge_item_of g a b ab Hab), (edge_item_of g b c bc Hbc), (edge_item_of g c a ca Hca).
    destruct (Qle_bool thr (Analyzer.tri_net ab bc ca)).
    + reflexivity.
    + unfold ret. rewrite app_nil_r. reflexivity.
  - unfold ret. rewrite app_nil_r. reflexivity.
Qed.

Lemma scan_graph_run (thr now : Q) (dex_id network_id : string)
    (g : Analyzer.token_graph) (st : list opportunity) :
  Analyzer.scan_graph thr now dex_id network_id g st
  = (Ok tt, st ++ Spec.tri_found thr now dex_id network_id g).
Proof.
  unfold Analyzer.scan_graph, Spec.tri_found.
  apply for_each_emits. intros a _ st1.
  apply for_each_emits. intros b Hb st2.
  apply for_each_emits. intros c Hc st3.
  apply tri_step_run; assumption.
Qed.

Lemma scan_group_run (thr now : Q) (key dex_id network_id : string)
    (pools : list pool) (st : list opportunity) :
  unpack2 (py_split key) = Ok (dex_id, network_id) ->
  Analyzer.scan_group thr now (key, pools) st
  = (Ok tt,
     st ++ if (List.length pools <? 3)%nat then []
           else Spec.tri_found thr now dex_id network_id (Analyzer.build_graph pools)).
Proof.
  intro Hkey. unfold Analyzer.scan_group, bind, lift. rewrite Hkey. simpl.
  destruct (List.length pools <? 3)%nat.
  - unfold ret. rewrite app_nil_r. reflexivity.
  - apply scan_graph_run.
Qed.

(** Membership in the enumeration, for a triple named by its tokens. *)
Lemma tri_found_in (thr now : Q) (dex_id network_id : string)
    (g : Analyzer.token_graph) (o : opportunity) :
  In o (Spec.tri_found thr now dex_id network_id g) <->
  exists a b c ab bc ca,
    Spec.edge_of g a b = Some ab /\ Spec.edge_of g b c = Some bc /\
    Spec.edge_of g c a = Some ca /\
    thr <= Analyzer.tri_net ab bc ca /\
    o = Triangular (Analyzer.tri_opportunity now dex_id network_id a b c ab bc ca).
Proof.
  unfold Spec.tri_found. split.
  - intro H.
    apply in_flat_map in H. destruct H as (a & Ha & H).
    apply in_flat_map in H. destruct H as (b & Hb & H).
    apply in_flat_map in H. destruct H as (c & Hc & H).
    unfold Spec.tri_found_at in H.
    destruct (Spec.edge_of g a b) as [ab|] eqn:Eab; [|contradiction].
    destruct (Spec.edge_of g b c) as [bc|] eqn:Ebc; [|contradiction].
    destruct (Spec.edge_of g c a) as [ca|] eqn:Eca; [|contradiction].
    destruct (Qle_bool thr (Analyzer.tri_net ab bc ca)) eqn:E; [|contradiction].
    destruct H as [<-|[]].
    exists a, b, c, ab, bc, ca. apply Qle_bool_iff in E. auto.
  - intros (a & b & c & ab & bc & ca & Hab & Hbc & Hca & Hnet & ->).
    apply in_flat_map. exists a. split.
    { destruct (edge_of_key g a b ab Hab) as (adj & Ha & _).
      apply dict_get_in_keys. eauto. }
    apply in_flat_map. exists b. split.
    { apply dict_get_in_keys. exists ab. exact Hab. }
    apply in_flat_map. exists c. split.
    { apply dict_get_in_keys. exists bc. exact Hbc. }
    unfold Spec.tri_found_at. rewrite Hab, Hbc, Hca.
    apply Qle_bool_iff in Hnet. rewrite Hnet. left. reflexivity.
Qed.

Lemma Triangular_inj (t t' : triangular) : Triangular t = Triangular t' -> t = t'.
Proof. intro H. injection H as H. exact H. Qed.

Lemma tri_opportunity_tokens (now now' : Q) (d n d' n' a b c a' b' c' : string)
    (ab bc ca ab' bc' ca' : edge) :
  Analyzer.tri_opportunity now d n a b c ab bc ca
  = Analyzer.tri_opportunity now' d' n' a' b' c' ab' bc' ca' ->
  a = a' /\ b = b' /\ c = c'.
Proof.
  intro H.
  pose proof (f_equal tr_token_a H) as Ha.
  pose proof (f_equal tr_token_b H) as Hb.
  pose proof (f_equal tr_token_c H) as Hc.
  simpl in *. auto.
Qed.

Lemma tri_found_iff (thr now : Q) (dex_id network_id : string)
    (g : Analyzer.token_graph) (a b c : string) (ab bc ca : edge) :
  Spec.edge_of g a b = Some ab -> Spec.edge_of g b c = Some bc ->
  Spec.edge_of g c a = Some ca ->
  (In (Triangular (Analyzer.tri_opportunity now dex_id network_id a b c ab bc ca))
      (Spec.tri_found thr now dex_id network_id g)
   <-> thr <= Analyzer.tri_net ab bc ca).
Proof.
  intros Hab Hbc Hca. rewrite tri_found_in. split.
  - intros (a' & b' & c' & ab' & bc' & ca' & Hab' & Hbc' & Hca' & Hnet & E).
    apply Triangular_inj in E. destruct (tri_opportunity_tokens _ _ _ _ _ _ _ _ _ _ _ _ _ _ _ _ _ _ E) as (-> & -> & ->).
    congruence.
  - intro Hnet. exists a, b, c, ab, bc, ca. auto.
Qed.


Lemma losing_triangle_net (ab bc ca : edge) :
  e_price ab == 2000 -> e_price bc == 1.001 -> e_price ca == 1 / 2005 ->
  0 < e_fee ab -> 0 < e_fee bc -> 0 < e_fee ca ->
  Analyzer.tri_net ab bc ca < 0.
Proof.
  intros Hab Hbc Hca Fab Fbc Fca.
  unfold Analyzer.tri_net, Analyzer.round_trip, Analyzer.fee_sum,
    Analyzer.estimated_gas_cost_pct_tri.
  rewrite Hab, Hbc, Hca.
  assert (E : 2000 * 1.001 * (1 / 2005) == 2002 # 2005) by reflexivity.
  rewrite E.
  assert (E2 : (2002 # 2005) - 1 == - (3 # 2005)) by reflexivity.
  rewrite E2. lra.
Qed.

Example losing_triangle_not_emitted :
  Sample.emitted Sample.losing_triangle_pools = [].
Proof. vm_compute. reflexivity. Qed.

Example profitable_triangle_emitted_three_times :
  List.length (Sample.emitted Sample.triangle_pools) = 3%nat.
Proof. vm_compute. reflexivity. Qed.

(** C2: for a (venue, network) group with at least three pools the scan
    returns normally, and for every 3-cycle a -> b -> c -> a of its token
    graph the opportunity for that cycle is among the emitted ones exactly
    when [net_profit_pct >= threshold], with
    [round_trip_rate = price(a,b) * price(b,c) * price(c,a)] and
    [net_profit_pct = round_trip_rate - 1 - (sum of the three fees) - 0.002];
    nothing else is emitted; a triangle with leg prices 2000, 1.001 and
    1/2005 and positive fees has a negative net profit and is not emitted
    under any non-negative threshold. *)
Theorem C2_triangular_emission
    (thr now : Q) (key dex_id network_id : string)
    (pools : list pool) (st : list opportunity) :
  unpack2 (py_split key) = Ok (dex_id, network_id) ->
  (3 <= List.length pools)%nat ->
  let g := Analyzer.build_graph pools in
  exists found,
    Analyzer.scan_group thr now (key, pools) st = (Ok tt, st ++ found) /\
    (forall a b c ab bc ca,
       Spec.edge_of g a b = Some ab ->
       Spec.edge_of g b c = Some bc ->
       Spec.edge_of g c a = Some ca ->
       let opp := Analyzer.tri_opportunity now dex_id network_id a b c ab bc ca in
       tr_round_trip_rate opp = e_price ab * e_price bc * e_price ca /\
       tr_net_profit_pct opp
       = tr_round_trip_rate opp - 1 - (e_fee ab + e_fee bc + e_fee ca) - 0.002 /\
       (In (Triangular opp) found <-> thr <= tr_net_profit_pct opp) /\
       (e_price ab == 2000 -> e_price bc == 1.001 -> e_price ca == 1 / 2005 ->
        0 < e_fee ab -> 0 < e_fee bc -> 0 < e_fee ca ->
        tr_net_profit_pct opp < 0 /\
        (0 <= thr -> ~ In (Triangular opp) found))) /\
    (forall o, In o found ->
       exists a b c ab bc ca,
         Spec.edge_of g a b = Some ab /\
         Spec.edge_of g b c = Some bc /\
         Spec.edge_of g c a = Some ca /\
         o = Triangular (Analyzer.tri_opportunity now dex_id network_id a b c ab bc ca)).
Proof.
  intros Hkey Hlen g.
  exists (Spec.tri_found thr now dex_id network_id g).
  split.
  { rewrite (scan_group_run thr now key dex_id network_id pools st Hkey).
    assert (E : (List.length pools <? 3)%nat = false) by (apply Nat.ltb_ge; exact Hlen).
    rewrite E. reflexivity. }
  split.
  - intros a b c ab bc ca Hab Hbc Hca opp.
    pose proof (tri_found_iff thr now dex_id network_id g a b c ab bc ca Hab Hbc Hca)
      as Hiff.
    split; [reflexivity|]. split; [reflexivity|]. split; [exact Hiff|].
    intros P1 P2 P3 F1 F2 F3.
    pose proof (losing_triangle_net ab bc ca P1 P2 P3 F1 F2 F3) as Hneg.
    split; [exact Hneg|].
    intros Hthr Hin. apply Hiff in Hin. lra.
  - intros o Hin. apply tri_found_in in Hin.
    destruct Hin as (a & b & c & ab & bc & ca & Hab & Hbc & Hca & _ & ->).
    exists a, b, c, ab, bc, ca. auto.
Qed.

Lemma C2_witness :
  unpack2 (py_split "uniswap_polygon") = Ok ("uniswap", "polygon") /\
  (3 <= 3)%nat /\
  exists found,
    Analyzer.scan_group Detector.MIN_PROFIT_THRESHOLD_default 0
      ("uniswap_polygon",
       [Sample.two_token_pool "0xe1" "ETH" "USDC" 1 2000 1000000 (Some 0.003);
        Sample.two_token_pool "0xe2" "USDC" "DAI" 100 101 1000000 (Some 0.003);
        Sample.two_token_pool "0xe3" "DAI" "ETH" 1900 1 1000000 (Some 0.003)]) []
    = (Ok tt, [] ++ found).
Proof.
  split; [reflexivity|]. split; [apply le_n|].
  destruct (C2_triangular_emission Detector.MIN_PROFIT_THRESHOLD_default 0
              "uniswap_polygon" "uniswap" "polygon"
              [Sample.two_token_pool "0xe1" "ETH" "USDC" 1 2000 1000000 (Some 0.003);
               Sample.two_token_pool "0xe2" "USDC" "DAI" 100 101 1000000 (Some 0.003);
               Sample.two_token_pool "0xe3" "DAI" "ETH" 1900 1 1000000 (Some 0.003)]
              [] eq_refl (le_n 3)) as (found & Hrun & _).
  exists found. exact Hrun.
Defined.


(** With exact numbers the same three pools give all three rotations. *)
Example boundary_rotations_exact :
  map Inv.path_of
    (Inv.triangular_of
       (snd (Analyzer.scan_group Detector.MIN_PROFIT_THRESHOLD_default 0
               ("uniswap_polygon", Sample2.boundary_pools) [])))
  = [("AAA", "BBB", "CCC"); ("BBB", "CCC", "AAA"); ("CCC", "AAA", "BBB")].
Proof. vm_compute. reflexivity. Qed.


(* ================================================================= *)
(** ** Ranking *)

Section Ranking.
Variable A : Type.
Variable k : A -> Q.

Lemma insert_desc_in (x y : A) (l : list A) :
  In y (Analyzer.insert_desc k x l) <-> y = x \/ In y l.
Proof.
  induction l as [|z l IH]; simpl.
  - intuition.
  - destruct (Qltb (k x) (k z)); simpl; [rewrite IH|]; intuition.
Qed.

Lemma sorted_desc_in (y : A) (l : list A) :
  In y (Analyzer.sorted_desc k l) <-> In y l.
Proof.
  induction l as [|x l IH]; simpl; [reflexivity|].
  rewrite insert_desc_in, IH. intuition.
Qed.

Lemma insert_desc_sorted (x : A) (l : list A) :
  StronglySorted (fun a b => k b <= k a) l -> StronglySorted (fun a b => k b <= k a) (Analyzer.insert_desc k x l).
Proof.
  induction l as [|z l IH]; intro Hs; simpl.
  - constructor; constructor.
  - inversion Hs as [|? ? Hl Hz]; subst.
    destruct (Qltb (k x) (k z)) eqn:E.
    + apply Qltb_lt in E. constructor; [apply IH; exact Hl|].
      apply Forall_forall. intros y Hy. apply insert_desc_in in Hy.
      destruct Hy as [->|Hy].
      * simpl. lra.
      * rewrite Forall_forall in Hz. apply Hz. exact Hy.
    + apply Qltb_ge in E. constructor; [exact Hs|].
      constructor; [exact E|].
      rewrite Forall_forall in Hz |- *. intros y Hy.
      simpl in *. apply Qle_trans with (k z); [apply Hz; exact Hy | exact E].
Qed.

Lemma sorted_desc_sorted (l : list A) :
  StronglySorted (fun a b => k b <= k a) (Analyzer.sorted_desc k l).
Proof.
  induction l as [|x l IH]; simpl; [constructor|].
  apply insert_desc_sorted. exact IH.
Qed.

(** Sorting a list that is already in descending order changes nothing. *)
Lemma sorted_desc_fixed (l : list A) :
  StronglySorted (fun a b => k b <= k a) l -> Analyzer.sorted_desc k l = l.
Proof.
  induction l as [|x l IH]; intro Hs; simpl; [reflexivity|].
  inversion Hs as [|? ? Hl Hx]; subst.
  fold (Analyzer.sorted_desc k l). rewrite (IH Hl).
  destruct l as [|z l]; simpl; [reflexivity|].
  inversion Hx as [|? ? Hz _]; subst.
  assert (E : Qltb (k x) (k z) = false) by (apply Qltb_ge; exact Hz).
  rewrite E. reflexivity.
Qed.

(** Stability: within one key value the order of the input is kept. *)
Lemma insert_desc_class (v : Q) (x : A) (l : list A) :
  filter (fun o => Qeq_bool (k o) v) (Analyzer.insert_desc k x l)
  = filter (fun o => Qeq_bool (k o) v) (x :: l).
Proof.
  induction l as [|z l IH]; [reflexivity|].
  simpl Analyzer.insert_desc.
  destruct (Qltb (k x) (k z)) eqn:E; [|reflexivity].
  apply Qltb_lt in E.
  simpl filter at 1. rewrite IH. simpl.
  destruct (Qeq_bool (k z) v) eqn:Ez; destruct (Qeq_bool (k x) v) eqn:Ex;
    try reflexivity.
  apply Qeq_bool_iff in Ez. apply Qeq_bool_iff in Ex. lra.
Qed.

Lemma sorted_desc_class (v : Q) (l : list A) :
  filter (fun o => Qeq_bool (k o) v) (Analyzer.sorted_desc k l)
  = filter (fun o => Qeq_bool (k o) v) l.
Proof.
  induction l as [|x l IH]; [reflexivity|].
  simpl Analyzer.sorted_desc. fold (Analyzer.sorted_desc k l).
  rewrite insert_desc_class. simpl. rewrite IH. reflexivity.
Qed.
End Ranking.

Lemma firstn_strongly_sorted {A : Type} (R : A -> A -> Prop) (n : nat) (l : list A) :
  StronglySorted R l -> StronglySorted R (firstn n l).
Proof.
  revert l. induction n as [|n IH]; intros l Hs; simpl; [constructor|].
  destruct l as [|x l]; [constructor|].
  inversion Hs as [|? ? Hl Hx]; subst.
  constructor; [apply IH; exact Hl|].
  rewrite Forall_forall in Hx |- *. intros y Hy. apply Hx.
  rewrite <- (firstn_skipn n l). apply in_or_app. left. exact Hy.
Qed.

Lemma firstn_forall {A : Type} (P : A -> Prop) (n : nat) (l : list A) :
  Forall P l -> Forall P (firstn n l).
Proof.
  intro H. rewrite Forall_forall in H |- *. intros y Hy. apply H.
  rewrite <- (firstn_skipn n l). apply in_or_app. left. exact Hy.
Qed.

Lemma filter_firstn_prefix {A : Type} (f : A -> bool) (n : nat) (l : list A) :
  Spec.prefix_of (filter f (firstn n l)) (filter f l).
Proof.
  exists (filter f (skipn n l)).
  rewrite <- filter_app, firstn_skipn. reflexivity.
Qed.

Lemma filter_all {A : Type} (f : A -> bool) (l : list A) :
  Forall (fun x => f x = true) l -> filter f l = l.
Proof.
  induction l as [|x l IH]; intro H; simpl; [reflexivity|].
  inversion H as [|? ? Hx Hl]; subst. rewrite Hx, (IH Hl). reflexivity.
Qed.

Lemma filter_filter_prefix {A : Type} (f g : A -> bool) (l : list A) :
  (forall x, f x = true -> g x = true) \/ (forall x, f x = true -> g x = false) ->
  Spec.prefix_of (filter f (filter g l)) (filter f l).
Proof.
  intros [H|H].
  - exists []. rewrite app_nil_r.
    induction l as [|x l IH]; simpl; [reflexivity|].
    destruct (g x) eqn:G; simpl.
    + rewrite IH. reflexivity.
    + destruct (f x) eqn:F; [|exact IH]. rewrite (H x F) in G. discriminate.
  - exists (filter f l).
    assert (E : filter f (filter g l) = []); [|rewrite E; reflexivity].
    induction l as [|x l IH]; simpl; [reflexivity|].
    destruct (g x) eqn:G; simpl; [|exact IH].
    destruct (f x) eqn:F; [|exact IH]. rewrite (H x F) in G. discriminate.
Qed.

Lemma prefix_of_trans {A : Type} (l1 l2 l3 : list A) :
  Spec.prefix_of l1 l2 -> Spec.prefix_of l2 l3 -> Spec.prefix_of l1 l3.
Proof.
  intros [r1 ->] [r2 ->]. exists (r1 ++ r2). rewrite app_assoc. reflexivity.
Qed.

Lemma py_slice_to_nonneg {A : Type} (xs : list A) (n : Z) :
  (0 <= n)%Z -> py_slice_to xs n = firstn (Z.to_nat n) xs.
Proof.
  intro H. unfold py_slice_to.
  destruct (0 <=? n)%Z eqn:E; [reflexivity|].
  apply Z.leb_gt in E. lia.
Qed.

(** The ranked view for a non-negative limit. *)
Lemma top_nonneg (xs : list opportunity) (p : Q) (n : Z) :
  (0 <= n)%Z ->
  Analyzer.get_arbitrage_opportunities xs p n
  = firstn (Z.to_nat n)
      (Analyzer.sorted_desc net_profit_pct
         (filter (fun o => Qle_bool p (net_profit_pct o)) xs)).
Proof.
  intro H. unfold Analyzer.get_arbitrage_opportunities.
  apply py_slice_to_nonneg. exact H.
Qed.

Lemma top_passes (xs : list opportunity) (p : Q) (n : Z) :
  (0 <= n)%Z ->
  Forall (fun o => Qle_bool p (net_profit_pct o) = true)
         (Analyzer.get_arbitrage_opportunities xs p n).
Proof.
  intro H. rewrite (top_nonneg xs p n H).
  apply firstn_forall. apply Forall_forall. intros o Ho.
  apply sorted_desc_in in Ho. apply filter_In in Ho. apply Ho.
Qed.

Lemma top_descending (xs : list opportunity) (p : Q) (n : Z) :
  (0 <= n)%Z -> Spec.descending (Analyzer.get_arbitrage_opportunities xs p n).
Proof.
  intro H. rewrite (top_nonneg xs p n H). unfold Spec.descending.
  apply firstn_strongly_sorted. apply sorted_desc_sorted.
Qed.

Lemma top_length (xs : list opportunity) (p : Q) (n : Z) :
  (0 <= n)%Z ->
  (List.length (Analyzer.get_arbitrage_opportunities xs p n) <= Z.to_nat n)%nat.
Proof.
  intro H. rewrite (top_nonneg xs p n H). rewrite length_firstn. lia.
Qed.

Lemma top_keeps_input_order (xs : list opportunity) (p : Q) (n : Z) :
  (0 <= n)%Z ->
  Spec.keeps_input_order xs (Analyzer.get_arbitrage_opportunities xs p n).
Proof.
  intros H v. rewrite (top_nonneg xs p n H). unfold Spec.with_net.
  eapply prefix_of_trans; [apply filter_firstn_prefix|].
  rewrite sorted_desc_class.
  apply filter_filter_prefix.
  destruct (Qle_bool p v) eqn:E.
  - left. intros o Ho. apply Qeq_bool_iff in Ho. apply Qle_bool_iff in E.
    apply Qle_bool_iff. rewrite Ho. exact E.
  - right. intros o Ho. apply Qeq_bool_iff in Ho. apply Qle_bool_false in E.
    apply Qle_bool_false. rewrite Ho. exact E.
Qed.

Lemma top_idempotent (xs : list opportunity) (p : Q) (n : Z) :
  (0 <= n)%Z ->
  Analyzer.get_arbitrage_opportunities
    (Analyzer.get_arbitrage_opportunities xs p n) p n
  = Analyzer.get_arbitrage_opportunities xs p n.
Proof.
  intro H.
  set (out := Analyzer.get_arbitrage_opportunities xs p n).
  rewrite (top_nonneg out p n H).
  rewrite (filter_all _ out (top_passes xs p n H)).
  rewrite (sorted_desc_fixed _ net_profit_pct out (top_descending xs p n H)).
  apply firstn_all2. apply top_length. exact H.
Qed.

(** C8, as stated, fails for a negative limit: [xs[:-1]] drops the last
    element, so on the three opportunities of the sample triangle the
    result has two entries (more than -1), and ranking that result again
    drops one more. *)
Lemma C8_negative_limit_breaks_bound_and_idempotence :
  let xs := Sample.emitted Sample.triangle_pools in
  let out := Analyzer.get_arbitrage_opportunities xs 0.005 (-1) in
  List.length out = 2%nat /\
  ~ (Z.of_nat (List.length out) <= -1)%Z /\
  List.length (Analyzer.get_arbitrage_opportunities out 0.005 (-1)) = 1%nat /\
  Analyzer.get_arbitrage_opportunities out 0.005 (-1) <> out.
Proof.
  cbv zeta.
  assert (L2 : List.length (Analyzer.get_arbitrage_opportunities
                              (Sample.emitted Sample.triangle_pools) 0.005 (-1)) = 2%nat)
    by (vm_compute; reflexivity).
  assert (L1 : List.length (Analyzer.get_arbitrage_opportunities
                              (Analyzer.get_arbitrage_opportunities
                                 (Sample.emitted Sample.triangle_pools) 0.005 (-1))
                              0.005 (-1)) = 1%nat)
    by (vm_compute; reflexivity).
  split; [exact L2|]. split; [rewrite L2; lia|]. split; [exact L1|].
  intro E. rewrite E in L1. rewrite L2 in L1. discriminate L1.
Qed.

(** C8 (amended): for every list xs, every min_profit p and every limit
    n >= 0, topN(xs, p, n) contains only opportunities with
    net_profit_pct >= p, is sorted descending by net_profit_pct, keeps
    opportunities of equal net profit in their input order, has length at
    most n, and topN(topN(xs, p, n), p, n) = topN(xs, p, n). *)
Theorem C8_top_n_filtered_sorted_bounded_idempotent
    (xs : list opportunity) (p : Q) (n : Z) :
  (0 <= n)%Z ->
  let out := Analyzer.get_arbitrage_opportunities xs p n in
  Forall (fun o => p <= net_profit_pct o) out /\
  Spec.descending out /\
  Spec.keeps_input_order xs out /\
  (Z.of_nat (List.length out) <= n)%Z /\
  Analyzer.get_arbitrage_opportunities out p n = out.
Proof.
  intros H out. subst out.
  split.
  { pose proof (top_passes xs p n H) as Hp.
    rewrite Forall_forall in Hp |- *. intros o Ho.
    apply Qle_bool_iff. apply Hp. exact Ho. }
  split; [apply top_descending; exact H|].
  split; [apply top_keeps_input_order; exact H|].
  split; [pose proof (top_length xs p n H); lia|].
  apply top_idempotent. exact H.
Qed.

Lemma C8_witness :
  (0 <= 2)%Z /\
  let out := Analyzer.get_arbitrage_opportunities
               (Sample.emitted Sample.triangle_pools) 0.005 2 in
  (Z.of_nat (List.length out) <= 2)%Z /\
  Analyzer.get_arbitrage_opportunities out 0.005 2 = out.
Proof.
  split; [lia|].
  destruct (C8_top_n_filtered_sorted_bounded_idempotent
              (Sample.emitted Sample.triangle_pools) 0.005 2 ltac:(lia))
    as (_ & _ & _ & Hlen & Hidem).
  split; [exact Hlen | exact Hidem].
Defined.

(* ================================================================= *)
(** ** Risk scores *)

Lemma clamp_py (x y : Q) :
  x == y -> py_max2 0 (py_min2 100 x) == Spec.clamp_0_100 y.
Proof.
  intro H. unfold Spec.clamp_0_100.
  assert (Hm : py_min2 100 x == Qmin 100 y).
  { rewrite py_min2_Qmin. apply Q.min_compat; [reflexivity | exact H]. }
  unfold py_max2.
  destruct (Qltb 0 (py_min2 100 x)) eqn:E.
  - apply Qltb_lt in E. rewrite Hm. symmetry. apply Q.max_r. rewrite <- Hm. lra.
  - apply Qltb_ge in E. symmetry. apply Q.max_l. rewrite <- Hm. exact E.
Qed.

Lemma liquidity_penalty_compat (m m' : Q) :
  m == m' -> Spec.liquidity_penalty m = Spec.liquidity_penalty m'.
Proof.
  intro H. unfold Spec.liquidity_penalty.
  rewrite (Qltb_compat m m' 100000 100000 H (Qeq_refl _)).
  rewrite (Qltb_compat m m' 500000 500000 H (Qeq_refl _)).
  rewrite (Qltb_compat m m' 1000000 1000000 H (Qeq_refl _)).
  reflexivity.
Qed.

Lemma liquidity_penalty_triangular_compat (m m' : Q) :
  m == m' -> Spec.liquidity_penalty_triangular m = Spec.liquidity_penalty_triangular m'.
Proof.
  intro H. unfold Spec.liquidity_penalty_triangular.
  rewrite (Qltb_compat m m' 100000 100000 H (Qeq_refl _)).
  rewrite (Qltb_compat m m' 500000 500000 H (Qeq_refl _)).
  rewrite (Qltb_compat m m' 1000000 1000000 H (Qeq_refl _)).
  reflexivity.
Qed.

Lemma calculate_risk_score_formula (p b s : Q) (cn : bool) :
  Detector.calculate_risk_score p b s cn == Spec.risk_cross p b s cn.
Proof.
  unfold Detector.calculate_risk_score, Spec.risk_cross.
  apply clamp_py.
  rewrite <- (liquidity_penalty_compat _ _ (py_min2_Qmin b s)).
  unfold Spec.liquidity_penalty.
  destruct cn; qcases; ring.
Qed.

Lemma calculate_risk_score_triangular_formula (p a b c : Q) :
  Detector.calculate_risk_score_triangular p a b c ==
  Spec.clamp_0_100 (40 + p * 1200
                    + Spec.liquidity_penalty_triangular (Qmin (Qmin a b) c)).
Proof.
  unfold Detector.calculate_risk_score_triangular,
    Detector.risk_score_triangular_return, Detector.risk_score_triangular_rest.
  apply clamp_py.
  rewrite <- (liquidity_penalty_triangular_compat _ _ (py_min3_Qmin a b c)).
  unfold Spec.liquidity_penalty_triangular.
  qcases; ring.
Qed.

(** C9, as stated, fails on the triangular score: with zero profit and
    $50,000 in every leg the code returns 65 where the claimed formula
    (penalty +20) gives 60. *)
Lemma C9_triangular_penalty_is_25 :
  Detector.calculate_risk_score_triangular 0 50000 50000 50000 == 65 /\
  Spec.risk_triangular 0 50000 50000 50000 == 60 /\
  ~ Detector.calculate_risk_score_triangular 0 50000 50000 50000
    == Spec.risk_triangular 0 50000 50000 50000.
Proof.
  repeat split; vm_compute; congruence.
Qed.

(** C9 (amended): for all inputs the cross-venue score is
    clamp(50 + profit*1000 + penalty + 15 if cross-network) with the
    penalty tiers 20/10/5/0 on the smaller leg; the triangular score is
    clamp(40 + profit*1200 + penalty) with 25 (not 20) in the tier below
    $100k; both results lie in [0,100]. *)
Theorem C9_risk_score_formula_and_range :
  (forall (p b s : Q) (cn : bool),
     Detector.calculate_risk_score p b s cn
     == Spec.clamp_0_100 (50 + p * 1000
                          + Spec.liquidity_penalty (Qmin b s)
                          + (if cn then 15 else 0))
     /\ 0 <= Detector.calculate_risk_score p b s cn <= 100) /\
  (forall p a b c : Q,
     Detector.calculate_risk_score_triangular p a b c
     == Spec.clamp_0_100 (40 + p * 1200
                          + Spec.liquidity_penalty_triangular (Qmin (Qmin a b) c))
     /\ 0 <= Detector.calculate_risk_score_triangular p a b c <= 100).
Proof.
  split; intros.
  - split; [apply calculate_risk_score_formula | apply py_clamp_range].
  - split; [apply calculate_risk_score_triangular_formula | apply py_clamp_range].
Qed.

(* ================================================================= *)
(** ** Validation *)

Section ValidatorFacts.
Variable md : market_data.
Variable min_liquidity : Q.
Variable eet : string -> string -> Q.
Variable eett : string -> Q.

Lemma get_pool_details_some (dex_id network_id pool_id : string) :
  exists p, Detector.get_pool_details md dex_id network_id pool_id = Some p.
Proof.
  unfold Detector.get_pool_details.
  destruct (find _ _) as [p|]; eauto.
Qed.

Lemma get_pool_details_unknown (dex_id network_id pool_id : string) :
  Spec.unknown_pool md dex_id network_id pool_id ->
  Detector.get_pool_details md dex_id network_id pool_id
  = Some (Detector.placeholder pool_id).
Proof.
  unfold Spec.unknown_pool, Detector.get_pool_details. intros ->. reflexivity.
Qed.

(** Whatever the lookup returns, the outcome is one of three shapes. *)
Lemma validate_cross_dex_shapes lookup (o : cross_dex) (d : validation_details) :
  let r := Detector.validate_cross_dex_opportunity md min_liquidity lookup eet o d in
  (r = (false, Detector.with_message "Could not retrieve pool details" d) /\
   Spec.missing_leg lookup (CrossDex o)) \/
  r = (false, Detector.with_message "Insufficient liquidity" d) \/
  (fst r = true /\
   validation_message (snd r) = "Opportunity validated successfully" /\
   expected_profit_usd (snd r) = optimal_trade_size_usd (snd r) * cd_net_profit_pct o).
Proof.
  unfold Detector.validate_cross_dex_opportunity, Spec.missing_leg. cbv zeta.
  destruct (lookup (cd_buy_dex o) _ _) as [bp|]; [|left; split; [|left]; reflexivity].
  destruct (lookup (cd_sell_dex o) _ _) as [sp|];
    [|left; split; [|right]; reflexivity].
  destruct (_ || _); [right; left; reflexivity|].
  right; right. repeat split.
Qed.

Lemma validate_triangular_shapes lookup (o : triangular) (d : validation_details) :
  let r := Detector.validate_triangular_opportunity min_liquidity lookup eett o d in
  (r = (false, Detector.with_message "Could not retrieve pool details" d) /\
   Spec.missing_leg lookup (Triangular o)) \/
  r = (false, Detector.with_message "Insufficient liquidity" d) \/
  (fst r = true /\
   validation_message (snd r) = "Opportunity validated successfully" /\
   expected_profit_usd (snd r)
   = optimal_trade_size_usd (snd r) * (tr_round_trip_rate o - 1 - tr_total_fee o)).
Proof.
  unfold Detector.validate_triangular_opportunity, Spec.missing_leg. cbv zeta.
  destruct (lookup _ _ (tr_pool_a_to_b o)) as [p1|];
    [|left; split; [|left]; reflexivity].
  destruct (lookup _ _ (tr_pool_b_to_c o)) as [p2|];
    [|left; split; [|right; left]; reflexivity].
  destruct (lookup _ _ (tr_pool_c_to_a o)) as [p3|];
    [|left; split; [|right; right]; reflexivity].
  destruct (Qltb _ _); [right; left; reflexivity|].
  right; right. repeat split.
Qed.

Lemma validate_missing_leg lookup now (opp : opportunity) :
  Spec.missing_leg lookup opp ->
  Detector.validate_opportunity md min_liquidity lookup eet eett now opp
  = (false, Detector.with_message "Could not retrieve pool details"
              (Detector.initial_details now)).
Proof.
  destruct opp as [o|o]; simpl.
  - unfold Detector.validate_cross_dex_opportunity. cbv zeta.
    intros [H|H]; rewrite H; [reflexivity|].
    destruct (lookup (cd_buy_dex o) _ _); reflexivity.
  - unfold Detector.validate_triangular_opportunity. cbv zeta.
    intros [H|[H|H]]; rewrite H.
    + reflexivity.
    + destruct (lookup _ _ (tr_pool_a_to_b o)); reflexivity.
    + destruct (lookup _ _ (tr_pool_a_to_b o)); [|reflexivity].
      destruct (lookup _ _ (tr_pool_b_to_c o)); reflexivity.
Qed.
End ValidatorFacts.

(** C5: whenever the lookup gives no record for some leg of a cross-venue
    or triangular opportunity, validation returns not-valid with the
    message "Could not retrieve pool details"; this holds for every
    liquidity threshold and every content of the other legs, so the
    liquidity check is never reached first. *)
Theorem C5_missing_pool_is_rejected_first
    (md : market_data) (min_liquidity : Q)
    (lookup : string -> string -> string -> option pool)
    (eet : string -> string -> Q) (eett : string -> Q)
    (now : Q) (opp : opportunity) :
  Spec.missing_leg lookup opp ->
  let r := Detector.validate_opportunity md min_liquidity lookup eet eett now opp in
  fst r = false /\
  is_valid (snd r) = false /\
  validation_message (snd r) = "Could not retrieve pool details" /\
  validation_message (snd r) <> "Insufficient liquidity".
Proof.
  intros H r. subst r.
  rewrite (validate_missing_leg md min_liquidity eet eett lookup now opp H).
  simpl. repeat split. discriminate.
Qed.

(** A lookup that knows only the pool "0xa1": the sell leg of the spread
    opportunity is missing, the buy leg is far below any threshold. *)
Lemma C5_witness :
  let lookup := fun (_ _ id : string) =>
      if String.eqb id "0xa1"
      then Some (Sample.two_token_pool "0xa1" "WETH" "USDC" 1 2000 10 None)
      else None in
  match Sample.first_of (Sample.emitted Sample.spread_pools) with
  | Some opp =>
      Spec.missing_leg lookup opp /\
      validation_message
        (snd (Detector.validate_opportunity Sample.spread_market 100000 lookup
                Sample.no_latency2 Sample.no_latency1 0 opp))
      = "Could not retrieve pool details"
  | None => False
  end.
Proof.
  vm_compute Sample.first_of. cbv zeta.
  split.
  - right. reflexivity.
  - apply (C5_missing_pool_is_rejected_first Sample.spread_market 100000
             _ Sample.no_latency2 Sample.no_latency1 0).
    right. reflexivity.
Defined.

(** C6, as stated, fails for triangular opportunities: validating the first
    opportunity found on the sample triangle gives a Valid result whose
    expected profit is not the trade size times [net_profit_pct] (the code
    multiplies by the round-trip gain net of fees, without the gas term). *)
Lemma C6_triangular_profit_ignores_gas :
  exists opp d,
    Sample.first_of (Sample.emitted Sample.triangle_pools) = Some opp /\
    Detector.validate Sample.triangle_market Detector.MIN_LIQUIDITY_THRESHOLD_default
      Sample.no_latency2 Sample.no_latency1 0 opp = (true, d) /\
    ~ Spec.profit_is_size_times_net opp d.
Proof.
  eexists. eexists. split; [vm_compute; reflexivity|].
  split; [vm_compute; reflexivity|].
  vm_compute. discriminate.
Qed.

(** C6 (amended): for every opportunity accepted as Valid,
    [expected_profit_usd] is [optimal_trade_size_usd * net_profit_pct] when
    it is cross-venue, and [optimal_trade_size_usd * (round_trip_rate - 1 -
    total_fee)] when it is triangular. *)
Theorem C6_expected_profit_of_valid
    (md : market_data) (min_liquidity : Q)
    (lookup : string -> string -> string -> option pool)
    (eet : string -> string -> Q) (eett : string -> Q)
    (now : Q) (opp : opportunity) (d : validation_details) :
  Detector.validate_opportunity md min_liquidity lookup eet eett now opp = (true, d) ->
  match opp with
  | CrossDex o =>
      expected_profit_usd d = optimal_trade_size_usd d * cd_net_profit_pct o
  | Triangular o =>
      expected_profit_usd d
      = optimal_trade_size_usd d * (tr_round_trip_rate o - 1 - tr_total_fee o)
  end.
Proof.
  intro H. destruct opp as [o|o]; simpl in H.
  - destruct (validate_cross_dex_shapes md min_liquidity eet lookup o
                (Detector.initial_details now)) as [[E _]|[E|(_ & _ & E)]];
      rewrite H in E; [discriminate E | discriminate E | exact E].
  - destruct (validate_triangular_shapes min_liquidity eett lookup o
                (Detector.initial_details now)) as [[E _]|[E|(_ & _ & E)]];
      rewrite H in E; [discriminate E | discriminate E | exact E].
Qed.

Lemma C6_witness :
  match Sample.first_of (Sample.emitted Sample.triangle_pools) with
  | Some (Triangular o) =>
      let r := Detector.validate_opportunity Sample.triangle_market 100000
                 (Detector.get_pool_details Sample.triangle_market)
                 Sample.no_latency2 Sample.no_latency1 0 (Triangular o) in
      fst r = true /\
      expected_profit_usd (snd r)
      = optimal_trade_size_usd (snd r) * (tr_round_trip_rate o - 1 - tr_total_fee o)
  | _ => False
  end.
Proof.
  vm_compute Sample.first_of. cbv zeta.
  split; [vm_compute; reflexivity|].
  match goal with
  | |- context [Detector.validate_opportunity ?m ?l ?k ?e ?t ?n ?o] =>
      apply (C6_expected_profit_of_valid m l k e t n o)
  end.
  vm_compute. reflexivity.
Defined.

Lemma validate_never_reports_missing_pool
    (md : market_data) (min_liquidity : Q)
    (eet : string -> string -> Q) (eett : string -> Q)
    (now : Q) (opp : opportunity) :
  validation_message (snd (Detector.validate md min_liquidity eet eett now opp))
  <> "Could not retrieve pool details".
Proof.
  unfold Detector.validate.
  assert (Hno : ~ Spec.missing_leg (Detector.get_pool_details md) opp).
  { destruct opp as [o|o]; simpl; intro H;
      repeat match type of H with _ \/ _ => destruct H as [H|H] end;
      match type of H with
      | Detector.get_pool_details _ ?a ?b ?c = None =>
          destruct (get_pool_details_some md a b c) as [p Hp]; congruence
      end. }
  destruct opp as [o|o]; simpl.
  - destruct (validate_cross_dex_shapes md min_liquidity eet
                (Detector.get_pool_details md) o (Detector.initial_details now))
      as [[_ E]|[E|(_ & E & _)]].
    + contradiction.
    + rewrite E. simpl. discriminate.
    + rewrite E. discriminate.
  - destruct (validate_triangular_shapes min_liquidity eett
                (Detector.get_pool_details md) o (Detector.initial_details now))
      as [[_ E]|[E|(_ & E & _)]].
    + contradiction.
    + rewrite E. simpl. discriminate.
    + rewrite E. discriminate.
Qed.

Lemma validate_unknown_legs_valid
    (md : market_data)
    (eet : string -> string -> Q) (eett : string -> Q)
    (now : Q) (opp : opportunity) :
  Spec.all_legs_unknown md opp ->
  fst (Detector.validate md Detector.MIN_LIQUIDITY_THRESHOLD_default eet eett now opp)
  = true.
Proof.
  unfold Detector.validate.
  destruct opp as [o|o]; simpl.
  - intros [Hb Hs].
    unfold Detector.validate_cross_dex_opportunity. cbv zeta.
    rewrite (get_pool_details_unknown _ _ _ _ Hb), (get_pool_details_unknown _ _ _ _ Hs).
    reflexivity.
  - intros (H1 & H2 & H3).
    unfold Detector.validate_triangular_opportunity. cbv zeta.
    rewrite (get_pool_details_unknown _ _ _ _ H1), (get_pool_details_unknown _ _ _ _ H2),
      (get_pool_details_unknown _ _ _ _ H3).
    reflexivity.
Qed.

(** C10: [get_pool_details] returns a record for every
    [(dex_id, network_id, pool_id)]; for an id that is not among the known
    pools it is the placeholder with [reserveUSD = 500000], which is not
    below the default threshold of 100000; hence validation never rejects
    with "Could not retrieve pool details", and an opportunity whose legs
    all name unknown pools is accepted under the default threshold. *)
Theorem C10_unknown_pool_gets_placeholder
    (md : market_data) (dex_id network_id pool_id : string) :
  Detector.get_pool_details md dex_id network_id pool_id <> None /\
  (Spec.unknown_pool md dex_id network_id pool_id ->
   Detector.get_pool_details md dex_id network_id pool_id
   = Some (Detector.placeholder pool_id)) /\
  p_reserveUSD (Detector.placeholder pool_id) = Some 500000 /\
  Qltb 500000 Detector.MIN_LIQUIDITY_THRESHOLD_default = false /\
  (forall min_liquidity eet eett now opp,
     validation_message (snd (Detector.validate md min_liquidity eet eett now opp))
     <> "Could not retrieve pool details") /\
  (forall eet eett now opp,
     Spec.all_legs_unknown md opp ->
     fst (Detector.validate md Detector.MIN_LIQUIDITY_THRESHOLD_default
            eet eett now opp) = true).
Proof.
  split.
  { destruct (get_pool_details_some md dex_id network_id pool_id) as [p Hp].
    congruence. }
  split; [apply get_pool_details_unknown|].
  split; [reflexivity|].
  split; [reflexivity|].
  split.
  - intros. apply validate_never_reports_missing_pool.
  - intros. apply validate_unknown_legs_valid. assumption.
Qed.

(** The spread opportunity checked against a market that knows no pool. *)
Lemma C10_witness :
  match Sample.first_of (Sample.emitted Sample.spread_pools) with
  | Some opp =>
      Spec.all_legs_unknown Sample.empty_market opp /\
      Detector.get_pool_details Sample.empty_market "uniswap" "polygon" "0xa1"
      = Some (Detector.placeholder "0xa1") /\
      fst (Detector.validate Sample.empty_market Detector.MIN_LIQUIDITY_THRESHOLD_default
             Sample.no_latency2 Sample.no_latency1 0 opp) = true
  | None => False
  end.
Proof.
  vm_compute Sample.first_of. cbv zeta.
  assert (H : Spec.all_legs_unknown Sample.empty_market
                (CrossDex
                   {| cd_token_pair := "WETH_USDC"; cd_token0 := "WETH"; cd_token1 := "USDC";
                      cd_buy_dex := "uniswap"; cd_buy_network := "polygon";
                      cd_buy_pool := "0xa1"; cd_buy_price := 2000;
                      cd_sell_dex := "quickswap"; cd_sell_network := "polygon";
                      cd_sell_pool := "0xa2"; cd_sell_price := 2050;
                      cd_price_diff_pct := 50 # 2000; cd_buy_fee := 0; cd_sell_fee := 0;
                      cd_estimated_gas_cost_pct := 0.001;
                      cd_net_profit_pct := 48000 # 2000000; cd_timestamp := 0 |})).
  { split; reflexivity. }
  split; [exact H|].
  split.
  - apply (C10_unknown_pool_gets_placeholder Sample.empty_market "uniswap" "polygon" "0xa1").
    reflexivity.
  - apply (C10_unknown_pool_gets_placeholder Sample.empty_market "uniswap" "polygon" "0xa1").
    exact H.
Defined.

(* ================================================================= *)
(** ** Further properties: validation *)

Lemma py_min2_ge (a b m : Q) : m <= py_min2 a b <-> m <= a /\ m <= b.
Proof.
  unfold py_min2. destruct (Qltb b a) eqn:E.
  - apply Qltb_lt in E. split; [intro; split; lra | intros [_ H]; exact H].
  - apply Qltb_ge in E. split; [intro; split; lra | intros [H _]; exact H].
Qed.

Lemma py_min3_ge (a b c m : Q) : m <= py_min3 a b c <-> m <= a /\ m <= b /\ m <= c.
Proof.
  unfold py_min3. rewrite py_min2_ge, py_min2_ge. tauto.
Qed.

Lemma py_min2_le_right (a b : Q) : py_min2 a b <= b.
Proof. unfold py_min2. qcases; lra. Qed.

Lemma py_min2_le_l' (a b : Q) : py_min2 a b <= a.
Proof. unfold py_min2. qcases; lra. Qed.

Lemma py_min2_cases (a b : Q) : py_min2 a b = a \/ py_min2 a b = b.
Proof. unfold py_min2. destruct (Qltb b a); auto. Qed.

Lemma cross_liquidity_gate (bl sl ml : Q) :
  Qltb bl ml || Qltb sl ml = false <-> ml <= bl /\ ml <= sl.
Proof.
  rewrite orb_false_iff, !Qltb_ge. reflexivity.
Qed.

Section ValidityFacts.
Variable md : market_data.
Variable min_liquidity : Q.
Variable lookup : string -> string -> string -> option pool.
Variable eet : string -> string -> Q.
Variable eett : string -> Q.

Lemma validate_cross_dex_valid_iff (o : cross_dex) (d : validation_details) :
  fst (Detector.validate_cross_dex_opportunity md min_liquidity lookup eet o d) = true
  <-> Inv.all_legs_liquid lookup min_liquidity (CrossDex o).
Proof.
  unfold Detector.validate_cross_dex_opportunity, Inv.all_legs_liquid. cbv zeta.
  destruct (lookup (cd_buy_dex o) _ _) as [bp|].
  2:{ split; [discriminate | intros (? & ? & H & _); discriminate]. }
  destruct (lookup (cd_sell_dex o) _ _) as [sp|].
  2:{ split; [discriminate | intros (? & ? & _ & H & _); discriminate]. }
  fold (Inv.leg_liquidity bp). fold (Inv.leg_liquidity sp).
  destruct (Qltb (Inv.leg_liquidity bp) min_liquidity
            || Qltb (Inv.leg_liquidity sp) min_liquidity) eqn:E.
  - split; [discriminate|]. intros (bp' & sp' & Hb & Hs & L1 & L2).
    injection Hb as <-. injection Hs as <-.
    assert (F : Qltb (Inv.leg_liquidity bp) min_liquidity
                || Qltb (Inv.leg_liquidity sp) min_liquidity = false)
      by (apply cross_liquidity_gate; auto).
    congruence.
  - apply cross_liquidity_gate in E. split; [|reflexivity].
    intros _. exists bp, sp. tauto.
Qed.

Lemma validate_triangular_valid_iff (o : triangular) (d : validation_details) :
  fst (Detector.validate_triangular_opportunity min_liquidity lookup eett o d) = true
  <-> Inv.all_legs_liquid lookup min_liquidity (Triangular o).
Proof.
  unfold Detector.validate_triangular_opportunity, Inv.all_legs_liquid. cbv zeta.
  destruct (lookup _ _ (tr_pool_a_to_b o)) as [p1|].
  2:{ split; [discriminate | intros (? & ? & ? & H & _); discriminate]. }
  destruct (lookup _ _ (tr_pool_b_to_c o)) as [p2|].
  2:{ split; [discriminate | intros (? & ? & ? & _ & H & _); discriminate]. }
  destruct (lookup _ _ (tr_pool_c_to_a o)) as [p3|].
  2:{ split; [discriminate | intros (? & ? & ? & _ & _ & H & _); discriminate]. }
  fold (Inv.leg_liquidity p1). fold (Inv.leg_liquidity p2). fold (Inv.leg_liquidity p3).
  destruct (Qltb (py_min3 (Inv.leg_liquidity p1) (Inv.leg_liquidity p2)
                          (Inv.leg_liquidity p3)) min_liquidity) eqn:E.
  - apply Qltb_lt in E. split; [discriminate|].
    intros (q1 & q2 & q3 & H1 & H2 & H3 & L1 & L2 & L3).
    injection H1 as <-. injection H2 as <-. injection H3 as <-.
    assert (F : min_liquidity <= py_min3 (Inv.leg_liquidity p1) (Inv.leg_liquidity p2)
                                         (Inv.leg_liquidity p3))
      by (apply py_min3_ge; auto).
    lra.
  - apply Qltb_ge in E. apply py_min3_ge in E. split; [|reflexivity].
    intros _. exists p1, p2, p3. tauto.
Qed.

Lemma validate_flag_agrees (now : Q) (opp : opportunity) :
  is_valid (snd (Detector.validate_opportunity md min_liquidity lookup eet eett now opp))
  = fst (Detector.validate_opportunity md min_liquidity lookup eet eett now opp).
Proof.
  destruct opp as [o|o]; simpl.
  - unfold Detector.validate_cross_dex_opportunity. cbv zeta.
    destruct (lookup (cd_buy_dex o) _ _); [|reflexivity].
    destruct (lookup (cd_sell_dex o) _ _); [|reflexivity].
    destruct (_ || _); reflexivity.
  - unfold Detector.validate_triangular_opportunity. cbv zeta.
    destruct (lookup _ _ (tr_pool_a_to_b o)); [|reflexivity].
    destruct (lookup _ _ (tr_pool_b_to_c o)); [|reflexivity].
    destruct (lookup _ _ (tr_pool_c_to_a o)); [|reflexivity].
    destruct (Qltb _ _); reflexivity.
Qed.

Lemma validate_message_cases (now : Q) (opp : opportunity) :
  let r := Detector.validate_opportunity md min_liquidity lookup eet eett now opp in
  (Spec.missing_leg lookup opp /\
   validation_message (snd r) = "Could not retrieve pool details") \/
  (~ Spec.missing_leg lookup opp /\ fst r = false /\
   validation_message (snd r) = "Insufficient liquidity") \/
  (~ Spec.missing_leg lookup opp /\ fst r = true /\
   validation_message (snd r) = "Opportunity validated successfully").
Proof.
  destruct opp as [o|o]; simpl.
  - unfold Detector.validate_cross_dex_opportunity. cbv zeta.
    destruct (lookup (cd_buy_dex o) _ _); [|left; split; [left|]; reflexivity].
    destruct (lookup (cd_sell_dex o) _ _); [|left; split; [right|]; reflexivity].
    destruct (_ || _); right; [left|right];
      (split; [intros [H|H]; discriminate H | split; reflexivity]).
  - unfold Detector.validate_triangular_opportunity. cbv zeta.
    destruct (lookup _ _ (tr_pool_a_to_b o)); [|left; split; [left|]; reflexivity].
    destruct (lookup _ _ (tr_pool_b_to_c o));
      [|left; split; [right; left|]; reflexivity].
    destruct (lookup _ _ (tr_pool_c_to_a o));
      [|left; split; [right; right|]; reflexivity].
    destruct (Qltb _ _); right; [left|right];
      (split; [intros [H|[H|H]]; discriminate H | split; reflexivity]).
Qed.
End ValidityFacts.

(** X1: an opportunity is accepted exactly when every leg has a pool record
    whose [reserveUSD] (0 when the key is absent) is at least the minimum
    liquidity; the returned flag equals the [is_valid] field; and the
    message is one of the three texts, "Insufficient liquidity" being given
    exactly to opportunities whose legs are all found but not all liquid. *)
Theorem X1_valid_iff_all_legs_liquid
    (md : market_data) (min_liquidity : Q)
    (lookup : string -> string -> string -> option pool)
    (eet : string -> string -> Q) (eett : string -> Q)
    (now : Q) (opp : opportunity) :
  let r := Detector.validate_opportunity md min_liquidity lookup eet eett now opp in
  (fst r = true <-> Inv.all_legs_liquid lookup min_liquidity opp) /\
  is_valid (snd r) = fst r /\
  (validation_message (snd r) = "Insufficient liquidity" <->
   ~ Spec.missing_leg lookup opp /\ ~ Inv.all_legs_liquid lookup min_liquidity opp).
Proof.
  intro r. subst r.
  assert (Hiff : fst (Detector.validate_opportunity md min_liquidity lookup eet eett now opp)
                 = true <-> Inv.all_legs_liquid lookup min_liquidity opp).
  { destruct opp as [o|o]; simpl fst.
    - apply validate_cross_dex_valid_iff.
    - apply validate_triangular_valid_iff. }
  split; [exact Hiff|].
  split; [apply validate_flag_agrees|].
  destruct (validate_message_cases md min_liquidity lookup eet eett now opp)
    as [[Hm E]|[(Hm & F & E)|(Hm & F & E)]]; cbv zeta in *; rewrite E.
  - split; [discriminate | intros [H _]; contradiction].
  - split; [|reflexivity]. intros _. split; [exact Hm|].
    intro H. apply Hiff in H. congruence.
  - split; [discriminate|]. intros [_ H]. exfalso. apply H. apply Hiff. exact F.
Qed.

(* ----------------------------------------------------------------- *)
(** *** Trade sizes *)

Lemma sized_between (m p base_frac cap_frac k : Q) :
  0 <= m -> 0 <= p -> 0 <= k -> 0 <= base_frac -> base_frac <= cap_frac ->
  m * base_frac <= py_min2 (m * base_frac * (1 + p * k)) (m * cap_frac).
Proof.
  intros Hm Hp Hk Hb Hc. apply py_min2_ge. split.
  - assert (H1 : 0 <= m * base_frac) by (apply Qmult_le_0_compat; assumption).
    assert (H2 : 0 <= p * k) by (apply Qmult_le_0_compat; assumption).
    assert (H3 : 0 <= (m * base_frac) * (p * k)) by (apply Qmult_le_0_compat; assumption).
    assert (E : m * base_frac * (1 + p * k) == m * base_frac + (m * base_frac) * (p * k))
      by ring.
    rewrite E. lra.
  - assert (H : 0 <= m * (cap_frac - base_frac)).
    { apply Qmult_le_0_compat; [assumption | lra]. }
    assert (E : m * (cap_frac - base_frac) == m * cap_frac - m * base_frac) by ring.
    rewrite E in H. lra.
Qed.

Lemma cross_valid_fields
    (md : market_data) (ml : Q) (lookup : string -> string -> string -> option pool)
    (eet : string -> string -> Q) (o : cross_dex) (d0 d : validation_details) :
  Detector.validate_cross_dex_opportunity md ml lookup eet o d0 = (true, d) ->
  exists bl sl,
    ml <= bl /\ ml <= sl /\
    max_trade_size_usd d = py_min2 bl sl * 0.05 /\
    optimal_trade_size_usd d
    = Detector.calculate_optimal_trade_size bl sl (cd_net_profit_pct o) /\
    expected_profit_usd d = optimal_trade_size_usd d * cd_net_profit_pct o /\
    risk_score d
    = Detector.calculate_risk_score (cd_net_profit_pct o) bl sl
        (negb (String.eqb (cd_buy_network o) (cd_sell_network o))).
Proof.
  unfold Detector.validate_cross_dex_opportunity. cbv zeta.
  destruct (lookup (cd_buy_dex o) _ _) as [bp|]; [|discriminate].
  destruct (lookup (cd_sell_dex o) _ _) as [sp|]; [|discriminate].
  destruct (_ || _) eqn:E; [discriminate|].
  apply cross_liquidity_gate in E. destruct E as [L1 L2].
  intro H. injection H as <-.
  exists (get_or (p_reserveUSD bp) 0), (get_or (p_reserveUSD sp) 0).
  repeat split; assumption.
Qed.

Lemma triangular_valid_fields
    (ml : Q) (lookup : string -> string -> string -> option pool)
    (eett : string -> Q) (o : triangular) (d0 d : validation_details) :
  Detector.validate_triangular_opportunity ml lookup eett o d0 = (true, d) ->
  exists l1 l2 l3,
    ml <= py_min3 l1 l2 l3 /\
    max_trade_size_usd d = py_min3 l1 l2 l3 * 0.03 /\
    optimal_trade_size_usd d
    = Detector.calculate_optimal_trade_size_triangular l1 l2 l3
        (tr_round_trip_rate o - 1) /\
    expected_profit_usd d
    = optimal_trade_size_usd d * (tr_round_trip_rate o - 1 - tr_total_fee o).
Proof.
  unfold Detector.validate_triangular_opportunity. cbv zeta.
  destruct (lookup _ _ (tr_pool_a_to_b o)) as [p1|]; [|discriminate].
  destruct (lookup _ _ (tr_pool_b_to_c o)) as [p2|]; [|discriminate].
  destruct (lookup _ _ (tr_pool_c_to_a o)) as [p3|]; [|discriminate].
  destruct (Qltb _ _) eqn:E; [discriminate|].
  apply Qltb_ge in E.
  intro H. injection H as <-.
  exists (get_or (p_reserveUSD p1) 0), (get_or (p_reserveUSD p2) 0),
    (get_or (p_reserveUSD p3) 0).
  repeat split; assumption.
Qed.

Lemma py_min2_mono (a a' b b' : Q) :
  a <= a' -> b <= b' -> py_min2 a b <= py_min2 a' b'.
Proof.
  intros Ha Hb. apply py_min2_ge. split.
  - apply Qle_trans with a; [apply py_min2_le_l' | exact Ha].
  - apply Qle_trans with b; [apply py_min2_le_right | exact Hb].
Qed.

Lemma py_min3_mono (a a' b b' c c' : Q) :
  a <= a' -> b <= b' -> c <= c' -> py_min3 a b c <= py_min3 a' b' c'.
Proof.
  intros Ha Hb Hc. unfold py_min3.
  apply py_min2_mono; [apply py_min2_mono; assumption | exact Hc].
Qed.

(** [min(m * f * (1 + p * k), m * c)] grows with [p] for [m >= 0]. *)
Lemma sized_mono_profit (m f c k p p' : Q) :
  0 <= m -> 0 <= f -> 0 <= k -> p <= p' ->
  py_min2 (m * f * (1 + p * k)) (m * c) <= py_min2 (m * f * (1 + p' * k)) (m * c).
Proof.
  intros Hm Hf Hk Hp. apply py_min2_mono; [|apply Qle_refl].
  assert (H : 0 <= (m * f) * (k * (p' - p))).
  { apply Qmult_le_0_compat; [apply Qmult_le_0_compat; assumption|].
    apply Qmult_le_0_compat; [exact Hk | lra]. }
  assert (E : (m * f) * (k * (p' - p)) == m * f * (1 + p' * k) - m * f * (1 + p * k))
    by ring.
  rewrite E in H. lra.
Qed.

(** ... and with [m] when the multiplier [1 + p * k] is not negative. *)
Lemma sized_mono_liquidity (m m' f c k p : Q) :
  0 <= f -> 0 <= c -> 0 <= 1 + p * k -> m <= m' ->
  py_min2 (m * f * (1 + p * k)) (m * c) <= py_min2 (m' * f * (1 + p * k)) (m' * c).
Proof.
  intros Hf Hc Hmul Hm. apply py_min2_mono.
  - assert (H : 0 <= (m' - m) * (f * (1 + p * k))).
    { apply Qmult_le_0_compat; [lra|]. apply Qmult_le_0_compat; assumption. }
    assert (E : (m' - m) * (f * (1 + p * k))
                == m' * f * (1 + p * k) - m * f * (1 + p * k)) by ring.
    rewrite E in H. lra.
  - assert (H : 0 <= (m' - m) * c) by (apply Qmult_le_0_compat; lra).
    assert (E : (m' - m) * c == m' * c - m * c) by ring.
    rewrite E in H. lra.
Qed.

(** ... and is negative for [m > 0] once the multiplier is at most -1. *)
Lemma sized_negative (m f c k p : Q) :
  0 < m -> 0 < f -> 1 + p * k <= - (1) ->
  py_min2 (m * f * (1 + p * k)) (m * c) < 0.
Proof.
  intros Hm Hf Hmul.
  apply Qle_lt_trans with (m * f * (1 + p * k)); [apply py_min2_le_l'|].
  assert (H0 : 0 < m * f) by (apply Qmult_lt_0_compat; assumption).
  assert (H : 0 <= (m * f) * (- (1) - (1 + p * k))).
  { apply Qmult_le_0_compat; lra. }
  assert (E : (m * f) * (- (1) - (1 + p * k)) == - (m * f) - m * f * (1 + p * k)) by ring.
  rewrite E in H. lra.
Qed.

(** X2: for every accepted opportunity the optimal trade size never exceeds
    the maximum trade size; when the liquidity threshold is not negative
    and the gain that scales the size is not negative, the optimal size is
    at least the base share (0.5 % cross-venue, 0.3 % triangular) of the
    minimum liquidity, and the expected profit is not negative as soon as
    the gain it multiplies is not negative. *)
Theorem X2_trade_size_within_bounds
    (md : market_data) (min_liquidity : Q)
    (lookup : string -> string -> string -> option pool)
    (eet : string -> string -> Q) (eett : string -> Q)
    (now : Q) (opp : opportunity) (d : validation_details) :
  Detector.validate_opportunity md min_liquidity lookup eet eett now opp = (true, d) ->
  optimal_trade_size_usd d <= max_trade_size_usd d /\
  (0 <= min_liquidity -> 0 <= Inv.sizing_gain opp ->
   0 <= max_trade_size_usd d /\
   min_liquidity * Inv.base_fraction opp <= optimal_trade_size_usd d /\
   (0 <= Inv.profit_gain opp -> 0 <= expected_profit_usd d)).
Proof.
  intro H. destruct opp as [o|o]; simpl in H.
  - destruct (cross_valid_fields md min_liquidity lookup eet o _ d H)
      as (bl & sl & L1 & L2 & Emax & Eopt & Eexp & _).
    rewrite Emax, Eexp, Eopt. unfold Detector.calculate_optimal_trade_size.
    split; [apply py_min2_le_right|].
    simpl Inv.sizing_gain. simpl Inv.profit_gain. simpl Inv.base_fraction.
    intros Hml Hp.
    assert (Hge : min_liquidity <= py_min2 bl sl) by (apply py_min2_ge; split; assumption).
    assert (Hm : 0 <= py_min2 bl sl) by lra.
    pose proof (sized_between (py_min2 bl sl) (cd_net_profit_pct o) 0.005 0.05 10 Hm Hp
                  ltac:(lra) ltac:(lra) ltac:(lra)) as Hb.
    set (opt := py_min2 (py_min2 bl sl * 0.005 * (1 + cd_net_profit_pct o * 10))
                        (py_min2 bl sl * 0.05)) in *.
    split; [lra|]. split; [lra|].
    intros _. apply Qmult_le_0_compat; lra.
  - destruct (triangular_valid_fields min_liquidity lookup eett o _ d H)
      as (l1 & l2 & l3 & L & Emax & Eopt & Eexp).
    rewrite Emax, Eexp, Eopt. unfold Detector.calculate_optimal_trade_size_triangular.
    split; [apply py_min2_le_right|].
    simpl Inv.sizing_gain. simpl Inv.profit_gain. simpl Inv.base_fraction.
    intros Hml Hp.
    assert (Hm : 0 <= py_min3 l1 l2 l3) by lra.
    pose proof (sized_between (py_min3 l1 l2 l3) (tr_round_trip_rate o - 1) 0.003 0.03 8
                  Hm Hp ltac:(lra) ltac:(lra) ltac:(lra)) as Hb.
    set (opt := py_min2 (py_min3 l1 l2 l3 * 0.003 * (1 + (tr_round_trip_rate o - 1) * 8))
                        (py_min3 l1 l2 l3 * 0.03)) in *.
    split; [lra|]. split; [lra|].
    intro Hg. apply Qmult_le_0_compat; lra.
Qed.

Lemma X2_witness :
  match Sample.first_of (Sample.emitted Sample.spread_pools) with
  | Some opp =>
      let r := Detector.validate_opportunity Sample.spread_market 100000
                 (Detector.get_pool_details Sample.spread_market)
                 Sample.no_latency2 Sample.no_latency1 0 opp in
      fst r = true /\
      optimal_trade_size_usd (snd r) <= max_trade_size_usd (snd r) /\
      100000 * Inv.base_fraction opp <= optimal_trade_size_usd (snd r)
  | None => False
  end.
Proof.
  vm_compute Sample.first_of. cbv zeta.
  split; [vm_compute; reflexivity|].
  match goal with
  | |- context [Detector.validate_opportunity ?m ?l ?k ?e ?t ?n ?o] =>
      assert (E : Detector.validate_opportunity m l k e t n o
                  = (true, snd (Detector.validate_opportunity m l k e t n o)))
        by (vm_compute; reflexivity);
      destruct (X2_trade_size_within_bounds m l k e t n o _ E) as [Hle Hrest]
  end.
  split; [exact Hle|].
  destruct Hrest as (_ & Hbase & _);
    [vm_compute; discriminate | vm_compute; discriminate | exact Hbase].
Defined.

(** X3: the trade size is monotone.  With a non-negative smallest
    liquidity it never decreases when the profit increases; it never
    decreases when the liquidities increase, as long as the profit
    multiplier is not negative (profit >= -0.1 cross-venue, >= -0.125
    triangular).  Nothing guards it against a loss: with a positive
    smallest liquidity, a profit of -0.2 or less (cross-venue) or -0.25 or
    less (triangular) gives a negative size. *)
Theorem X3_trade_size_monotone
    (b s b' s' l1 l2 l3 l1' l2' l3' p p' : Q) :
  (0 <= py_min2 b s -> p <= p' ->
   Detector.calculate_optimal_trade_size b s p
   <= Detector.calculate_optimal_trade_size b s p') /\
  (0 <= py_min3 l1 l2 l3 -> p <= p' ->
   Detector.calculate_optimal_trade_size_triangular l1 l2 l3 p
   <= Detector.calculate_optimal_trade_size_triangular l1 l2 l3 p') /\
  (- (1 # 10) <= p -> b <= b' -> s <= s' ->
   Detector.calculate_optimal_trade_size b s p
   <= Detector.calculate_optimal_trade_size b' s' p) /\
  (- (1 # 8) <= p -> l1 <= l1' -> l2 <= l2' -> l3 <= l3' ->
   Detector.calculate_optimal_trade_size_triangular l1 l2 l3 p
   <= Detector.calculate_optimal_trade_size_triangular l1' l2' l3' p) /\
  (0 < py_min2 b s -> p <= - (2 # 10) ->
   Detector.calculate_optimal_trade_size b s p < 0) /\
  (0 < py_min3 l1 l2 l3 -> p <= - (1 # 4) ->
   Detector.calculate_optimal_trade_size_triangular l1 l2 l3 p < 0).
Proof.
  unfold Detector.calculate_optimal_trade_size,
    Detector.calculate_optimal_trade_size_triangular.
  split; [|split; [|split; [|split; [|split]]]].
  - intros Hm Hp. apply sized_mono_profit; lra.
  - intros Hm Hp. apply sized_mono_profit; lra.
  - intros Hp Hb Hs. apply sized_mono_liquidity; try lra.
    apply py_min2_mono; assumption.
  - intros Hp H1 H2 H3. apply sized_mono_liquidity; try lra.
    apply py_min3_mono; assumption.
  - intros Hm Hp. apply sized_negative; lra.
  - intros Hm Hp. apply sized_negative; lra.
Qed.

Lemma X3_witness :
  Detector.calculate_optimal_trade_size 1000000 2000000 (1 # 100)
  <= Detector.calculate_optimal_trade_size 1000000 2000000 (2 # 100) /\
  Detector.calculate_optimal_trade_size 1000000 2000000 (1 # 100)
  <= Detector.calculate_optimal_trade_size 3000000 2000000 (1 # 100) /\
  Detector.calculate_optimal_trade_size 1000000 2000000 (- (1 # 2)) < 0.
Proof.
  destruct (X3_trade_size_monotone 1000000 2000000 3000000 2000000 0 0 0 0 0 0
              (1 # 100) (2 # 100)) as (Hp & _ & Hl & _).
  destruct (X3_trade_size_monotone 1000000 2000000 0 0 0 0 0 0 0 0
              (- (1 # 2)) 0) as (_ & _ & _ & _ & Hneg & _).
  split; [apply Hp; vm_compute; discriminate|].
  split; [apply Hl; vm_compute; discriminate|].
  apply Hneg; [reflexivity | vm_compute; discriminate].
Defined.

(* ----------------------------------------------------------------- *)
(** *** Pool lookup and risk *)

Lemma find_first {A : Type} (f : A -> bool) (l : list A) (x : A) :
  find f l = Some x ->
  f x = true /\ exists pre post, l = pre ++ x :: post /\ forall y, In y pre -> f y = false.
Proof.
  induction l as [|z l IH]; simpl; [discriminate|].
  destruct (f z) eqn:E.
  - intro H. injection H as <-. split; [exact E|].
    exists [], l. split; [reflexivity | intros y []].
  - intro H. destruct (IH H) as (Hx & pre & post & -> & Hpre).
    split; [exact Hx|]. exists (z :: pre), post. split; [reflexivity|].
    intros y [<-|Hy]; [exact E | apply Hpre; exact Hy].
Qed.

Lemma find_none_iff {A : Type} (f : A -> bool) (l : list A) :
  find f l = None <-> forall y, In y l -> f y = false.
Proof.
  split.
  - intros H y Hy. apply (find_none f l H y Hy).
  - induction l as [|z l IH]; intro H; simpl; [reflexivity|].
    rewrite (H z (or_introl eq_refl)). apply IH. intros y Hy. apply H. right. exact Hy.
Qed.

(** X4: the record [get_pool_details] returns always carries the requested
    id; when the (dex, network) group holds a pool with that id the result
    is the first such pool of the group, otherwise (also when the group is
    unknown) it is the placeholder. *)
Theorem X4_get_pool_details_returns_requested_id
    (md : market_data) (dex_id network_id pool_id : string) :
  exists p,
    Detector.get_pool_details md dex_id network_id pool_id = Some p /\
    p_id p = pool_id /\
    let pools := Detector.get_liquidity_pools md dex_id network_id in
    ((exists q, In q pools /\ p_id q = pool_id) ->
     exists pre post,
       pools = pre ++ p :: post /\ forall y, In y pre -> p_id y <> pool_id) /\
    ((forall q, In q pools -> p_id q <> pool_id) -> p = Detector.placeholder pool_id) /\
    (dict_get (fmt_key dex_id network_id) (liquidity_pools md) = None ->
     p = Detector.placeholder pool_id).
Proof.
  unfold Detector.get_pool_details. cbv zeta.
  set (pools := Detector.get_liquidity_pools md dex_id network_id).
  destruct (find (fun p => String.eqb (p_id p) pool_id) pools) as [p|] eqn:F.
  - destruct (find_first _ _ _ F) as (Hid & pre & post & Hsplit & Hpre).
    apply String.eqb_eq in Hid.
    exists p. split; [reflexivity|]. split; [exact Hid|].
    split; [|split].
    + intros _. exists pre, post. split; [exact Hsplit|].
      intros y Hy. apply String.eqb_neq. apply Hpre. exact Hy.
    + intro Hno. exfalso. apply (Hno p); [|exact Hid].
      rewrite Hsplit. apply in_or_app. right. left. reflexivity.
    + intro Hk. exfalso. subst pools. unfold Detector.get_liquidity_pools in F.
      rewrite Hk in F. discriminate F.
  - exists (Detector.placeholder pool_id).
    split; [reflexivity|]. split; [reflexivity|].
    split; [|split; reflexivity].
    intros (q & Hq & Hid). exfalso.
    pose proof (proj1 (find_none_iff _ _) F q Hq) as Hf. simpl in Hf.
    apply String.eqb_neq in Hf. contradiction.
Qed.

Lemma py_clamp_monotone (x y : Q) :
  x <= y -> py_max2 0 (py_min2 100 x) <= py_max2 0 (py_min2 100 y).
Proof.
  intro H. unfold py_min2.
  destruct (Qltb x 100) eqn:Ex; destruct (Qltb y 100) eqn:Ey;
    [apply Qltb_lt in Ex | apply Qltb_lt in Ex | apply Qltb_ge in Ex | apply Qltb_ge in Ex];
    [apply Qltb_lt in Ey | apply Qltb_ge in Ey | apply Qltb_lt in Ey | apply Qltb_ge in Ey];
    unfold py_max2; qcases; lra.
Qed.

(** X5: the cross-venue risk score never decreases when the profit
    percentage grows, never increases when the smaller liquidity grows, and
    is never lower for a cross-network opportunity than for the same
    opportunity on one network. *)
Theorem X5_risk_score_monotone (p p' b s b' s' : Q) (cn : bool) :
  p <= p' -> py_min2 b s <= py_min2 b' s' ->
  Detector.calculate_risk_score p b' s' cn <= Detector.calculate_risk_score p' b s cn /\
  Detector.calculate_risk_score p b s false <= Detector.calculate_risk_score p b s true.
Proof.
  intros Hp Hm. unfold Detector.calculate_risk_score.
  set (m := py_min2 b s) in *. set (m' := py_min2 b' s') in *.
  split; apply py_clamp_monotone.
  - destruct cn; qcases; lra.
  - qcases; lra.
Qed.

Lemma X5_witness :
  Detector.calculate_risk_score (1 # 100) 2000000 2000000 false
  <= Detector.calculate_risk_score (2 # 100) 50000 2000000 false.
Proof.
  apply (X5_risk_score_monotone (1 # 100) (2 # 100) 50000 2000000 2000000 2000000 false).
  - vm_compute. discriminate.
  - vm_compute. discriminate.
Defined.

Lemma X4_witness :
  exists p,
    Detector.get_pool_details Sample.triangle_market "uniswap" "polygon" "0xe2" = Some p /\
    p_id p = "0xe2" /\
    In p (Detector.get_liquidity_pools Sample.triangle_market "uniswap" "polygon").
Proof.
  destruct (X4_get_pool_details_returns_requested_id Sample.triangle_market
              "uniswap" "polygon" "0xe2") as (p & Hget & Hid & Hfound & _).
  exists p. split; [exact Hget|]. split; [exact Hid|].
  destruct Hfound as (pre & post & Hsplit & _).
  - exists (Sample.two_token_pool "0xe2" "USDC" "DAI" 100 101 1000000 (Some 0.003)).
    split; [right; left; reflexivity | reflexivity].
  - rewrite Hsplit. apply in_or_app. right. left. reflexivity.
Defined.

(* ================================================================= *)
(** ** Further properties: the detection cycle *)

Lemma insert_desc_perm {A : Type} (k : A -> Q) (x : A) (l : list A) :
  Permutation (Analyzer.insert_desc k x l) (x :: l).
Proof.
  induction l as [|z l IH]; simpl; [apply Permutation_refl|].
  destruct (Qltb (k x) (k z)); [|apply Permutation_refl].
  apply perm_trans with (z :: x :: l); [apply perm_skip; exact IH | apply perm_swap].
Qed.

Lemma sorted_desc_perm {A : Type} (k : A -> Q) (l : list A) :
  Permutation (Analyzer.sorted_desc k l) l.
Proof.
  induction l as [|x l IH]; simpl; [apply perm_nil|].
  apply perm_trans with (x :: Analyzer.sorted_desc k l);
    [apply insert_desc_perm | apply perm_skip; exact IH].
Qed.

Section CycleFacts.
Variable eet : string -> string -> Q.
Variable eett : string -> Q.

Lemma validated_of_in (svc : Cycle.service) (ml now : Q) (opps : list opportunity)
    (opp : opportunity) (d : validation_details) :
  In (opp, d) (Cycle.validated_of eet eett svc ml now opps) <->
  In opp opps /\
  Detector.validate (Cycle.svc_market svc) ml eet eett now opp = (true, d).
Proof.
  unfold Cycle.validated_of. rewrite in_flat_map. split.
  - intros (o & Ho & H).
    destruct (Detector.validate (Cycle.svc_market svc) ml eet eett now o) as [ok d']
      eqn:E.
    simpl in H. destruct ok; [|contradiction].
    destruct H as [H|[]]. injection H as <- <-. auto.
  - intros [Ho E]. exists opp. split; [exact Ho|]. rewrite E. simpl. left. reflexivity.
Qed.

Lemma validated_of_length (svc : Cycle.service) (ml now : Q) (opps : list opportunity) :
  List.length (Cycle.validated_of eet eett svc ml now opps)
  = List.length
      (filter (fun opp => fst (Detector.validate (Cycle.svc_market svc) ml eet eett now opp))
              opps).
Proof.
  unfold Cycle.validated_of.
  induction opps as [|o opps IH]; [reflexivity|].
  simpl. rewrite length_app, IH.
  destruct (fst (Detector.validate (Cycle.svc_market svc) ml eet eett now o)); reflexivity.
Qed.
End CycleFacts.

Lemma validate_opportunities_facts
    (eet : string -> string -> Q) (eett : string -> Q)
    (svc : Cycle.service) (self : Cycle.detector) (now : Q) :
  let self' := Cycle.validate_opportunities eet eett svc self now in
  let accepted := fun opp =>
    fst (Detector.validate (Cycle.svc_market svc) (Cycle.det_min_liquidity self)
           eet eett now opp) in
  (forall opp d,
     In (opp, d) (Cycle.det_validated_opportunities self') <->
     In opp (Cycle.det_opportunities self) /\
     Detector.validate (Cycle.svc_market svc) (Cycle.det_min_liquidity self)
       eet eett now opp = (true, d)) /\
  Forall (fun x => is_valid (snd x) = true) (Cycle.det_validated_opportunities self') /\
  List.length (Cycle.det_validated_opportunities self')
  = List.length (filter accepted (Cycle.det_opportunities self)) /\
  Inv.by_expected_profit (Cycle.det_validated_opportunities self') /\
  Cycle.det_opportunities self' = Cycle.det_opportunities self.
Proof.
  cbv zeta. unfold Cycle.validate_opportunities. simpl.
  assert (Hin : forall opp d,
             In (opp, d)
                (Analyzer.sorted_desc Cycle.expected_profit
                   (Cycle.validated_of eet eett svc (Cycle.det_min_liquidity self) now
                      (Cycle.det_opportunities self))) <->
             In opp (Cycle.det_opportunities self) /\
             Detector.validate (Cycle.svc_market svc) (Cycle.det_min_liquidity self)
               eet eett now opp = (true, d)).
  { intros opp d. rewrite sorted_desc_in. apply validated_of_in. }
  split; [exact Hin|]. split.
  { apply Forall_forall. intros [opp d] H. apply Hin in H. destruct H as [_ E].
    simpl. unfold Detector.validate in E.
    pose proof (validate_flag_agrees (Cycle.svc_market svc) (Cycle.det_min_liquidity self)
                  (Detector.get_pool_details (Cycle.svc_market svc)) eet eett now opp) as F.
    rewrite E in F. exact F. }
  split.
  { rewrite (Permutation_length (sorted_desc_perm _ _)). apply validated_of_length. }
  split; [|reflexivity].
  apply (sorted_desc_sorted _ Cycle.expected_profit).
Qed.

(** X6: after [validate_opportunities] the validated list holds exactly the
    stored opportunities that validation accepts, each paired with its
    validation details (flag [is_valid] set), one entry per accepted
    opportunity, ordered by descending expected profit; the stored
    opportunities themselves are left untouched. *)
Theorem X6_validated_list_is_the_accepted_ones_by_profit
    (eet : string -> string -> Q) (eett : string -> Q)
    (svc : Cycle.service) (self : Cycle.detector) (now : Q) :
  let self' := Cycle.validate_opportunities eet eett svc self now in
  let accepted := fun opp =>
    fst (Detector.validate (Cycle.svc_market svc) (Cycle.det_min_liquidity self)
           eet eett now opp) in
  (forall opp d,
     In (opp, d) (Cycle.det_validated_opportunities self') <->
     In opp (Cycle.det_opportunities self) /\
     Detector.validate (Cycle.svc_market svc) (Cycle.det_min_liquidity self)
       eet eett now opp = (true, d)) /\
  Forall (fun x => is_valid (snd x) = true) (Cycle.det_validated_opportunities self') /\
  List.length (Cycle.det_validated_opportunities self')
  = List.length (filter accepted (Cycle.det_opportunities self)) /\
  Inv.by_expected_profit (Cycle.det_validated_opportunities self') /\
  Cycle.det_opportunities self' = Cycle.det_opportunities self.
Proof.
  exact (validate_opportunities_facts eet eett svc self now).
Qed.

(** X7: [detect_opportunities] does nothing while less than the detection
    interval has passed since the last detection; otherwise it stores the
    analyzer's ten best opportunities at the detector's threshold (at most
    10 entries, each at or above the threshold, by descending net profit),
    and as validated opportunities exactly those of them that validation
    accepts, each with its validation details, one entry per accepted
    opportunity, by descending expected profit; the entry time becomes the
    last-detection time and the settings are left as they were. *)
Theorem X7_detection_is_gated_and_bounded
    (eet : string -> string -> Q) (eett : string -> Q)
    (svc : Cycle.service) (self : Cycle.detector) (current_time now : Q) :
  let self' := Cycle.detect_opportunities eet eett svc self current_time now in
  (current_time - Cycle.det_last_detection self < Cycle.det_detection_interval self ->
   self' = self) /\
  (Cycle.det_detection_interval self <= current_time - Cycle.det_last_detection self ->
   Cycle.det_last_detection self' = current_time /\
   Cycle.det_opportunities self'
   = Analyzer.get_arbitrage_opportunities (Cycle.svc_price_discrepancies svc)
       (Cycle.det_min_profit_threshold self) 10 /\
   (List.length (Cycle.det_validated_opportunities self')
    <= List.length (Cycle.det_opportunities self') <= 10)%nat /\
   Forall (fun o => Cycle.det_min_profit_threshold self <= net_profit_pct o)
          (Cycle.det_opportunities self') /\
   Spec.descending (Cycle.det_opportunities self') /\
   (forall opp d,
      In (opp, d) (Cycle.det_validated_opportunities self') <->
      In opp (Cycle.det_opportunities self') /\
      Detector.validate (Cycle.svc_market svc) (Cycle.det_min_liquidity self)
        eet eett now opp = (true, d)) /\
   Forall (fun x => is_valid (snd x) = true) (Cycle.det_validated_opportunities self') /\
   List.length (Cycle.det_validated_opportunities self')
   = List.length
       (filter (fun opp =>
                  fst (Detector.validate (Cycle.svc_market svc)
                         (Cycle.det_min_liquidity self) eet eett now opp))
               (Cycle.det_opportunities self')) /\
   Inv.by_expected_profit (Cycle.det_validated_opportunities self') /\
   Cycle.det_detection_interval self' = Cycle.det_detection_interval self /\
   Cycle.det_min_profit_threshold self' = Cycle.det_min_profit_threshold self /\
   Cycle.det_min_liquidity self' = Cycle.det_min_liquidity self).
Proof.
  cbv zeta. unfold Cycle.detect_opportunities. split.
  - intro H. apply Qltb_lt in H. rewrite H. reflexivity.
  - intro H. apply Qltb_ge in H. rewrite H. cbv zeta.
    set (raw := Cycle.get_arbitrage_opportunities svc (Cycle.det_min_profit_threshold self)).
    set (mid := {| Cycle.det_opportunities := raw;
                   Cycle.det_validated_opportunities :=
                     Cycle.det_validated_opportunities self;
                   Cycle.det_last_detection := Cycle.det_last_detection self;
                   Cycle.det_detection_interval := Cycle.det_detection_interval self;
                   Cycle.det_min_profit_threshold := Cycle.det_min_profit_threshold self;
                   Cycle.det_min_liquidity := Cycle.det_min_liquidity self |}).
    destruct (validate_opportunities_facts eet eett svc mid now) as (Hin & Hval & Hlen & Hsort & Hopp).
    set (done := Cycle.validate_opportunities eet eett svc mid now) in *.
    cbn [Cycle.det_opportunities Cycle.det_validated_opportunities
         Cycle.det_last_detection].
    rewrite Hopp. change (Cycle.det_opportunities mid) with raw in *.
    change (Cycle.det_min_liquidity mid) with (Cycle.det_min_liquidity self) in *.
    assert (Hraw : raw = Analyzer.get_arbitrage_opportunities
                           (Cycle.svc_price_discrepancies svc)
                           (Cycle.det_min_profit_threshold self) 10) by reflexivity.
    assert (H10 : (0 <= 10)%Z) by lia.
    split; [reflexivity|]. split; [exact Hraw|]. split.
    { split.
      - rewrite Hlen. apply filter_length_le.
      - rewrite Hraw.
        pose proof (top_length (Cycle.svc_price_discrepancies svc)
                      (Cycle.det_min_profit_threshold self) 10 H10) as L.
        simpl in L. exact L. }
    split.
    { rewrite Hraw.
      pose proof (top_passes (Cycle.svc_price_discrepancies svc)
                    (Cycle.det_min_profit_threshold self) 10 H10) as Hp.
      rewrite Forall_forall in Hp |- *. intros o Ho.
      apply Qle_bool_iff. apply Hp. exact Ho. }
    split; [rewrite Hraw; apply top_descending; exact H10|].
    split; [exact Hin|]. split; [exact Hval|]. split; [exact Hlen|].
    split; [exact Hsort|].
    repeat split.
Qed.

Lemma X7_witness :
  let svc := {| Cycle.svc_market := Sample.triangle_market;
                Cycle.svc_price_discrepancies := Sample.emitted Sample.triangle_pools |} in
  Cycle.detect_opportunities Sample.no_latency2 Sample.no_latency1 svc Cycle.init 10 10
  = Cycle.init /\
  Cycle.det_last_detection
    (Cycle.detect_opportunities Sample.no_latency2 Sample.no_latency1 svc Cycle.init 100 100)
  = 100 /\
  (List.length
     (Cycle.det_validated_opportunities
        (Cycle.detect_opportunities Sample.no_latency2 Sample.no_latency1 svc
           Cycle.init 100 100)) <= 10)%nat.
Proof.
  intro svc.
  destruct (X7_detection_is_gated_and_bounded Sample.no_latency2 Sample.no_latency1
              svc Cycle.init 10 10) as [Hgate _].
  destruct (X7_detection_is_gated_and_bounded Sample.no_latency2 Sample.no_latency1
              svc Cycle.init 100 100) as [_ Hrun].
  split; [apply Hgate; vm_compute; reflexivity|].
  destruct Hrun as (Hlast & _ & Hlen & _); [vm_compute; discriminate|].
  split; [exact Hlast | lia].
Defined.

(* ================================================================= *)
(** ** Further properties: what the analyzer keeps in its list *)

Lemma py_split_nonempty (s : string) : py_split s <> [].
Proof.
  destruct s as [|c s]; simpl; [discriminate|].
  destruct (Ascii.eqb c "_"); [discriminate|].
  destruct (py_split s); discriminate.
Qed.

Lemma py_join_split (s : string) : Inv.py_join (py_split s) = s.
Proof.
  induction s as [|c s IH]; [reflexivity|].
  simpl py_split. destruct (Ascii.eqb c "_") eqn:E.
  - apply Ascii.eqb_eq in E. subst c.
    pose proof (py_split_nonempty s) as Hne.
    destruct (py_split s) as [|h t]; [contradiction|].
    change (Inv.py_join ("" :: h :: t))
      with (String.append "" (String.append "_" (Inv.py_join (h :: t)))).
    rewrite IH. reflexivity.
  - pose proof (py_split_nonempty s) as Hne.
    destruct (py_split s) as [|h t]; [contradiction|].
    destruct t as [|h2 t].
    + simpl in IH |- *. rewrite IH. reflexivity.
    + change (Inv.py_join (String c h :: h2 :: t))
        with (String.append (String c h) (String.append "_" (Inv.py_join (h2 :: t)))).
      change (Inv.py_join (h :: h2 :: t))
        with (String.append h (String.append "_" (Inv.py_join (h2 :: t)))) in IH.
      rewrite <- IH. reflexivity.
Qed.

Lemma split_two_is_key (key t0 t1 : string) :
  py_split key = [t0; t1] -> key = fmt_key t0 t1.
Proof.
  intro H. rewrite <- (py_join_split key), H. reflexivity.
Qed.

Lemma bind_keeps {A B : Type} (P : list opportunity -> Prop)
    (m : analysis A) (f : A -> analysis B) (st : list opportunity) :
  P (snd (m st)) ->
  (forall a st', P st' -> P (snd (f a st'))) ->
  P (snd (bind m f st)).
Proof.
  intros Hm Hf. unfold bind. destruct (m st) as [[a|e] st']; simpl in *.
  - apply Hf. exact Hm.
  - exact Hm.
Qed.

Lemma for_each_keeps {A : Type} (P : list opportunity -> Prop)
    (xs : list A) (body : A -> analysis unit) :
  (forall x st, P st -> P (snd (body x st))) ->
  forall st, P st -> P (snd (for_each xs body st)).
Proof.
  intro Hbody. induction xs as [|x xs IH]; intros st Hst; simpl.
  - exact Hst.
  - apply bind_keeps; [apply Hbody; exact Hst|].
    intros _ st' Hst'. apply IH. exact Hst'.
Qed.

Lemma forall_snoc {A : Type} (P : A -> Prop) (l : list A) (x : A) :
  Forall P l -> P x -> Forall P (l ++ [x]).
Proof.
  intros Hl Hx. apply Forall_app. split; [exact Hl | constructor; [exact Hx | constructor]].
Qed.

Lemma scan_pair_keeps (thr now : Q) (kv : string * list price_obs)
    (st : list opportunity) :
  Forall (Inv.consistent thr) st ->
  Forall (Inv.consistent thr) (snd (Analyzer.scan_pair thr now kv st)).
Proof.
  intro Hst. destruct kv as [pair_key prices]. unfold Analyzer.scan_pair.
  destruct prices as [|x xs]; [exact Hst|].
  destruct (List.length (x :: xs) <? 2)%nat; [exact Hst|].
  set (buy := py_min_by o_price x xs). set (sell := py_max_by o_price x xs).
  unfold bind at 1. unfold lift at 1. unfold py_div.
  destruct (Qeq_bool (o_price buy) 0) eqn:Ez; [exact Hst|].
  set (diff := (o_price sell - o_price buy) / o_price buy).
  destruct (Qle_bool thr (Analyzer.cross_net diff buy sell)) eqn:En; [|exact Hst].
  unfold bind, lift.
  destruct (unpack2 (py_split pair_key)) as [[t0 t1]|e] eqn:Ek; [|exact Hst].
  simpl snd. apply forall_snoc; [exact Hst|].
  simpl. repeat split.
  - apply Qle_bool_iff. exact En.
  - intro Hz. apply Qeq_bool_iff in Hz. congruence.
  - destruct (py_min_by_spec o_price xs x) as [_ Hle].
    destruct (py_max_by_spec o_price xs x) as [Hin _].
    apply Hle. exact Hin.
  - apply split_two_is_key.
    unfold unpack2 in Ek. destruct (py_split pair_key) as [|a [|b [|c r]]];
      try discriminate. injection Ek as <- <-. reflexivity.
Qed.

Lemma tri_step_keeps (thr now : Q) (dex_id network_id : string)
    (g : Analyzer.token_graph) (a b c : string) (st : list opportunity) :
  Forall (Inv.consistent thr) st ->
  Forall (Inv.consistent thr)
         (snd (Analyzer.tri_step thr now dex_id network_id g a b c st)).
Proof.
  intro Hst. unfold Analyzer.tri_step.
  destruct (dict_mem c g && dict_mem a (Analyzer.neighbours g c)); [|exact Hst].
  unfold bind, lift.
  destruct (Analyzer.edge_item g a b) as [ab|]; [|exact Hst].
  destruct (Analyzer.edge_item g b c) as [bc|]; [|exact Hst].
  destruct (Analyzer.edge_item g c a) as [ca|]; [|exact Hst].
  destruct (Qle_bool thr (Analyzer.tri_net ab bc ca)) eqn:En; [|exact Hst].
  simpl snd. apply forall_snoc; [exact Hst|].
  simpl. repeat split. apply Qle_bool_iff. exact En.
Qed.

Lemma analyze_cross_keeps (thr now : Q) (all_pools : dict (list pool))
    (st : list opportunity) :
  Forall (Inv.consistent thr) st ->
  Forall (Inv.consistent thr)
         (snd (Analyzer.analyze_cross_dex_opportunities thr now all_pools st)).
Proof.
  intro Hst. unfold Analyzer.analyze_cross_dex_opportunities.
  apply bind_keeps; [exact Hst|].
  intros pp st' Hst'. apply for_each_keeps; [|exact Hst'].
  intros kv st1 H1. apply scan_pair_keeps. exact H1.
Qed.

Lemma analyze_triangular_keeps (thr now : Q) (all_pools : dict (list pool))
    (st : list opportunity) :
  Forall (Inv.consistent thr) st ->
  Forall (Inv.consistent thr)
         (snd (Analyzer.analyze_triangular_opportunities thr now all_pools st)).
Proof.
  intro Hst. unfold Analyzer.analyze_triangular_opportunities.
  apply for_each_keeps; [|exact Hst].
  intros [key pools] st1 H1. unfold Analyzer.scan_group.
  apply bind_keeps; [exact H1|].
  intros dn st2 H2. destruct (List.length pools <? 3)%nat; [exact H2|].
  unfold Analyzer.scan_graph.
  apply for_each_keeps; [|exact H2]. intros a st3 H3.
  apply for_each_keeps; [|exact H3]. intros b st4 H4.
  apply for_each_keeps; [|exact H4]. intros c st5 H5.
  apply tri_step_keeps. exact H5.
Qed.

(** X8: whatever the pools are, and whether the scans end normally or with
    an exception, every opportunity left in the list by [analyze_prices]
    clears the threshold and is consistent with its own fields: the net
    profit is the recorded gross change minus the recorded fees and gas
    constant, a cross-venue entry has a non-zero buy price not above its
    sell price and a pair key equal to token0_token1, a triangular entry has
    its round-trip rate equal to the product of its three prices.  Ranking
    that list at the same threshold therefore filters nothing out. *)
Theorem X8_retained_opportunities_are_consistent
    (thr now : Q) (all_pools : dict (list pool)) :
  let found := snd (Analyzer.analyze_prices thr now all_pools) in
  Forall (Inv.consistent thr) found /\
  Forall (fun o => thr <= net_profit_pct o) found /\
  filter (fun o => Qle_bool thr (net_profit_pct o)) found = found.
Proof.
  intro found.
  assert (H : Forall (Inv.consistent thr) found).
  { subst found. unfold Analyzer.analyze_prices.
    apply bind_keeps.
    - apply analyze_cross_keeps. constructor.
    - intros _ st Hst. apply analyze_triangular_keeps. exact Hst. }
  assert (H2 : Forall (fun o => thr <= net_profit_pct o) found).
  { rewrite Forall_forall in H |- *. intros o Ho. specialize (H o Ho).
    destruct o as [o|o]; simpl in *; apply H. }
  split; [exact H|]. split; [exact H2|].
  apply filter_all. rewrite Forall_forall in H2 |- *.
  intros o Ho. apply Qle_bool_iff. apply H2. exact Ho.
Qed.

(* ================================================================= *)
(** ** Further properties: the cross-venue scan *)

Lemma py_min_by_first {A : Type} (k : A -> Q) (xs : list A) (x : A) :
  exists pre post,
    x :: xs = pre ++ py_min_by k x xs :: post /\
    (forall y, In y pre -> k (py_min_by k x xs) < k y) /\
    (forall y, In y post -> k (py_min_by k x xs) <= k y).
Proof.
  unfold py_min_by. revert x.
  induction xs as [|z xs IH]; intro x; simpl.
  - exists [], []. split; [reflexivity|]. split; intros y [].
  - destruct (Qltb (k z) (k x)) eqn:E.
    + apply Qltb_lt in E.
      destruct (IH z) as (pre & post & Hsplit & Hpre & Hpost).
      exists (x :: pre), post. split; [simpl; rewrite <- Hsplit; reflexivity|].
      split; [|exact Hpost].
      intros y [<-|Hy]; [|apply Hpre; exact Hy].
      destruct (py_min_by_spec k xs z) as [_ Hle].
      unfold py_min_by in Hle.
      apply Qle_lt_trans with (k z); [apply Hle; left; reflexivity | exact E].
    + apply Qltb_ge in E.
      destruct (IH x) as (pre & post & Hsplit & Hpre & Hpost).
      destruct pre as [|p0 pre].
      * simpl in Hsplit. injection Hsplit as Hx Hxs.
        exists [], (z :: post). split; [simpl; rewrite <- Hx, <- Hxs; reflexivity|].
        split; [intros y []|].
        intros y [<-|Hy]; [rewrite <- Hx; exact E | apply Hpost; exact Hy].
      * simpl in Hsplit. injection Hsplit as Hx Hxs. subst p0.
        exists (x :: z :: pre), post.
        split; [simpl; f_equal; f_equal; exact Hxs|].
        split; [|exact Hpost].
        intros y [<-|[<-|Hy]].
        -- apply Hpre. left. reflexivity.
        -- apply Qlt_le_trans with (k x); [apply Hpre; left; reflexivity | exact E].
        -- apply Hpre. right. exact Hy.
Qed.

Lemma py_max_by_first {A : Type} (k : A -> Q) (xs : list A) (x : A) :
  exists pre post,
    x :: xs = pre ++ py_max_by k x xs :: post /\
    (forall y, In y pre -> k y < k (py_max_by k x xs)) /\
    (forall y, In y post -> k y <= k (py_max_by k x xs)).
Proof.
  unfold py_max_by. revert x.
  induction xs as [|z xs IH]; intro x; simpl.
  - exists [], []. split; [reflexivity|]. split; intros y [].
  - destruct (Qltb (k x) (k z)) eqn:E.
    + apply Qltb_lt in E.
      destruct (IH z) as (pre & post & Hsplit & Hpre & Hpost).
      exists (x :: pre), post. split; [simpl; rewrite <- Hsplit; reflexivity|].
      split; [|exact Hpost].
      intros y [<-|Hy]; [|apply Hpre; exact Hy].
      destruct (py_max_by_spec k xs z) as [_ Hle].
      unfold py_max_by in Hle.
      apply Qlt_le_trans with (k z); [exact E | apply Hle; left; reflexivity].
    + apply Qltb_ge in E.
      destruct (IH x) as (pre & post & Hsplit & Hpre & Hpost).
      destruct pre as [|p0 pre].
      * simpl in Hsplit. injection Hsplit as Hx Hxs.
        exists [], (z :: post). split; [simpl; rewrite <- Hx, <- Hxs; reflexivity|].
        split; [intros y []|].
        intros y [<-|Hy]; [rewrite <- Hx; exact E | apply Hpost; exact Hy].
      * simpl in Hsplit. injection Hsplit as Hx Hxs. subst p0.
        exists (x :: z :: pre), post.
        split; [simpl; f_equal; f_equal; exact Hxs|].
        split; [|exact Hpost].
        intros y [<-|[<-|Hy]].
        -- apply Hpre. left. reflexivity.
        -- apply Qle_lt_trans with (k x); [exact E | apply Hpre; left; reflexivity].
        -- apply Hpre. right. exact Hy.
Qed.

(** X9: among the observations of a pair, the buy side is the first one (in
    the order they were extracted) whose price is the lowest and the sell
    side the first one whose price is the highest: every earlier
    observation is strictly worse, every later one is no better. *)
Theorem X9_extremes_are_first_seen (x : price_obs) (xs : list price_obs) :
  let buy := py_min_by o_price x xs in
  let sell := py_max_by o_price x xs in
  (exists pre post,
     x :: xs = pre ++ buy :: post /\
     (forall y, In y pre -> o_price buy < o_price y) /\
     (forall y, In y post -> o_price buy <= o_price y)) /\
  (exists pre post,
     x :: xs = pre ++ sell :: post /\
     (forall y, In y pre -> o_price y < o_price sell) /\
     (forall y, In y post -> o_price y <= o_price sell)).
Proof.
  split; [apply py_min_by_first | apply py_max_by_first].
Qed.

Lemma for_each_raises_at {A : Type} (xs : list A) (body : A -> analysis unit) (x : A) :
  In x xs ->
  (forall st, exists e, fst (body x st) = Raise e) ->
  forall st, exists e, fst (for_each xs body st) = Raise e.
Proof.
  induction xs as [|z xs IH]; intros Hin Hx st; [contradiction|].
  simpl. unfold bind.
  destruct (body z st) as [[u|e] st'] eqn:E.
  - destruct Hin as [->|Hin].
    + destruct (Hx st) as [e He]. rewrite E in He. discriminate He.
    + apply (IH Hin Hx).
  - exists e. reflexivity.
Qed.

Lemma bind_outcome {A B : Type} (P : exn -> Prop)
    (m : analysis A) (f : A -> analysis B) (st : list opportunity) :
  (forall e, fst (m st) = Raise e -> P e) ->
  (forall a st' e, fst (f a st') = Raise e -> P e) ->
  forall e, fst (bind m f st) = Raise e -> P e.
Proof.
  intros Hm Hf e. unfold bind. destruct (m st) as [[a|e'] st'] eqn:E; simpl in *.
  - apply Hf.
  - intro H. injection H as <-. apply Hm. reflexivity.
Qed.

Lemma for_each_outcome {A : Type} (P : exn -> Prop)
    (xs : list A) (body : A -> analysis unit) :
  (forall x st e, fst (body x st) = Raise e -> P e) ->
  forall st e, fst (for_each xs body st) = Raise e -> P e.
Proof.
  intro Hbody. induction xs as [|x xs IH]; intros st e; simpl.
  - discriminate.
  - apply bind_outcome; [apply Hbody|]. intros _ st'. apply IH.
Qed.

Lemma scan_pair_outcome (thr now : Q) (kv : string * list price_obs)
    (st : list opportunity) (e : exn) :
  fst (Analyzer.scan_pair thr now kv st) = Raise e ->
  e = ZeroDivisionError \/ e = ValueError.
Proof.
  destruct kv as [pair_key prices]. unfold Analyzer.scan_pair.
  destruct prices as [|x xs]; [discriminate|].
  destruct (List.length (x :: xs) <? 2)%nat; [discriminate|].
  unfold bind at 1. unfold lift at 1. unfold py_div.
  destruct (Qeq_bool _ 0).
  - simpl. intro H. injection H as <-. left. reflexivity.
  - destruct (Qle_bool thr _); [|discriminate].
    unfold bind, lift, unpack2.
    destruct (py_split pair_key) as [|a [|b [|c r]]]; simpl; try discriminate;
      intro H; injection H as <-; right; reflexivity.
Qed.

(** X10: if extraction succeeds and some pair has at least two observations
    whose lowest price is zero, the whole cross-venue scan ends with an
    exception ([ZeroDivisionError], or a [ValueError] from a pair
    before it) whatever the other pairs hold, and [analyze_prices] ends
    with that exception without running the triangular scan. *)
Theorem X10_zero_price_pair_aborts_the_scan
    (thr now : Q) (all_pools : dict (list pool)) (pp : Analyzer.pair_prices)
    (pair_key : string) (x y : price_obs) (rest : list price_obs) :
  Analyzer.extract all_pools = Ok pp ->
  In (pair_key, x :: y :: rest) pp ->
  o_price (py_min_by o_price x (y :: rest)) == 0 ->
  exists e,
    (e = ZeroDivisionError \/ e = ValueError) /\
    (forall st,
       fst (Analyzer.analyze_cross_dex_opportunities thr now all_pools st) = Raise e) /\
    Analyzer.analyze_prices thr now all_pools
    = (Raise e, snd (Analyzer.analyze_cross_dex_opportunities thr now all_pools [])).
Proof.
  intros Hext Hin Hz.
  assert (Hrun : forall st,
             Analyzer.analyze_cross_dex_opportunities thr now all_pools st
             = for_each pp (Analyzer.scan_pair thr now) st).
  { intro st. unfold Analyzer.analyze_cross_dex_opportunities, bind, lift.
    rewrite Hext. reflexivity. }
  assert (Hraise : forall st, exists e,
             fst (for_each pp (Analyzer.scan_pair thr now) st) = Raise e).
  { apply (for_each_raises_at pp _ (pair_key, x :: y :: rest) Hin).
    intro st. exists ZeroDivisionError.
    rewrite (scan_pair_zero_price thr now pair_key x y rest st Hz). reflexivity. }
  assert (Hsame : forall st st' e e',
             fst (for_each pp (Analyzer.scan_pair thr now) st) = Raise e ->
             fst (for_each pp (Analyzer.scan_pair thr now) st') = Raise e' -> e = e').
  { clear Hrun Hraise Hin Hext. induction pp as [|kv pp IH]; intros st st' e e'; simpl.
    - discriminate.
    - unfold bind.
      assert (Hfst : fst (Analyzer.scan_pair thr now kv st)
                     = fst (Analyzer.scan_pair thr now kv st')).
      { destruct kv as [k prices]. unfold Analyzer.scan_pair.
        destruct prices as [|a l]; [reflexivity|].
        destruct (List.length (a :: l) <? 2)%nat; [reflexivity|].
        unfold bind, lift. destruct (py_div _ _); [|reflexivity].
        destruct (Qle_bool thr _); [|reflexivity].
        destruct (unpack2 (py_split k)); reflexivity. }
      destruct (Analyzer.scan_pair thr now kv st) as [[u|e1] s1];
        destruct (Analyzer.scan_pair thr now kv st') as [[u'|e2] s2];
        simpl in Hfst; try discriminate Hfst.
      + apply IH.
      + simpl. intros H H'. congruence. }
  destruct (Hraise []) as [e He]. exists e. split.
  { apply (for_each_outcome (fun e => e = ZeroDivisionError \/ e = ValueError) pp
             (Analyzer.scan_pair thr now)
             (fun kv st e0 => scan_pair_outcome thr now kv st e0) [] e He). }
  split.
  - intro st. rewrite Hrun. destruct (Hraise st) as [e' He'].
    rewrite He'. f_equal. apply (Hsame st [] e' e He' He).
  - unfold Analyzer.analyze_prices, bind. rewrite Hrun.
    destruct (for_each pp (Analyzer.scan_pair thr now) []) as [[u|e0] s0] eqn:E;
      simpl in He; [discriminate He|].
    injection He as ->. reflexivity.
Qed.

Lemma X10_witness :
  exists e,
    (e = ZeroDivisionError \/ e = ValueError) /\
    Analyzer.analyze_prices Detector.MIN_PROFIT_THRESHOLD_default 0
      Sample.zero_reserve_pools
    = (Raise e,
       snd (Analyzer.analyze_cross_dex_opportunities Detector.MIN_PROFIT_THRESHOLD_default 0
              Sample.zero_reserve_pools [])).
Proof.
  destruct (X10_zero_price_pair_aborts_the_scan Detector.MIN_PROFIT_THRESHOLD_default 0
              Sample.zero_reserve_pools
              [("WETH_USDC",
                [Analyzer.uniswap_obs "uniswap" "polygon"
                   (Sample.two_token_pool "0xc1" "WETH" "USDC" 0 1000 1000000 (Some 0.003))
                   0 1000;
                 Analyzer.uniswap_obs "quickswap" "polygon"
                   (Sample.two_token_pool "0xc2" "WETH" "USDC" 1 2000 1000000 (Some 0.003))
                   1 2000])]
              "WETH_USDC" _ _ [] eq_refl (or_introl eq_refl))
    as (e & He & _ & Hrun).
  { reflexivity. }
  exists e. split; [exact He | exact Hrun].
Defined.

(* ================================================================= *)
(** ** Further properties: extraction *)

Lemma fold_raise_ok_iff {A S : Type} (body : S -> A -> outcome S)
    (good : A -> bool) (xs : list A) :
  (forall s x, In x xs -> good x = true -> exists s', body s x = Ok s') ->
  (forall s x, In x xs -> good x = false -> exists e, body s x = Raise e) ->
  forall s, (exists s', fold_raise xs body s = Ok s') <-> forallb good xs = true.
Proof.
  induction xs as [|x xs IH]; intros Hg Hb s; simpl.
  - split; [reflexivity | intros _; exists s; reflexivity].
  - assert (Hg' : forall s x, In x xs -> good x = true -> exists s', body s x = Ok s')
      by (intros s0 y Hy; apply Hg; right; exact Hy).
    assert (Hb' : forall s x, In x xs -> good x = false -> exists e, body s x = Raise e)
      by (intros s0 y Hy; apply Hb; right; exact Hy).
    destruct (good x) eqn:G.
    + destruct (Hg s x (or_introl eq_refl) G) as [s1 E]. rewrite E. simpl.
      apply (IH Hg' Hb').
    + destruct (Hb s x (or_introl eq_refl) G) as [e E]. rewrite E. simpl.
      split; [intros [s' H]; discriminate | discriminate].
Qed.

Lemma fold_raise_exn {A S : Type} (P : exn -> Prop) (body : S -> A -> outcome S)
    (xs : list A) :
  (forall s x e, In x xs -> body s x = Raise e -> P e) ->
  forall s e, fold_raise xs body s = Raise e -> P e.
Proof.
  induction xs as [|x xs IH]; intros H s e; simpl; [discriminate|].
  destruct (body s x) as [s1|e1] eqn:E.
  - apply IH. intros s0 y e0 Hy. apply H. right. exact Hy.
  - intro R. injection R as <-. apply (H s x e1 (or_introl eq_refl) E).
Qed.

Lemma coin_pairs_in (n i j : nat) :
  In (i, j) (Analyzer.coin_pairs n) <-> (i < j < n)%nat.
Proof.
  unfold Analyzer.coin_pairs. rewrite in_flat_map. split.
  - intros (i' & Hi & Hj). apply in_map_iff in Hj.
    destruct Hj as (j' & E & Hj). injection E as -> ->.
    apply in_seq in Hi. apply in_seq in Hj. lia.
  - intros H. exists i. split; [apply in_seq; lia|].
    apply in_map_iff. exists j. split; [reflexivity|]. apply in_seq. lia.
Qed.

Lemma py_index_ok {A : Type} (xs : list A) (i : nat) :
  (i < List.length xs)%nat -> exists v, py_index xs i = Ok v.
Proof.
  intro H. unfold py_index.
  destruct (nth_error xs i) as [v|] eqn:E; [eauto|].
  apply nth_error_None in E. lia.
Qed.

Lemma py_index_out {A : Type} (xs : list A) (i : nat) :
  (List.length xs <= i)%nat -> py_index xs i = Raise IndexError.
Proof.
  intro H. unfold py_index.
  apply nth_error_None in H. rewrite H. reflexivity.
Qed.

Lemma curve_loop_ok_iff (dex_id network_id : string) (p : pool)
    (coins : list string) (balances : list Q) (pp : Analyzer.pair_prices) :
  (exists pp',
     fold_raise (Analyzer.coin_pairs (List.length coins))
       (Analyzer.curve_step dex_id network_id p coins balances) pp = Ok pp')
  <-> (List.length coins <=? 1)%nat || (List.length coins <=? List.length balances)%nat
      = true.
Proof.
  rewrite (fold_raise_ok_iff _ (fun ij => (snd ij <? List.length balances)%nat)).
  - rewrite forallb_forall, orb_true_iff, !Nat.leb_le. split.
    + intro H. destruct (le_lt_dec (List.length coins) 1) as [L|L]; [left; exact L|].
      right. specialize (H (0, List.length coins - 1)%nat).
      simpl in H. apply Nat.ltb_lt in H; [lia|]. apply coin_pairs_in. lia.
    + intros H [i j] Hin. apply coin_pairs_in in Hin. simpl.
      apply Nat.ltb_lt. lia.
  - intros s [i j] Hin G. apply coin_pairs_in in Hin. simpl in G.
    apply Nat.ltb_lt in G. unfold Analyzer.curve_step.
    destruct (py_index_ok coins i ltac:(lia)) as [ci ->].
    destruct (py_index_ok coins j ltac:(lia)) as [cj ->].
    destruct (py_index_ok balances i ltac:(lia)) as [bi ->].
    destruct (py_index_ok balances j ltac:(lia)) as [bj ->].
    simpl. eauto.
  - intros s [i j] Hin G. apply coin_pairs_in in Hin. simpl in G.
    apply Nat.ltb_ge in G. unfold Analyzer.curve_step.
    destruct (py_index_ok coins i ltac:(lia)) as [ci ->].
    destruct (py_index_ok coins j ltac:(lia)) as [cj ->].
    simpl. destruct (py_index balances i); simpl.
    + rewrite (py_index_out balances j G). simpl. eauto.
    + eauto.
Qed.

Lemma extract_pool_ok_iff (dex_id network_id : string)
    (pp : Analyzer.pair_prices) (p : pool) :
  (exists pp', Analyzer.extract_pool dex_id network_id pp p = Ok pp')
  <-> Inv.pool_readable p = true.
Proof.
  unfold Analyzer.extract_pool, Inv.pool_readable.
  destruct (Analyzer.uniswap_like p) as [[[[t0 t1] r0] r1]|].
  - split; [reflexivity | eauto].
  - destruct (Analyzer.curve_like p) as [[coins balances]|].
    + apply curve_loop_ok_iff.
    + split; [reflexivity | eauto].
Qed.

Lemma key_unpacks_iff (key : string) :
  Inv.key_unpacks key = true <-> exists d n, unpack2 (py_split key) = Ok (d, n).
Proof.
  unfold Inv.key_unpacks, unpack2.
  destruct (py_split key) as [|a [|b [|c r]]]; split; try discriminate;
    try (intros (d & n & H); discriminate).
  - intros _. eauto.
  - reflexivity.
Qed.

Lemma extract_group_ok_iff (pp : Analyzer.pair_prices) (kv : string * list pool) :
  (exists pp', Analyzer.extract_group pp kv = Ok pp') <-> Inv.group_readable kv = true.
Proof.
  destruct kv as [key pools]. unfold Analyzer.extract_group, Inv.group_readable.
  simpl fst. simpl snd. rewrite andb_true_iff.
  destruct (unpack2 (py_split key)) as [[d n]|e] eqn:K; simpl.
  - assert (Hk : Inv.key_unpacks key = true) by (apply key_unpacks_iff; eauto).
    rewrite (fold_raise_ok_iff _ Inv.pool_readable).
    + tauto.
    + intros s p _ G. apply extract_pool_ok_iff. exact G.
    + intros s p _ G.
      destruct (Analyzer.extract_pool d n s p) as [s'|e] eqn:E; [|eauto].
      assert (Inv.pool_readable p = true) by (apply (extract_pool_ok_iff d n s); eauto).
      congruence.
  - split; [intros [pp' H]; discriminate|].
    intros [Hk _]. apply key_unpacks_iff in Hk. destruct Hk as (d & n & Hk). congruence.
Qed.

Lemma extract_ok_iff (all_pools : dict (list pool)) :
  (exists pp, Analyzer.extract all_pools = Ok pp)
  <-> forallb Inv.group_readable all_pools = true.
Proof.
  unfold Analyzer.extract. apply fold_raise_ok_iff.
  - intros s kv _ G. apply extract_group_ok_iff. exact G.
  - intros s kv _ G.
    destruct (Analyzer.extract_group s kv) as [s'|e] eqn:E; [|eauto].
    assert (Inv.group_readable kv = true) by (apply (extract_group_ok_iff s); eauto).
    congruence.
Qed.

(** X11: if some key of the snapshot does not split at "_" into exactly two
    parts, or some multi-token pool that is not also a two-token pool has
    two or more coins but fewer balances than coins, then the extraction
    loop raises; the cross-venue scan ends with that exception before it
    appends anything, and [analyze_prices] ends with it and an empty list,
    without running the triangular scan: one such record anywhere in the
    snapshot leaves the analyzer with no opportunity at all. *)
Theorem X11_unreadable_snapshot_yields_nothing
    (thr now : Q) (all_pools : dict (list pool)) :
  forallb Inv.group_readable all_pools = false ->
  exists e,
    Analyzer.extract all_pools = Raise e /\
    (forall st,
       Analyzer.analyze_cross_dex_opportunities thr now all_pools st = (Raise e, st)) /\
    Analyzer.analyze_prices thr now all_pools = (Raise e, []).
Proof.
  intro Hbad.
  destruct (Analyzer.extract all_pools) as [pp|e] eqn:E.
  - assert (H : forallb Inv.group_readable all_pools = true)
      by (apply extract_ok_iff; exists pp; exact E).
    congruence.
  - exists e. split; [reflexivity|].
    assert (Hrun : forall st,
               Analyzer.analyze_cross_dex_opportunities thr now all_pools st
               = (Raise e, st)).
    { intro st. unfold Analyzer.analyze_cross_dex_opportunities, bind, lift.
      rewrite E. reflexivity. }
    split; [exact Hrun|].
    unfold Analyzer.analyze_prices, bind. rewrite Hrun. reflexivity.
Qed.

Lemma X11_witness :
  exists e,
    Analyzer.analyze_prices Detector.MIN_PROFIT_THRESHOLD_default 0
      (Sample.spread_pools ++ [("pancake_swap_bsc", [])])
    = (Raise e, []).
Proof.
  destruct (X11_unreadable_snapshot_yields_nothing Detector.MIN_PROFIT_THRESHOLD_default 0
              (Sample.spread_pools ++ [("pancake_swap_bsc", [])]))
    as (e & _ & _ & Hrun).
  - vm_compute. reflexivity.
  - exists e. exact Hrun.
Defined.

(* ----------------------------------------------------------------- *)
(** *** One entry per pair key *)

Lemma record_price_keys (k : string) (o : price_obs) (pp : Analyzer.pair_prices) :
  keys (Analyzer.record_price k o pp)
  = if dict_mem k pp then keys pp else keys pp ++ [k].
Proof.
  unfold dict_mem.
  induction pp as [|[k' l] pp IH]; simpl; [reflexivity|].
  destruct (String.eqb k' k) eqn:E; simpl; [reflexivity|].
  rewrite IH. destruct (dict_get k pp); reflexivity.
Qed.

Lemma record_price_nodup (k : string) (o : price_obs) (pp : Analyzer.pair_prices) :
  NoDup (keys pp) -> NoDup (keys (Analyzer.record_price k o pp)).
Proof.
  intro H. rewrite record_price_keys.
  destruct (dict_mem k pp) eqn:E; [exact H|].
  apply NoDup_app; [exact H | constructor; [intros [] | constructor] |].
  intros x Hx [<-|[]].
  apply dict_get_in_keys in Hx. destruct Hx as [v Hv].
  unfold dict_mem in E. rewrite Hv in E. discriminate E.
Qed.

Lemma extract_nodup (all_pools : dict (list pool)) (pp : Analyzer.pair_prices) :
  Analyzer.extract all_pools = Ok pp -> NoDup (keys pp).
Proof.
  unfold Analyzer.extract.
  apply (fold_raise_invariant (fun s => NoDup (keys s))); [|constructor].
  intros s [key pools] s' _ Hs. unfold Analyzer.extract_group.
  destruct (unpack2 (py_split key)) as [[d n]|]; simpl; [|discriminate].
  apply (fold_raise_invariant (fun s => NoDup (keys s))); [|exact Hs].
  intros s1 p s2 _ H1. unfold Analyzer.extract_pool.
  destruct (Analyzer.uniswap_like p) as [[[[t0 t1] r0] r1]|].
  - intro H. injection H as <-. apply record_price_nodup. exact H1.
  - destruct (Analyzer.curve_like p) as [[coins balances]|].
    + apply (fold_raise_invariant (fun s => NoDup (keys s))); [|exact H1].
      intros s3 [i j] s4 _ H3. unfold Analyzer.curve_step.
      destruct (py_index coins i); simpl; [|discriminate].
      destruct (py_index coins j); simpl; [|discriminate].
      destruct (py_index balances i); simpl; [|discriminate].
      destruct (py_index balances j); simpl; [|discriminate].
      intro H. injection H as <-. apply record_price_nodup. exact H3.
    + intro H. injection H as <-. exact H1.
Qed.

Lemma scan_pair_appends (thr now : Q) (kv : string * list price_obs)
    (st : list opportunity) :
  snd (Analyzer.scan_pair thr now kv st) = st \/
  exists o, snd (Analyzer.scan_pair thr now kv st) = st ++ [CrossDex o] /\
            cd_token_pair o = fst kv.
Proof.
  destruct kv as [pair_key prices]. unfold Analyzer.scan_pair, bind, lift.
  destruct prices as [|x xs]; [left; reflexivity|].
  destruct (List.length (x :: xs) <? 2)%nat; [left; reflexivity|].
  destruct (py_div _ _) as [diff|]; [|left; reflexivity].
  destruct (Qle_bool thr (Analyzer.cross_net diff _ _)); [|left; reflexivity].
  destruct (unpack2 (py_split pair_key)) as [ts|]; [|left; reflexivity].
  right. eexists. split; reflexivity.
Qed.

Lemma scan_pairs_one_per_key (thr now : Q) (pp : Analyzer.pair_prices) :
  NoDup (keys pp) ->
  forall st, exists found,
    snd (for_each pp (Analyzer.scan_pair thr now) st) = st ++ map CrossDex found /\
    incl (map cd_token_pair found) (keys pp) /\
    NoDup (map cd_token_pair found).
Proof.
  induction pp as [|kv pp IH]; intros Hnd st.
  - exists []. simpl. rewrite app_nil_r. split; [reflexivity|].
    split; [intros x [] | constructor].
  - simpl keys in Hnd. inversion Hnd as [|? ? Hnotin Hnd']; subst.
    simpl for_each. unfold bind.
    destruct (scan_pair_appends thr now kv st) as [E|(o & E & Hk)].
    + destruct (Analyzer.scan_pair thr now kv st) as [[u|e] st1]; simpl in E; subst st1.
      * destruct (IH Hnd' st) as (found & Hf & Hincl & Hnd2).
        exists found. split; [exact Hf|]. split; [|exact Hnd2].
        intros x Hx. right. apply Hincl. exact Hx.
      * exists []. simpl. rewrite app_nil_r. split; [reflexivity|].
        split; [intros x [] | constructor].
    + destruct (Analyzer.scan_pair thr now kv st) as [[u|e] st1]; simpl in E; subst st1.
      * destruct (IH Hnd' (st ++ [CrossDex o])) as (found & Hf & Hincl & Hnd2).
        exists (o :: found). split; [rewrite Hf, <- app_assoc; reflexivity|].
        simpl map. split.
        -- intros x [<-|Hx]; [left; symmetry; exact Hk | right; apply Hincl; exact Hx].
        -- constructor; [|exact Hnd2]. intro Hin. apply Hnotin.
           rewrite <- Hk. apply Hincl. exact Hin.
      * exists [o]. split; [reflexivity|]. simpl map. split.
        -- intros x [<-|[]]. left. symmetry. exact Hk.
        -- constructor; [intros [] | constructor].
Qed.

(** X12: whatever the pools are, and also when the scan ends with an
    exception, the cross-venue scan only appends cross-venue opportunities
    and at most one per pair key: no two appended opportunities have the
    same [token_pair]. *)
Theorem X12_at_most_one_opportunity_per_pair
    (thr now : Q) (all_pools : dict (list pool)) (st : list opportunity) :
  exists found,
    snd (Analyzer.analyze_cross_dex_opportunities thr now all_pools st)
    = st ++ map CrossDex found /\
    NoDup (map cd_token_pair found).
Proof.
  unfold Analyzer.analyze_cross_dex_opportunities, bind, lift.
  destruct (Analyzer.extract all_pools) as [pp|e] eqn:E.
  - destruct (scan_pairs_one_per_key thr now pp (extract_nodup all_pools pp E) st)
      as (found & Hf & _ & Hnd).
    exists found. split; assumption.
  - exists []. simpl. rewrite app_nil_r. split; [reflexivity | constructor].
Qed.

(** X13: when extraction succeeds and no pair key has two observations, the
    cross-venue scan returns normally and appends nothing, whatever the
    prices are; a single observation is never compared, not even one whose
    price is 0. *)
Theorem X13_single_observations_are_skipped
    (thr now : Q) (all_pools : dict (list pool)) (pp : Analyzer.pair_prices)
    (st : list opportunity) :
  Analyzer.extract all_pools = Ok pp ->
  (forall key prices, In (key, prices) pp -> (List.length prices < 2)%nat) ->
  Analyzer.analyze_cross_dex_opportunities thr now all_pools st = (Ok tt, st).
Proof.
  intros Hext Hshort.
  unfold Analyzer.analyze_cross_dex_opportunities, bind, lift. rewrite Hext.
  rewrite (for_each_emits pp (Analyzer.scan_pair thr now) (fun _ => [])).
  - assert (E : flat_map (fun _ : string * list price_obs => @nil opportunity) pp = [])
      by (clear; induction pp as [|kv pp IH]; [reflexivity | exact IH]).
    rewrite E, app_nil_r. reflexivity.
  - intros [key prices] Hin st1. rewrite app_nil_r.
    specialize (Hshort key prices Hin). unfold Analyzer.scan_pair.
    destruct prices as [|x xs]; [reflexivity|].
    assert (E : (List.length (x :: xs) <? 2)%nat = true) by (apply Nat.ltb_lt; exact Hshort).
    rewrite E. reflexivity.
Qed.

Lemma X13_witness :
  Analyzer.analyze_cross_dex_opportunities Detector.MIN_PROFIT_THRESHOLD_default 0
    Sample.swapped_pools [] = (Ok tt, []).
Proof.
  apply (X13_single_observations_are_skipped Detector.MIN_PROFIT_THRESHOLD_default 0
           Sample.swapped_pools
           [("WETH_USDC", [Sample.obs_weth_usdc]); ("USDC_WETH", [Sample.obs_usdc_weth])]).
  - vm_compute. reflexivity.
  - intros key prices [H|[H|[]]]; injection H as <- <-; simpl; lia.
Defined.

(* ================================================================= *)
(** ** Further properties: the token graph *)

Section DictFacts.
Variable V : Type.

Lemma dict_get_set_same (k : string) (v : V) (d : dict V) :
  dict_get k (dict_set k v d) = Some v.
Proof.
  induction d as [|[k' v'] d IH]; simpl.
  - rewrite String.eqb_refl. reflexivity.
  - destruct (String.eqb k' k) eqn:E; simpl; rewrite E; [reflexivity | exact IH].
Qed.

Lemma dict_get_set_other (k k' : string) (v : V) (d : dict V) :
  k <> k' -> dict_get k' (dict_set k v d) = dict_get k' d.
Proof.
  intro Hne. induction d as [|[k0 v0] d IH]; simpl.
  - apply String.eqb_neq in Hne. rewrite Hne. reflexivity.
  - destruct (String.eqb k0 k) eqn:E; simpl.
    + apply String.eqb_eq in E. subst k0.
      apply String.eqb_neq in Hne. rewrite Hne. reflexivity.
    + destruct (String.eqb k0 k'); [reflexivity | exact IH].
Qed.

Lemma dict_set_keys (k : string) (v : V) (d : dict V) :
  keys (dict_set k v d) = if dict_mem k d then keys d else keys d ++ [k].
Proof.
  unfold dict_mem.
  induction d as [|[k' v'] d IH]; simpl; [reflexivity|].
  destruct (String.eqb k' k) eqn:E; simpl; [reflexivity|].
  rewrite IH. destruct (dict_get k d); reflexivity.
Qed.

Lemma keys_snoc_nodup (k : string) (d : dict V) :
  NoDup (keys d) -> dict_mem k d = false -> NoDup (keys d ++ [k]).
Proof.
  intros H E.
  apply NoDup_app; [exact H | constructor; [intros [] | constructor] |].
  intros x Hx [<-|[]].
  apply dict_get_in_keys in Hx. destruct Hx as [v Hv].
  unfold dict_mem in E. rewrite Hv in E. discriminate E.
Qed.

Lemma dict_set_nodup (k : string) (v : V) (d : dict V) :
  NoDup (keys d) -> NoDup (keys (dict_set k v d)).
Proof.
  intro H. rewrite dict_set_keys.
  destruct (dict_mem k d) eqn:E; [exact H | apply keys_snoc_nodup; assumption].
Qed.

Lemma dict_set_forall (P : string * V -> Prop) (k : string) (v : V) (d : dict V) :
  Forall P d -> (forall k', P (k', v)) -> Forall P (dict_set k v d).
Proof.
  intros Hd Hv. induction d as [|[k' v'] d IH]; simpl.
  - constructor; [apply Hv | constructor].
  - inversion Hd as [|? ? Hx Hd']; subst.
    destruct (String.eqb k' k); constructor; auto.
Qed.

Lemma dict_get_in (k : string) (v : V) (d : dict V) :
  dict_get k d = Some v -> In (k, v) d.
Proof.
  induction d as [|[k' v'] d IH]; simpl; [discriminate|].
  destruct (String.eqb k' k) eqn:E.
  - apply String.eqb_eq in E. intro H. injection H as <-. left. subst. reflexivity.
  - intro H. right. apply IH. exact H.
Qed.

Lemma dict_get_snoc (k t : string) (v : V) (d : dict V) :
  dict_get k (d ++ [(t, v)])
  = match dict_get k d with
    | Some x => Some x
    | None => if String.eqb t k then Some v else None
    end.
Proof.
  induction d as [|[k' v'] d IH]; simpl; [reflexivity|].
  destruct (String.eqb k' k); [reflexivity | exact IH].
Qed.
End DictFacts.

Lemma ensure_token_edge (t : string) (g : Analyzer.token_graph) (a b : string) :
  Spec.edge_of (Analyzer.ensure_token t g) a b = Spec.edge_of g a b.
Proof.
  unfold Analyzer.ensure_token. destruct (dict_mem t g) eqn:E; [reflexivity|].
  unfold Spec.edge_of, Analyzer.neighbours. rewrite dict_get_snoc.
  unfold Analyzer.token_graph, dict in *.
  destruct (dict_get a g); [reflexivity|].
  destruct (String.eqb t a); reflexivity.
Qed.

Lemma ensure_token_mem (t : string) (g : Analyzer.token_graph) :
  dict_mem t (Analyzer.ensure_token t g) = true.
Proof.
  unfold Analyzer.ensure_token. destruct (dict_mem t g) eqn:E; [exact E|].
  unfold dict_mem. rewrite dict_get_snoc.
  unfold dict_mem in E.
  unfold Analyzer.token_graph, dict in *.
  destruct (dict_get t g); [reflexivity|].
  rewrite String.eqb_refl. reflexivity.
Qed.

Lemma ensure_token_keeps_mem (t u : string) (g : Analyzer.token_graph) :
  dict_mem u g = true -> dict_mem u (Analyzer.ensure_token t g) = true.
Proof.
  unfold Analyzer.ensure_token. destruct (dict_mem t g); [auto|].
  unfold dict_mem. rewrite dict_get_snoc.
  unfold Analyzer.token_graph, dict in *.
  destruct (dict_get u g); [auto | discriminate].
Qed.

Lemma ensure_token_keyed (t : string) (g : Analyzer.token_graph) :
  Inv.keyed_once g -> Inv.keyed_once (Analyzer.ensure_token t g).
Proof.
  intros [H1 H2]. unfold Analyzer.ensure_token.
  destruct (dict_mem t g) eqn:E; [split; assumption|].
  split.
  - unfold keys. rewrite map_app. apply (keys_snoc_nodup _ t g H1 E).
  - apply Forall_app. split; [exact H2|]. constructor; [constructor | constructor].
Qed.

Lemma set_edge_edge (a b : string) (e : edge) (g : Analyzer.token_graph) (x y : string) :
  dict_mem a g = true ->
  Spec.edge_of (Analyzer.set_edge a b e g) x y
  = if String.eqb a x && String.eqb b y then Some e else Spec.edge_of g x y.
Proof.
  unfold dict_mem, Analyzer.set_edge, Spec.edge_of, Analyzer.neighbours. intro Hm.
  unfold Analyzer.token_graph, dict in *.
  destruct (dict_get a g) as [adj|] eqn:Ga; [|discriminate].
  destruct (String.eqb a x) eqn:Ex.
  - apply String.eqb_eq in Ex. subst x. rewrite dict_get_set_same, Ga.
    destruct (String.eqb b y) eqn:Ey; simpl.
    + apply String.eqb_eq in Ey. subst y. apply dict_get_set_same.
    + apply String.eqb_neq in Ey. apply dict_get_set_other. exact Ey.
  - apply String.eqb_neq in Ex. rewrite (dict_get_set_other _ a x _ g Ex). reflexivity.
Qed.

Lemma set_edge_mem (a b u : string) (e : edge) (g : Analyzer.token_graph) :
  dict_mem u g = true -> dict_mem u (Analyzer.set_edge a b e g) = true.
Proof.
  unfold Analyzer.set_edge, dict_mem.
  unfold Analyzer.token_graph, dict in *.
  destruct (dict_get a g) as [adj|] eqn:Ga; [|auto].
  intro H.
  destruct (String.eqb a u) eqn:E.
  - apply String.eqb_eq in E. subst u. rewrite dict_get_set_same. reflexivity.
  - apply String.eqb_neq in E. rewrite (dict_get_set_other _ a u _ g E). exact H.
Qed.

Lemma set_edge_keyed (a b : string) (e : edge) (g : Analyzer.token_graph) :
  Inv.keyed_once g -> Inv.keyed_once (Analyzer.set_edge a b e g).
Proof.
  intros [H1 H2]. unfold Analyzer.set_edge.
  destruct (dict_get a g) as [adj|] eqn:Ga; [|split; assumption].
  split; [apply dict_set_nodup; exact H1|].
  apply dict_set_forall; [exact H2|].
  intros k'. simpl. apply dict_set_nodup.
  rewrite Forall_forall in H2. apply (H2 (a, adj)). apply dict_get_in. exact Ga.
Qed.

(** The edges after one pool has been added. *)
Lemma add_pool_edge (g : Analyzer.token_graph) (p : pool)
    (t0 t1 : string) (r0 r1 : Q) (x y : string) :
  Analyzer.uniswap_like p = Some (t0, t1, r0, r1) ->
  Spec.edge_of (Analyzer.add_pool g p) x y
  = if String.eqb t1 x && String.eqb t0 y
    then Some {| e_price := Analyzer.ratio_or_zero r0 r1; e_pool_id := p_id p;
                 e_fee := get_or (p_feeTier p) 0.003 |}
    else if String.eqb t0 x && String.eqb t1 y
    then Some {| e_price := Analyzer.ratio_or_zero r1 r0; e_pool_id := p_id p;
                 e_fee := get_or (p_feeTier p) 0.003 |}
    else Spec.edge_of g x y.
Proof.
  intro Hu. unfold Analyzer.add_pool. rewrite Hu. cbv zeta.
  set (g1 := Analyzer.ensure_token t0 g).
  set (g2 := Analyzer.ensure_token t1 g1).
  assert (M0 : dict_mem t0 g2 = true)
    by (apply ensure_token_keeps_mem; apply ensure_token_mem).
  assert (M1 : dict_mem t1 g2 = true) by apply ensure_token_mem.
  rewrite set_edge_edge by (apply set_edge_mem; exact M1).
  rewrite set_edge_edge by exact M0.
  subst g2 g1. rewrite !ensure_token_edge. reflexivity.
Qed.

Lemma add_pool_other (g : Analyzer.token_graph) (p : pool) :
  Analyzer.uniswap_like p = None -> Analyzer.add_pool g p = g.
Proof. intro H. unfold Analyzer.add_pool. rewrite H. reflexivity. Qed.

Lemma ratio_product (r0 r1 : Q) :
  Analyzer.ratio_or_zero r1 r0 * Analyzer.ratio_or_zero r0 r1 == 1 \/
  Analyzer.ratio_or_zero r1 r0 * Analyzer.ratio_or_zero r0 r1 == 0.
Proof.
  unfold Analyzer.ratio_or_zero.
  destruct (Qltb 0 r0) eqn:E0; destruct (Qltb 0 r1) eqn:E1;
    try (right; ring).
  apply Qltb_lt in E0. apply Qltb_lt in E1. left. field. split; lra.
Qed.

Lemma add_pool_mirrored (g : Analyzer.token_graph) (p : pool) :
  Inv.mirrored g -> Inv.mirrored (Analyzer.add_pool g p).
Proof.
  intro Hg.
  destruct (Analyzer.uniswap_like p) as [[[[t0 t1] r0] r1]|] eqn:Hu;
    [|rewrite (add_pool_other g p Hu); exact Hg].
  intros a b e. rewrite !(add_pool_edge g p t0 t1 r0 r1 _ _ Hu).
  destruct (String.eqb t1 a && String.eqb t0 b) eqn:C1.
  - apply andb_true_iff in C1. destruct C1 as [Ea Eb].
    apply String.eqb_eq in Ea. apply String.eqb_eq in Eb. subst a b.
    intro H. injection H as <-.
    destruct (String.eqb t1 t0 && String.eqb t0 t1) eqn:C.
    + eexists. split; [reflexivity|]. simpl. repeat split.
      intro Hne. apply andb_true_iff in C. destruct C as [C _].
      apply String.eqb_eq in C. contradiction.
    + rewrite !String.eqb_refl. simpl.
      eexists. split; [reflexivity|]. simpl. repeat split.
      intros _. apply ratio_product.
  - destruct (String.eqb t0 a && String.eqb t1 b) eqn:C2.
    + apply andb_true_iff in C2. destruct C2 as [Ea Eb].
      apply String.eqb_eq in Ea. apply String.eqb_eq in Eb. subst a b.
      intro H. injection H as <-.
      rewrite !String.eqb_refl. simpl.
      eexists. split; [reflexivity|]. simpl. repeat split.
      intros _. apply ratio_product.
    + intro H.
      assert (R1 : String.eqb t1 b && String.eqb t0 a = false).
      { rewrite andb_comm. exact C2. }
      assert (R2 : String.eqb t0 b && String.eqb t1 a = false).
      { rewrite andb_comm. exact C1. }
      rewrite R1, R2. apply Hg. exact H.
Qed.

Lemma add_pool_keyed (g : Analyzer.token_graph) (p : pool) :
  Inv.keyed_once g -> Inv.keyed_once (Analyzer.add_pool g p).
Proof.
  intro Hg. unfold Analyzer.add_pool.
  destruct (Analyzer.uniswap_like p) as [[[[t0 t1] r0] r1]|]; [|exact Hg].
  cbv zeta. apply set_edge_keyed. apply set_edge_keyed.
  apply ensure_token_keyed. apply ensure_token_keyed. exact Hg.
Qed.

Lemma build_graph_invariants (pools : list pool) :
  Inv.mirrored (Analyzer.build_graph pools) /\ Inv.keyed_once (Analyzer.build_graph pools).
Proof.
  unfold Analyzer.build_graph.
  assert (H0 : Inv.mirrored [] /\ Inv.keyed_once []).
  { split.
    - intros a b e H. discriminate H.
    - split; constructor. }
  revert H0. generalize (@nil (string * dict edge)).
  induction pools as [|p pools IH]; intros g [Hm Hk]; simpl.
  - split; assumption.
  - apply IH. split; [apply add_pool_mirrored | apply add_pool_keyed]; assumption.
Qed.

(** X14: in the token graph built from any list of pools, an edge a -> b
    always comes with the edge b -> a written from the same pool: same
    pool id and same fee; no token is listed twice among the keys or among
    the neighbours of a token. *)
Theorem X14_token_graph_is_mirrored (pools : list pool) :
  let g := Analyzer.build_graph pools in
  (forall a b e,
     Spec.edge_of g a b = Some e ->
     exists e',
       Spec.edge_of g b a = Some e' /\
       e_pool_id e' = e_pool_id e /\ e_fee e' = e_fee e) /\
  NoDup (keys g) /\
  (forall a, NoDup (keys (Analyzer.neighbours g a))).
Proof.
  intro g. destruct (build_graph_invariants pools) as [Hm [Hk1 Hk2]]. fold g in Hm, Hk1, Hk2.
  split.
  { intros a b e He. destruct (Hm a b e He) as (e' & He' & Hid & Hfee & _).
    exists e'. auto. }
  split; [exact Hk1|].
  intro a. unfold Analyzer.neighbours.
  destruct (dict_get a g) as [adj|] eqn:E; [|constructor].
  rewrite Forall_forall in Hk2. apply (Hk2 (a, adj)). apply dict_get_in. exact E.
Qed.

(* ================================================================= *)
(** ** Further properties: the triangular scan *)

Lemma zero_or_one_product (x y z : Q) :
  (x == 1 \/ x == 0) -> (y == 1 \/ y == 0) -> (z == 1 \/ z == 0) ->
  0 <= x * y * z <= 1.
Proof.
  intros [Hx|Hx] [Hy|Hy] [Hz|Hz]; rewrite Hx, Hy, Hz; split; vm_compute; discriminate.
Qed.

Lemma below_one_when_other_above (r r' : Q) :
  1 < r -> r * r' <= 1 -> r' < 1.
Proof.
  intros Hr Hp. apply Qnot_le_lt. intro H.
  assert (H0 : 0 <= r * (r' - 1)) by (apply Qmult_le_0_compat; lra).
  assert (E : r * (r' - 1) == r * r' - r) by ring.
  rewrite E in H0. lra.
Qed.

(** X15: in the graph built from any pools, let a, b, c be three different
    tokens whose cycle a -> b -> c -> a is emitted under a threshold >= 0
    with a total fee >= 0.  Then the opposite cycle a -> c -> b -> a exists
    in the graph, its net profit is negative, and it is not emitted: a
    cycle and its reverse are never both reported. *)
Theorem X15_reverse_cycle_is_not_emitted
    (thr now : Q) (dex_id network_id : string) (pools : list pool)
    (a b c : string) (ab bc ca : edge) :
  let g := Analyzer.build_graph pools in
  let found := snd (Analyzer.scan_graph thr now dex_id network_id g []) in
  Spec.edge_of g a b = Some ab ->
  Spec.edge_of g b c = Some bc ->
  Spec.edge_of g c a = Some ca ->
  a <> b -> b <> c -> c <> a ->
  0 <= thr -> 0 <= e_fee ab + e_fee bc + e_fee ca ->
  In (Triangular (Analyzer.tri_opportunity now dex_id network_id a b c ab bc ca)) found ->
  exists ac cb ba,
    Spec.edge_of g a c = Some ac /\
    Spec.edge_of g c b = Some cb /\
    Spec.edge_of g b a = Some ba /\
    Analyzer.tri_net ac cb ba < 0 /\
    ~ In (Triangular (Analyzer.tri_opportunity now dex_id network_id a c b ac cb ba)) found.
Proof.
  intros g found Hab Hbc Hca Nab Nbc Nca Hthr Hfee Hin.
  assert (Hf : found = Spec.tri_found thr now dex_id network_id g)
    by (subst found; rewrite scan_graph_run; reflexivity).
  rewrite Hf in Hin |- *. clear Hf found.
  destruct (build_graph_invariants pools) as [Hm _]. fold g in Hm.
  destruct (Hm a b ab Hab) as (ba & Hba & _ & Fba & Pab).
  destruct (Hm b c bc Hbc) as (cb & Hcb & _ & Fcb & Pbc).
  destruct (Hm c a ca Hca) as (ac & Hac & _ & Fac & Pca).
  specialize (Pab Nab). specialize (Pbc Nbc). specialize (Pca Nca).
  apply (tri_found_iff thr now dex_id network_id g a b c ab bc ca Hab Hbc Hca) in Hin.
  exists ac, cb, ba. split; [exact Hac|]. split; [exact Hcb|]. split; [exact Hba|].
  assert (Hneg : Analyzer.tri_net ac cb ba < 0).
  { unfold Analyzer.tri_net, Analyzer.round_trip, Analyzer.fee_sum,
      Analyzer.estimated_gas_cost_pct_tri in *.
    rewrite Fac, Fcb, Fba.
    set (r := e_price ab * e_price bc * e_price ca) in *.
    set (r' := e_price ac * e_price cb * e_price ba).
    assert (Hr : 1 < r) by lra.
    assert (Hp : r * r' <= 1).
    { assert (E : r * r' == (e_price ab * e_price ba) * (e_price bc * e_price cb)
                            * (e_price ca * e_price ac))
        by (unfold r, r'; ring).
      rewrite E. apply zero_or_one_product; assumption. }
    pose proof (below_one_when_other_above r r' Hr Hp). lra. }
  split; [exact Hneg|].
  intro H.
  apply (tri_found_iff thr now dex_id network_id g a c b ac cb ba Hac Hcb Hba) in H.
  lra.
Qed.

Lemma X15_witness :
  exists ac cb ba,
    Analyzer.tri_net ac cb ba < 0 /\
    ~ In (Triangular (Analyzer.tri_opportunity 0 "uniswap" "polygon" "ETH" "DAI" "USDC"
                        ac cb ba))
         (snd (Analyzer.scan_graph Detector.MIN_PROFIT_THRESHOLD_default 0
                 "uniswap" "polygon" (Analyzer.build_graph Sample2.triangle) [])).
Proof.
  destruct (X15_reverse_cycle_is_not_emitted Detector.MIN_PROFIT_THRESHOLD_default 0
              "uniswap" "polygon" Sample2.triangle "ETH" "USDC" "DAI"
              {| e_price := Analyzer.ratio_or_zero 2000 1; e_pool_id := "0xe1";
                 e_fee := 0.003 |}
              {| e_price := Analyzer.ratio_or_zero 101 100; e_pool_id := "0xe2";
                 e_fee := 0.003 |}
              {| e_price := Analyzer.ratio_or_zero 1 1900; e_pool_id := "0xe3";
                 e_fee := 0.003 |})
    as (ac & cb & ba & _ & _ & _ & Hneg & Hnot).
  - reflexivity.
  - reflexivity.
  - reflexivity.
  - discriminate.
  - discriminate.
  - discriminate.
  - vm_compute. discriminate.
  - vm_compute. discriminate.
  - vm_compute. left. reflexivity.
  - exists ac, cb, ba. split; [exact Hneg | exact Hnot].
Defined.

Lemma map_flat_map_comm {A B C : Type} (f : B -> C) (g : A -> list B) (l : list A) :
  map f (flat_map g l) = flat_map (fun x => map f (g x)) l.
Proof.
  induction l as [|x l IH]; simpl; [reflexivity|].
  rewrite map_app, IH. reflexivity.
Qed.

Lemma nodup_flat_map_tagged {A B : Type} (f : A -> list B) (tag : B -> A) (l : list A) :
  NoDup l ->
  (forall x y, In y (f x) -> tag y = x) ->
  (forall x, NoDup (f x)) ->
  NoDup (flat_map f l).
Proof.
  intros Hl Htag Hf. induction l as [|x l IH]; simpl; [constructor|].
  inversion Hl as [|? ? Hx Hl']; subst.
  apply NoDup_app; [apply Hf | apply IH; exact Hl' |].
  intros y Hy Hy'. apply in_flat_map in Hy'. destruct Hy' as (x' & Hx' & Hy').
  apply Htag in Hy. apply Htag in Hy'. subst. contradiction.
Qed.

(** The paths contributed at one [(a, b, c)]: none or the path itself. *)
Lemma tri_found_at_records (thr now : Q) (dex_id network_id : string)
    (g : Analyzer.token_graph) (a b c : string) :
  exists rs,
    Spec.tri_found_at thr now dex_id network_id g a b c = map Triangular rs /\
    (map Inv.path_of rs = [] \/ map Inv.path_of rs = [(a, b, c)]).
Proof.
  unfold Spec.tri_found_at.
  destruct (Spec.edge_of g a b) as [ab|]; [|exists []; auto].
  destruct (Spec.edge_of g b c) as [bc|]; [|exists []; auto].
  destruct (Spec.edge_of g c a) as [ca|]; [|exists []; auto].
  destruct (Qle_bool thr _); [|exists []; auto].
  eexists [_]. split; [reflexivity|]. right. reflexivity.
Qed.

Lemma flat_map_flat_map {A B C : Type} (f : B -> list C) (g : A -> list B) (l : list A) :
  flat_map f (flat_map g l) = flat_map (fun x => flat_map f (g x)) l.
Proof.
  induction l as [|x l IH]; simpl; [reflexivity|].
  rewrite flat_map_app, IH. reflexivity.
Qed.

Lemma triangular_of_map (rs : list triangular) :
  Inv.triangular_of (map Triangular rs) = rs.
Proof.
  unfold Inv.triangular_of. induction rs as [|r rs IH]; simpl; [reflexivity|].
  rewrite IH. reflexivity.
Qed.

Lemma paths_flat_map {A : Type} (F : A -> list opportunity) (l : list A) :
  map Inv.path_of (Inv.triangular_of (flat_map F l))
  = flat_map (fun x => map Inv.path_of (Inv.triangular_of (F x))) l.
Proof.
  unfold Inv.triangular_of. rewrite flat_map_flat_map, map_flat_map_comm. reflexivity.
Qed.

Lemma paths_at (thr now : Q) (dex_id network_id : string)
    (g : Analyzer.token_graph) (a b c : string) :
  let ps := map Inv.path_of
              (Inv.triangular_of (Spec.tri_found_at thr now dex_id network_id g a b c)) in
  ps = [] \/ ps = [(a, b, c)].
Proof.
  destruct (tri_found_at_records thr now dex_id network_id g a b c) as (rs & E & H).
  cbv zeta. rewrite E, triangular_of_map. exact H.
Qed.

Lemma tri_found_all_triangular (thr now : Q) (dex_id network_id : string)
    (g : Analyzer.token_graph) :
  map Triangular (Inv.triangular_of (Spec.tri_found thr now dex_id network_id g))
  = Spec.tri_found thr now dex_id network_id g.
Proof.
  assert (H : forall l : list opportunity,
             (forall o, In o l -> exists t, o = Triangular t) ->
             map Triangular (Inv.triangular_of l) = l).
  { induction l as [|o l IH]; intro Hl; [reflexivity|].
    destruct (Hl o (or_introl eq_refl)) as [t ->].
    unfold Inv.triangular_of in *. simpl. f_equal.
    apply IH. intros o Ho. apply Hl. right. exact Ho. }
  apply H. intros o Ho. apply tri_found_in in Ho.
  destruct Ho as (a & b & c & ab & bc & ca & _ & _ & _ & _ & ->). eauto.
Qed.

Lemma tri_found_paths_nodup (thr now : Q) (dex_id network_id : string)
    (g : Analyzer.token_graph) :
  NoDup (keys g) ->
  (forall a, NoDup (keys (Analyzer.neighbours g a))) ->
  NoDup (map Inv.path_of
           (Inv.triangular_of (Spec.tri_found thr now dex_id network_id g))).
Proof.
  intros Hk Hn. unfold Spec.tri_found.
  rewrite paths_flat_map.
  apply (nodup_flat_map_tagged _ (fun p => fst (fst p))); [exact Hk | |].
  - intros a y Hy. rewrite paths_flat_map in Hy.
    apply in_flat_map in Hy. destruct Hy as (b & _ & Hy).
    rewrite paths_flat_map in Hy.
    apply in_flat_map in Hy. destruct Hy as (c & _ & Hy).
    destruct (paths_at thr now dex_id network_id g a b c) as [E|E];
      cbv zeta in E; rewrite E in Hy; [contradiction|].
    destruct Hy as [<-|[]]. reflexivity.
  - intro a. rewrite paths_flat_map.
    apply (nodup_flat_map_tagged _ (fun p => snd (fst p))); [apply Hn | |].
    + intros b y Hy. rewrite paths_flat_map in Hy.
      apply in_flat_map in Hy. destruct Hy as (c & _ & Hy).
      destruct (paths_at thr now dex_id network_id g a b c) as [E|E];
        cbv zeta in E; rewrite E in Hy; [contradiction|].
      destruct Hy as [<-|[]]. reflexivity.
    + intro b. rewrite paths_flat_map.
      apply (nodup_flat_map_tagged _ (fun p => snd p)); [apply Hn | |].
      * intros c y Hy.
        destruct (paths_at thr now dex_id network_id g a b c) as [E|E];
          cbv zeta in E; rewrite E in Hy; [contradiction|].
        destruct Hy as [<-|[]]. reflexivity.
      * intro c.
        destruct (paths_at thr now dex_id network_id g a b c) as [E|E];
          cbv zeta in E; rewrite E; [constructor|].
        constructor; [intros [] | constructor].
Qed.

(** X16: for the graph built from any pools the three nested loops return
    normally, append triangular entries only, and append no path
    token_a -> token_b -> token_c twice. *)
Theorem X16_no_path_is_emitted_twice
    (thr now : Q) (dex_id network_id : string) (pools : list pool)
    (st : list opportunity) :
  exists found,
    Analyzer.scan_graph thr now dex_id network_id (Analyzer.build_graph pools) st
    = (Ok tt, st ++ map Triangular found) /\
    NoDup (map Inv.path_of found).
Proof.
  exists (Inv.triangular_of
            (Spec.tri_found thr now dex_id network_id (Analyzer.build_graph pools))).
  split.
  - rewrite tri_found_all_triangular. apply scan_graph_run.
  - destruct (build_graph_invariants pools) as [_ [Hk1 Hk2]].
    apply tri_found_paths_nodup; [exact Hk1|].
    intro a. unfold Analyzer.neighbours.
    destruct (dict_get a (Analyzer.build_graph pools)) as [adj|] eqn:E; [|constructor].
    rewrite Forall_forall in Hk2. apply (Hk2 (a, adj)).
    apply dict_get_in. exact E.
Qed.

Lemma no_triangle_nothing_found (thr now : Q) (dex_id network_id : string)
    (g : Analyzer.token_graph) :
  Inv.has_triangle g = false -> Spec.tri_found thr now dex_id network_id g = [].
Proof.
  intro H.
  destruct (Spec.tri_found thr now dex_id network_id g) as [|o l] eqn:E; [reflexivity|].
  exfalso.
  assert (Hin : In o (Spec.tri_found thr now dex_id network_id g))
    by (rewrite E; left; reflexivity).
  apply tri_found_in in Hin.
  destruct Hin as (a & b & c & ab & bc & ca & Hab & Hbc & Hca & _ & _).
  assert (T : Inv.has_triangle g = true); [|congruence].
  unfold Inv.has_triangle.
  apply existsb_exists. exists a. split.
  { destruct (edge_of_key g a b ab Hab) as (adj & Ha & _).
    apply dict_get_in_keys. eauto. }
  apply existsb_exists. exists b. split.
  { apply dict_get_in_keys. exists ab. exact Hab. }
  apply existsb_exists. exists c. split.
  { apply dict_get_in_keys. exists bc. exact Hbc. }
  rewrite closing_guard, Hca. reflexivity.
Qed.

(** X17: a (venue, network) group whose key unpacks and that has fewer than
    three pools, or whose token graph has no path a -> b -> c closed by an
    edge c -> a, yields no triangular opportunity and no exception,
    whatever the prices, fees and threshold are. *)
Theorem X17_no_triangle_no_opportunity
    (thr now : Q) (key dex_id network_id : string) (pools : list pool)
    (st : list opportunity) :
  unpack2 (py_split key) = Ok (dex_id, network_id) ->
  (List.length pools < 3)%nat \/ Inv.has_triangle (Analyzer.build_graph pools) = false ->
  Analyzer.scan_group thr now (key, pools) st = (Ok tt, st).
Proof.
  intros Hkey H.
  rewrite (scan_group_run thr now key dex_id network_id pools st Hkey).
  destruct (List.length pools <? 3)%nat eqn:L; [rewrite app_nil_r; reflexivity|].
  destruct H as [H|H].
  - apply Nat.ltb_ge in L. lia.
  - rewrite (no_triangle_nothing_found thr now dex_id network_id _ H).
    rewrite app_nil_r. reflexivity.
Qed.

Lemma X17_witness :
  Analyzer.scan_group (- (1000 # 1)) 0 ("uniswap_polygon", Sample2.chain_pools) []
  = (Ok tt, []).
Proof.
  apply (X17_no_triangle_no_opportunity (- (1000 # 1)) 0
           "uniswap_polygon" "uniswap" "polygon" Sample2.chain_pools []).
  - reflexivity.
  - right. vm_compute. reflexivity.
Defined.

(* ================================================================= *)
(** ** Further properties: ranking *)

Lemma strongly_sorted_app {A : Type} (R : A -> A -> Prop) (l1 l2 : list A) :
  StronglySorted R (l1 ++ l2) -> forall x y, In x l1 -> In y l2 -> R x y.
Proof.
  induction l1 as [|z l1 IH]; intros Hs x y Hx Hy; [contradiction|].
  simpl in Hs. inversion Hs as [|? ? Hl Hz]; subst.
  destruct Hx as [<-|Hx].
  - rewrite Forall_forall in Hz. apply Hz. apply in_or_app. right. exact Hy.
  - apply (IH Hl x y Hx Hy).
Qed.

Lemma strongly_sorted_prefix {A : Type} (R : A -> A -> Prop) (l1 l2 : list A) :
  StronglySorted R (l1 ++ l2) -> StronglySorted R l1.
Proof.
  induction l1 as [|z l1 IH]; intro Hs; [constructor|].
  simpl in Hs. inversion Hs as [|? ? Hl Hz]; subst.
  constructor; [apply IH; exact Hl|].
  rewrite Forall_forall in Hz |- *. intros y Hy. apply Hz. apply in_or_app. left. exact Hy.
Qed.

(** X18: for a limit n >= 0 the ranked view is drawn from the qualifying
    opportunities (net profit >= min_profit) of the input, holds
    min(n, number of qualifying) of them, is a permutation of all of them
    when they are no more than n, and every qualifying opportunity that was
    left out has a net profit no higher than any opportunity kept. *)
Theorem X18_top_n_keeps_the_best
    (xs : list opportunity) (p : Q) (n : Z) :
  (0 <= n)%Z ->
  let qualifying := filter (fun o => Qle_bool p (net_profit_pct o)) xs in
  let out := Analyzer.get_arbitrage_opportunities xs p n in
  (forall o, In o out -> In o xs /\ p <= net_profit_pct o) /\
  List.length out = Nat.min (Z.to_nat n) (List.length qualifying) /\
  ((Z.of_nat (List.length qualifying) <= n)%Z -> Permutation out qualifying) /\
  (forall o k, In o qualifying -> ~ In o out -> In k out ->
     net_profit_pct o <= net_profit_pct k).
Proof.
  intros Hn qualifying out.
  set (s := Analyzer.sorted_desc net_profit_pct qualifying).
  assert (Hout : out = firstn (Z.to_nat n) s) by (apply top_nonneg; exact Hn).
  assert (Hlen : List.length s = List.length qualifying)
    by (apply Permutation_length; apply sorted_desc_perm).
  split.
  { intros o Ho. rewrite Hout in Ho.
    assert (Hs : In o s).
    { rewrite <- (firstn_skipn (Z.to_nat n) s). apply in_or_app. left. exact Ho. }
    apply sorted_desc_in in Hs. apply filter_In in Hs. destruct Hs as [Hx Hp].
    split; [exact Hx | apply Qle_bool_iff; exact Hp]. }
  split.
  { rewrite Hout, length_firstn, Hlen. reflexivity. }
  split.
  { intro Hall. rewrite Hout, firstn_all2 by lia. apply sorted_desc_perm. }
  intros o k Ho Hnot Hk.
  assert (Hs : In o s) by (apply sorted_desc_in; exact Ho).
  rewrite <- (firstn_skipn (Z.to_nat n) s) in Hs.
  apply in_app_or in Hs. destruct Hs as [Hs|Hs].
  - exfalso. apply Hnot. rewrite Hout. exact Hs.
  - rewrite Hout in Hk.
    pose proof (sorted_desc_sorted _ net_profit_pct qualifying) as Hsorted.
    fold s in Hsorted. rewrite <- (firstn_skipn (Z.to_nat n) s) in Hsorted.
    apply (strongly_sorted_app _ _ _ Hsorted k o Hk Hs).
Qed.

Lemma X18_witness :
  (0 <= 2)%Z /\
  List.length (Analyzer.get_arbitrage_opportunities
                 (Sample.emitted Sample.triangle_pools) 0.005 2) = 2%nat.
Proof.
  split; [lia|].
  destruct (X18_top_n_keeps_the_best (Sample.emitted Sample.triangle_pools) 0.005 2
              ltac:(lia)) as (_ & Hlen & _).
  rewrite Hlen. vm_compute. reflexivity.
Defined.

(** X19: for a negative limit -k the ranked view is the descending list of
    all qualifying opportunities with its last min(k, count) entries (the
    least profitable ones) removed; what is returned is still filtered and
    in descending order. *)
Theorem X19_negative_limit_drops_the_tail
    (xs : list opportunity) (p : Q) (n : Z) :
  (n < 0)%Z ->
  let qualifying := filter (fun o => Qle_bool p (net_profit_pct o)) xs in
  let out := Analyzer.get_arbitrage_opportunities xs p n in
  exists dropped,
    Analyzer.sorted_desc net_profit_pct qualifying = out ++ dropped /\
    List.length dropped = Nat.min (Z.to_nat (- n)) (List.length qualifying) /\
    (forall o k, In o dropped -> In k out -> net_profit_pct o <= net_profit_pct k) /\
    Spec.descending out /\
    Forall (fun o => p <= net_profit_pct o) out.
Proof.
  intros Hn qualifying out.
  set (s := Analyzer.sorted_desc net_profit_pct qualifying).
  assert (Hlen : List.length s = List.length qualifying)
    by (apply Permutation_length; apply sorted_desc_perm).
  assert (Hout : out = firstn (List.length s - Z.to_nat (- n)) s).
  { subst out. unfold Analyzer.get_arbitrage_opportunities, py_slice_to.
    assert (E : (0 <=? n)%Z = false) by (apply Z.leb_gt; exact Hn).
    rewrite E. reflexivity. }
  exists (skipn (List.length s - Z.to_nat (- n)) s).
  pose proof (sorted_desc_sorted _ net_profit_pct qualifying) as Hsorted. fold s in Hsorted.
  assert (Hsplit : s = out ++ skipn (List.length s - Z.to_nat (- n)) s)
    by (rewrite Hout; symmetry; apply firstn_skipn).
  split; [exact Hsplit|]. split.
  { rewrite length_skipn, Hlen. lia. }
  split.
  { intros o k Ho Hk. rewrite Hsplit in Hsorted.
    apply (strongly_sorted_app _ _ _ Hsorted k o Hk Ho). }
  split.
  { unfold Spec.descending. rewrite Hsplit in Hsorted.
    apply (strongly_sorted_prefix _ _ _ Hsorted). }
  apply Forall_forall. intros o Ho.
  assert (Hs : In o s) by (rewrite Hsplit; apply in_or_app; left; exact Ho).
  apply sorted_desc_in in Hs. apply filter_In in Hs.
  apply Qle_bool_iff. apply Hs.
Qed.

Lemma X19_witness :
  (-1 < 0)%Z /\
  exists dropped,
    Analyzer.sorted_desc net_profit_pct
      (filter (fun o => Qle_bool 0.005 (net_profit_pct o))
              (Sample.emitted Sample.triangle_pools))
    = Analyzer.get_arbitrage_opportunities (Sample.emitted Sample.triangle_pools) 0.005 (-1)
      ++ dropped /\
    List.length dropped = 1%nat.
Proof.
  split; [lia|].
  destruct (X19_negative_limit_drops_the_tail (Sample.emitted Sample.triangle_pools)
              0.005 (-1) ltac:(lia)) as (dropped & Hsplit & Hlen & _).
  exists dropped. split; [exact Hsplit|].
  rewrite Hlen. vm_compute. reflexivity.
Defined.

(* ================================================================= *)
(** ** Further properties: the collector's read side *)

Lemma tag_pool_cases (key : string) (mv : Q) (s : list Collector.pool_with_meta) (p : pool) :
  (Collector.high_volume mv p = false /\ Collector.tag_pool key mv s p = Ok s) \/
  (Collector.high_volume mv p = true /\
   exists d n, py_split key = [d; n] /\
     Collector.tag_pool key mv s p
     = Ok (s ++ [{| Collector.pm_pool := p; Collector.pm_dex_id := d;
                    Collector.pm_network_id := n |}])) \/
  (Collector.high_volume mv p = true /\ Inv.key_unpacks key = false /\
   Collector.tag_pool key mv s p = Raise ValueError).
Proof.
  unfold Collector.tag_pool, Inv.key_unpacks, unpack2.
  destruct (Collector.high_volume mv p); [|left; auto].
  right. destruct (py_split key) as [|a [|b [|c r]]]; simpl;
    try (right; repeat split; reflexivity).
  left. split; [reflexivity|]. exists a, b. split; reflexivity.
Qed.

Lemma tag_group_ok_iff (mv : Q) (s : list Collector.pool_with_meta)
    (kv : string * list pool) :
  (exists s', Collector.tag_group mv s kv = Ok s') <-> Inv.group_taggable mv kv = true.
Proof.
  destruct kv as [key pools]. unfold Collector.tag_group, Inv.group_taggable.
  simpl fst. simpl snd.
  destruct (Inv.key_unpacks key) eqn:K.
  - rewrite orb_true_r. split; [reflexivity|]. intros _.
    revert s. induction pools as [|p pools IH]; intro s; simpl; [eauto|].
    destruct (tag_pool_cases key mv s p) as [[_ E]|[(_ & d & n & _ & E)|(_ & K' & _)]].
    + rewrite E. apply IH.
    + rewrite E. apply IH.
    + congruence.
  - rewrite orb_false_r, negb_true_iff.
    revert s. induction pools as [|p pools IH]; intro s; simpl.
    + split; [reflexivity | eauto].
    + destruct (tag_pool_cases key mv s p) as [[H E]|[(H & d & n & Hs & E)|(H & _ & E)]].
      * rewrite E, H. simpl. apply IH.
      * exfalso. unfold Inv.key_unpacks in K. rewrite Hs in K. discriminate K.
      * rewrite E, H. simpl. split; [intros [s' F]; discriminate | discriminate].
Qed.

Lemma tag_group_exn (mv : Q) (s : list Collector.pool_with_meta)
    (kv : string * list pool) (e : exn) :
  Collector.tag_group mv s kv = Raise e -> e = ValueError.
Proof.
  unfold Collector.tag_group.
  apply (fold_raise_exn (fun e => e = ValueError)).
  intros s0 p e0 _ H.
  destruct (tag_pool_cases (fst kv) mv s0 p) as [[_ E]|[(_ & d & n & _ & E)|(_ & _ & E)]];
    rewrite E in H; [discriminate | discriminate | injection H as <-; reflexivity].
Qed.

Lemma tag_group_sound (md : market_data) (mv : Q)
    (s s' : list Collector.pool_with_meta) (kv : string * list pool) :
  In kv (liquidity_pools md) ->
  Forall (Inv.tagged_from md mv) s ->
  Collector.tag_group mv s kv = Ok s' ->
  Forall (Inv.tagged_from md mv) s'.
Proof.
  intros Hkv Hs. destruct kv as [key pools]. unfold Collector.tag_group.
  simpl fst. simpl snd.
  apply (fold_raise_invariant (fun s => Forall (Inv.tagged_from md mv) s)); [|exact Hs].
  intros s0 p s1 Hp H0 Hstep.
  destruct (tag_pool_cases key mv s0 p) as [[_ E]|[(Hv & d & n & Hsplit & E)|(_ & _ & E)]];
    rewrite E in Hstep; [injection Hstep as <-; exact H0 | | discriminate].
  injection Hstep as <-. apply Forall_app. split; [exact H0|].
  constructor; [|constructor].
  split; [exact Hv|]. exists key, pools. simpl. auto.
Qed.

Lemma tag_group_keeps (mv : Q) (s s' : list Collector.pool_with_meta)
    (kv : string * list pool) (x : Collector.pool_with_meta) :
  In x s -> Collector.tag_group mv s kv = Ok s' -> In x s'.
Proof.
  intro Hx. unfold Collector.tag_group.
  apply (fold_raise_invariant (fun s => In x s)); [|exact Hx].
  intros s0 p s1 _ H0 Hstep.
  destruct (tag_pool_cases (fst kv) mv s0 p)
    as [[_ E]|[(_ & d & n & _ & E)|(_ & _ & E)]];
    rewrite E in Hstep; [injection Hstep as <-; exact H0 | | discriminate].
  injection Hstep as <-. apply in_or_app. left. exact H0.
Qed.

Lemma tag_group_complete (mv : Q) (s s' : list Collector.pool_with_meta)
    (key : string) (pools : list pool) (x : Collector.pool_with_meta) :
  Collector.high_volume mv (Collector.pm_pool x) = true ->
  In (Collector.pm_pool x) pools ->
  py_split key = [Collector.pm_dex_id x; Collector.pm_network_id x] ->
  Collector.tag_group mv s (key, pools) = Ok s' -> In x s'.
Proof.
  intros Hv Hp Hsplit. unfold Collector.tag_group. simpl fst. simpl snd. revert s'.
  revert s.
  apply (fold_raise_establishes (fun s => In x s)
           (Collector.tag_pool key mv) pools (Collector.pm_pool x) Hp).
  - intros s0 s1 Hstep.
    destruct (tag_pool_cases key mv s0 (Collector.pm_pool x))
      as [[F _]|[(_ & d & n & Hs & E)|(_ & _ & E)]];
      [congruence | | rewrite E in Hstep; discriminate].
    rewrite E in Hstep. injection Hstep as <-.
    rewrite Hsplit in Hs. injection Hs as <- <-.
    apply in_or_app. right. left. destruct x; reflexivity.
  - intros s0 p s1 H0 Hstep.
    destruct (tag_pool_cases key mv s0 p) as [[_ E]|[(_ & d & n & _ & E)|(_ & _ & E)]];
      rewrite E in Hstep; [injection Hstep as <-; exact H0 | | discriminate].
    injection Hstep as <-. apply in_or_app. left. exact H0.
Qed.

(** X20: [get_high_volume_pools] returns a list exactly when every group
    that holds a pool with a recorded 24h volume >= min_volume has a key
    that splits at "_" into two parts (the key of a group without such a
    pool is never looked at); otherwise it raises [ValueError].  The
    list returned holds exactly the pools of the snapshot that have a
    recorded volume >= min_volume, each tagged with the two parts of its
    group's key, in descending order of volume. *)
Theorem X20_high_volume_pools (md : market_data) (min_volume : Q) :
  ((exists l, Collector.get_high_volume_pools md min_volume = Ok l)
   <-> forallb (Inv.group_taggable min_volume) (liquidity_pools md) = true) /\
  (forall e, Collector.get_high_volume_pools md min_volume = Raise e -> e = ValueError) /\
  (forall l,
     Collector.get_high_volume_pools md min_volume = Ok l ->
     StronglySorted (fun a b => Collector.pm_volume b <= Collector.pm_volume a) l /\
     (forall x, In x l <-> Inv.tagged_from md min_volume x) /\
     (forall x, In x l ->
        exists v, p_volumeUSD24h (Collector.pm_pool x) = Some v /\ min_volume <= v)).
Proof.
  unfold Collector.get_high_volume_pools.
  assert (Hiff : (exists s, fold_raise (liquidity_pools md)
                              (Collector.tag_group min_volume) [] = Ok s)
                 <-> forallb (Inv.group_taggable min_volume) (liquidity_pools md) = true).
  { apply fold_raise_ok_iff.
    - intros s kv _ G. apply tag_group_ok_iff. exact G.
    - intros s kv _ G.
      destruct (Collector.tag_group min_volume s kv) as [s'|e] eqn:E; [|eauto].
      assert (Inv.group_taggable min_volume kv = true)
        by (apply (tag_group_ok_iff min_volume s); eauto).
      congruence. }
  split.
  { rewrite <- Hiff. split.
    - intros [l H].
      destruct (fold_raise _ _ _) as [s|e]; [eauto | discriminate].
    - intros [s H]. rewrite H. simpl. eauto. }
  split.
  { intros e H.
    destruct (fold_raise (liquidity_pools md) (Collector.tag_group min_volume) [])
      as [s|e0] eqn:E; [discriminate|].
    simpl in H. injection H as <-. revert E.
    apply (fold_raise_exn (fun e => e = ValueError)).
    intros s kv e1 _. apply tag_group_exn. }
  intros l H.
  destruct (fold_raise (liquidity_pools md) (Collector.tag_group min_volume) [])
    as [s|e0] eqn:E; [|discriminate].
  simpl in H. injection H as <-.
  assert (Hsound : Forall (Inv.tagged_from md min_volume) s).
  { revert E.
    apply (fold_raise_invariant (fun s => Forall (Inv.tagged_from md min_volume) s));
      [|constructor].
    intros s0 kv s1 Hkv H0 Hstep.
    apply (tag_group_sound md min_volume s0 s1 kv Hkv H0 Hstep). }
  assert (Hin : forall x,
             In x (Analyzer.sorted_desc Collector.pm_volume s)
             <-> Inv.tagged_from md min_volume x).
  { intro x. rewrite sorted_desc_in. split.
    - intro Hx. rewrite Forall_forall in Hsound. apply Hsound. exact Hx.
    - intros (Hv & key & pools & Hkv & Hp & Hsplit). revert E.
      apply (fold_raise_establishes (fun s => In x s)
               (Collector.tag_group min_volume) (liquidity_pools md) (key, pools) Hkv).
      + intros s0 s1 Hstep.
        apply (tag_group_complete min_volume s0 s1 key pools x Hv Hp Hsplit Hstep).
      + intros s0 kv s1 H0 Hstep.
        apply (tag_group_keeps min_volume s0 s1 kv x H0 Hstep). }
  split; [apply (sorted_desc_sorted _ Collector.pm_volume)|].
  split; [exact Hin|].
  intros x Hx. apply Hin in Hx. destruct Hx as [Hv _].
  unfold Collector.high_volume in Hv.
  destruct (p_volumeUSD24h (Collector.pm_pool x)) as [v|]; [|discriminate].
  exists v. split; [reflexivity | apply Qle_bool_iff; exact Hv].
Qed.

Lemma get_token_prices_fold (tp : dict Q) (ids : list string) (acc : dict Q) (k : string) :
  dict_get k
    (fold_left (fun acc token_id =>
                  match dict_get token_id tp with
                  | Some price => dict_set token_id price acc
                  | None => acc
                  end) ids acc)
  = if in_dec string_dec k ids
    then match dict_get k tp with Some v => Some v | None => dict_get k acc end
    else dict_get k acc.
Proof.
  revert acc. induction ids as [|id ids IH]; intro acc; simpl; [reflexivity|].
  rewrite IH.
  destruct (string_dec id k) as [->|Hne].
  - destruct (in_dec string_dec k ids).
    + destruct (dict_get k tp); reflexivity.
    + destruct (dict_get k tp) as [v|]; [apply dict_get_set_same | reflexivity].
  - assert (E : dict_get k match dict_get id tp with
                           | Some price => dict_set id price acc
                           | None => acc
                           end = dict_get k acc).
    { destruct (dict_get id tp); [apply dict_get_set_other; exact Hne | reflexivity]. }
    rewrite E. destruct (in_dec string_dec k ids); reflexivity.
Qed.

Lemma get_token_prices_nodup (tp : dict Q) (ids : list string) (acc : dict Q) :
  NoDup (keys acc) ->
  NoDup (keys (fold_left (fun acc token_id =>
                            match dict_get token_id tp with
                            | Some price => dict_set token_id price acc
                            | None => acc
                            end) ids acc)).
Proof.
  revert acc. induction ids as [|id ids IH]; intros acc H; simpl; [exact H|].
  apply IH. destruct (dict_get id tp); [apply dict_set_nodup; exact H | exact H].
Qed.

(** X21: the batch lookup [get_token_prices] agrees with the single lookup
    [get_token_price] on every requested id, has no entry for an id that
    was not requested or whose price is unknown (unknown ids are left out,
    not mapped to a missing value), and lists no id twice even if it was
    requested twice. *)
Theorem X21_batch_prices_agree_with_single_lookup
    (md : market_data) (token_ids : list string) (k : string) :
  (In k token_ids ->
   dict_get k (Collector.get_token_prices md token_ids)
   = Detector.get_token_price md k) /\
  (~ In k token_ids -> dict_get k (Collector.get_token_prices md token_ids) = None) /\
  (In k (keys (Collector.get_token_prices md token_ids)) <->
   In k token_ids /\ exists v, Detector.get_token_price md k = Some v) /\
  NoDup (keys (Collector.get_token_prices md token_ids)).
Proof.
  unfold Collector.get_token_prices, Detector.get_token_price.
  pose proof (get_token_prices_fold (token_prices md) token_ids [] k) as H.
  split; [|split; [|split]].
  - intro Hin. rewrite H. destruct (in_dec string_dec k token_ids); [|contradiction].
    destruct (dict_get k (token_prices md)); reflexivity.
  - intro Hnot. rewrite H. destruct (in_dec string_dec k token_ids); [contradiction|].
    reflexivity.
  - rewrite dict_get_in_keys, H.
    destruct (in_dec string_dec k token_ids) as [Hin|Hnot].
    + destruct (dict_get k (token_prices md)) as [v|].
      * split; [intros _; split; [exact Hin | eauto] | intros _; eauto].
      * split; [intros [v F]; discriminate | intros [_ [v F]]; discriminate].
    + split; [intros [v F]; discriminate | intros [Hin _]; contradiction].
  - apply get_token_prices_nodup. constructor.
Qed.

Lemma X21_witness :
  let md := {| token_prices := [("weth", 2000); ("usdc", 1)]; liquidity_pools := [] |} in
  dict_get "usdc" (Collector.get_token_prices md ["usdc"; "dai"; "usdc"]) = Some 1 /\
  dict_get "dai" (Collector.get_token_prices md ["usdc"; "dai"; "usdc"]) = None /\
  dict_get "weth" (Collector.get_token_prices md ["usdc"; "dai"; "usdc"]) = None.
Proof.
  intro md.
  destruct (X21_batch_prices_agree_with_single_lookup md ["usdc"; "dai"; "usdc"] "usdc")
    as (H1 & _).
  destruct (X21_batch_prices_agree_with_single_lookup md ["usdc"; "dai"; "usdc"] "dai")
    as (H2 & _).
  destruct (X21_batch_prices_agree_with_single_lookup md ["usdc"; "dai"; "usdc"] "weth")
    as (_ & H3 & _).
  split; [rewrite H1; [reflexivity | left; reflexivity]|].
  split; [rewrite H2; [reflexivity | right; left; reflexivity]|].
  apply H3. intros [H|[H|[H|[]]]]; discriminate H.
Defined.
(* ================================================================= *)
(** ** The cross-venue scan as a whole *)


Lemma in_dict_get {V : Type} (d : dict V) (k : string) (v : V) :
  NoDup (keys d) -> In (k, v) d -> dict_get k d = Some v.
Proof.
  induction d as [|[k0 v0] d IH]; intros Hnd H; [contradiction|].
  simpl in Hnd. inversion Hnd as [|? ? Hnotin Hnd']; subst.
  simpl. destruct H as [H|H].
  - injection H as <- <-. rewrite String.eqb_refl. reflexivity.
  - destruct (String.eqb k0 k) eqn:E; [|apply (IH Hnd' H)].
    apply String.eqb_eq in E. subst k0. exfalso. apply Hnotin.
    apply (in_map fst) in H. exact H.
Qed.






(* ================================================================= *)
(** ** Grouping by the ordered pair key *)

Lemma under_app (k : string) (l1 l2 : list (string * price_obs)) :
  Cross.under k (l1 ++ l2) = Cross.under k l1 ++ Cross.under k l2.
Proof.
  unfold Cross.under. rewrite filter_app, map_app. reflexivity.
Qed.

Lemma listed_record_price (k k' : string) (o : price_obs) (pp : Analyzer.pair_prices) :
  Cross.listed k (Analyzer.record_price k' o pp)
  = Cross.listed k pp ++ Cross.under k [(k', o)].
Proof.
  unfold Cross.listed, Cross.under.
  induction pp as [|[k0 l] pp IH]; simpl.
  - destruct (String.eqb k' k); reflexivity.
  - destruct (String.eqb k0 k') eqn:E'; simpl.
    + apply String.eqb_eq in E'. subst k0.
      destruct (String.eqb k' k); simpl; [reflexivity | rewrite app_nil_r; reflexivity].
    + destruct (String.eqb k0 k) eqn:E; [|exact IH].
      apply String.eqb_eq in E. subst k0.
      rewrite String.eqb_sym in E'. rewrite E'. simpl.
      rewrite app_nil_r. reflexivity.
Qed.

(** A loop whose passes only add observations adds the observations of
    all its passes. *)
Lemma fold_raise_listed {A : Type}
    (body : Analyzer.pair_prices -> A -> outcome Analyzer.pair_prices)
    (contrib : A -> list (string * price_obs)) (xs : list A) :
  (forall s x s', In x xs -> body s x = Ok s' ->
     forall k, Cross.listed k s' = Cross.listed k s ++ Cross.under k (contrib x)) ->
  forall s s', fold_raise xs body s = Ok s' ->
    forall k, Cross.listed k s'
              = Cross.listed k s ++ Cross.under k (flat_map contrib xs).
Proof.
  induction xs as [|x xs IH]; intros Hstep s s' Hrun k; simpl in Hrun.
  - injection Hrun as <-. simpl. rewrite app_nil_r. reflexivity.
  - destruct (body s x) as [s1|e] eqn:E; [|discriminate].
    simpl flat_map. rewrite under_app, app_assoc.
    rewrite <- (Hstep s x s1 (or_introl eq_refl) E k).
    apply (IH (fun s0 y s0' Hy => Hstep s0 y s0' (or_intror Hy)) s1 s' Hrun k).
Qed.

Lemma py_index_nth {A : Type} (xs : list A) (i : nat) (v : A) :
  py_index xs i = Ok v -> nth_error xs i = Some v.
Proof.
  unfold py_index. destruct (nth_error xs i); [|discriminate].
  intro H. injection H as <-. reflexivity.
Qed.

Lemma extract_pool_listed (dex_id network_id : string)
    (pp pp' : Analyzer.pair_prices) (p : pool) :
  Analyzer.extract_pool dex_id network_id pp p = Ok pp' ->
  forall k, Cross.listed k pp'
            = Cross.listed k pp ++ Cross.under k (Cross.filed_by_pool dex_id network_id p).
Proof.
  unfold Analyzer.extract_pool, Cross.filed_by_pool.
  destruct (Analyzer.uniswap_like p) as [[[[t0 t1] r0] r1]|].
  - intro H. injection H as <-. intro k. apply listed_record_price.
  - destruct (Analyzer.curve_like p) as [[coins balances]|].
    + apply fold_raise_listed.
      intros s [i j] s' _ Hstep k. unfold Analyzer.curve_step in Hstep.
      simpl fst. simpl snd.
      destruct (py_index coins i) as [ci|] eqn:Ci; simpl in Hstep; [|discriminate].
      destruct (py_index coins j) as [cj|] eqn:Cj; simpl in Hstep; [|discriminate].
      destruct (py_index balances i) as [bi|] eqn:Bi; simpl in Hstep; [|discriminate].
      destruct (py_index balances j) as [bj|] eqn:Bj; simpl in Hstep; [|discriminate].
      injection Hstep as <-.
      rewrite (py_index_nth _ _ _ Ci), (py_index_nth _ _ _ Cj),
        (py_index_nth _ _ _ Bi), (py_index_nth _ _ _ Bj).
      apply listed_record_price.
    + intro H. injection H as <-. intro k. simpl. rewrite app_nil_r. reflexivity.
Qed.

Lemma extract_group_listed (pp pp' : Analyzer.pair_prices) (kv : string * list pool) :
  Analyzer.extract_group pp kv = Ok pp' ->
  forall k, Cross.listed k pp'
            = Cross.listed k pp ++ Cross.under k (Cross.filed_by_group kv).
Proof.
  destruct kv as [key pools]. unfold Analyzer.extract_group, Cross.filed_by_group.
  simpl fst. simpl snd.
  destruct (unpack2 (py_split key)) as [[dex_id network_id]|]; simpl; [|discriminate].
  apply fold_raise_listed.
  intros s p s' _ Hstep. apply extract_pool_listed. exact Hstep.
Qed.

Lemma extract_listed (all_pools : dict (list pool)) (pp : Analyzer.pair_prices) :
  Analyzer.extract all_pools = Ok pp ->
  forall k, Cross.listed k pp = Cross.under k (Cross.filed all_pools).
Proof.
  intros Hrun k. unfold Analyzer.extract in Hrun.
  apply (fold_raise_listed Analyzer.extract_group Cross.filed_by_group all_pools
           (fun s kv s' _ H => extract_group_listed s s' kv H) [] pp Hrun k).
Qed.

Lemma fmt_key_swapped (a b : string) :
  Spec.no_underscore a = true -> Spec.no_underscore b = true -> a <> b ->
  fmt_key a b <> fmt_key b a.
Proof.
  intros Ha Hb Hne E. apply Hne.
  apply (fmt_key_injective a b b a Ha Hb E).
Qed.

(** The two sides of what one pair contributes are observations of that
    pair. *)
Lemma scan_pair_sides (thr now : Q) (kv : string * list price_obs)
    (st : list opportunity) :
  snd (Analyzer.scan_pair thr now kv st) = st \/
  exists o buy sell,
    snd (Analyzer.scan_pair thr now kv st) = st ++ [CrossDex o] /\
    cd_token_pair o = fst kv /\
    In buy (snd kv) /\ In sell (snd kv) /\
    Cross.buy_side_of o buy /\ Cross.sell_side_of o sell.
Proof.
  destruct kv as [pair_key prices]. unfold Analyzer.scan_pair, bind, lift.
  destruct prices as [|x xs]; [left; reflexivity|].
  destruct (List.length (x :: xs) <? 2)%nat; [left; reflexivity|].
  destruct (py_div _ _) as [diff|]; [|left; reflexivity].
  destruct (Qle_bool thr (Analyzer.cross_net diff _ _)); [|left; reflexivity].
  destruct (unpack2 (py_split pair_key)) as [ts|]; [|left; reflexivity].
  right. eexists. exists (py_min_by o_price x xs), (py_max_by o_price x xs).
  split; [reflexivity|]. split; [reflexivity|].
  split; [apply py_min_by_spec|]. split; [apply py_max_by_spec|].
  split; repeat split.
Qed.

Lemma scan_pairs_sides (thr now : Q) (pp : Analyzer.pair_prices) :
  NoDup (keys pp) ->
  forall st, exists found,
    snd (for_each pp (Analyzer.scan_pair thr now) st) = st ++ map CrossDex found /\
    forall o, In o found ->
      exists buy sell,
        In buy (Cross.listed (cd_token_pair o) pp) /\
        In sell (Cross.listed (cd_token_pair o) pp) /\
        Cross.buy_side_of o buy /\ Cross.sell_side_of o sell.
Proof.
  intro Hnd.
  assert (Hgen : forall l, incl l pp -> forall st, exists found,
             snd (for_each l (Analyzer.scan_pair thr now) st) = st ++ map CrossDex found /\
             forall o, In o found ->
               exists buy sell,
                 In buy (Cross.listed (cd_token_pair o) pp) /\
                 In sell (Cross.listed (cd_token_pair o) pp) /\
                 Cross.buy_side_of o buy /\ Cross.sell_side_of o sell).
  { induction l as [|kv l IH]; intros Hincl st.
    - exists []. simpl. rewrite app_nil_r. split; [reflexivity | intros o []].
    - assert (Hl : incl l pp) by (intros z Hz; apply Hincl; right; exact Hz).
      assert (Hkv : In kv pp) by (apply Hincl; left; reflexivity).
      simpl for_each. unfold bind.
      destruct (scan_pair_sides thr now kv st)
        as [E|(o & buy & sell & E & Hk & Hb & Hs & Sb & Ss)].
      + destruct (Analyzer.scan_pair thr now kv st) as [[u|e] st1]; simpl in E; subst st1.
        * apply (IH Hl st).
        * exists []. simpl. rewrite app_nil_r. split; [reflexivity | intros o []].
      + assert (Hown : exists buy sell,
                   In buy (Cross.listed (cd_token_pair o) pp) /\
                   In sell (Cross.listed (cd_token_pair o) pp) /\
                   Cross.buy_side_of o buy /\ Cross.sell_side_of o sell).
        { exists buy, sell. destruct kv as [k prices]. simpl in Hk, Hb, Hs.
          unfold Cross.listed. rewrite Hk.
          rewrite (in_dict_get pp k prices Hnd Hkv). auto. }
        destruct (Analyzer.scan_pair thr now kv st) as [[u|e] st1]; simpl in E; subst st1.
        * destruct (IH Hl (st ++ [CrossDex o])) as (found & Hf & Hall).
          exists (o :: found). split; [rewrite Hf, <- app_assoc; reflexivity|].
          intros o' [<-|Ho']; [exact Hown | apply Hall; exact Ho'].
        * exists [o]. split; [reflexivity|].
          intros o' [<-|[]]. exact Hown. }
  apply Hgen. apply incl_refl.
Qed.

(** C4 (amended): the pair key is the ordered text token0_token1.  Whenever
    extraction succeeds, the observation of a two-token record is filed
    under token0_token1 of that record and counts under no other key; the
    list found under a key holds exactly the observations of the records
    whose own ordered key it is, in snapshot order.  So two records that
    name the same token0 and the same token1 are grouped under one key,
    while for symbols without "_" two keys agree only if both symbols
    agree in order: records listing two different symbols in opposite
    order get different keys.  The scan takes both sides of every
    opportunity from the list of the opportunity's own key, so the prices
    of two such records are not compared with each other. *)
Theorem C4_pair_key_is_ordered
    (all_pools : dict (list pool)) (pp : Analyzer.pair_prices) :
  Analyzer.extract all_pools = Ok pp ->
  (forall key pools p t0 t1 r0 r1,
     In (key, pools) all_pools -> In p pools ->
     Analyzer.uniswap_like p = Some (t0, t1, r0, r1) ->
     exists dex_id network_id,
       unpack2 (py_split key) = Ok (dex_id, network_id) /\
       Spec.grouped_under pp (fmt_key t0 t1)
         (Analyzer.uniswap_obs dex_id network_id p r0 r1) /\
       Cross.filed_by_pool dex_id network_id p
       = [(fmt_key t0 t1, Analyzer.uniswap_obs dex_id network_id p r0 r1)] /\
       forall k, k <> fmt_key t0 t1 ->
         Cross.under k (Cross.filed_by_pool dex_id network_id p) = []) /\
  (forall k, Cross.listed k pp = Cross.under k (Cross.filed all_pools)) /\
  (forall a b a' b',
     Spec.no_underscore a = true -> Spec.no_underscore a' = true ->
     (fmt_key a b = fmt_key a' b' <-> a = a' /\ b = b')) /\
  (forall a b,
     Spec.no_underscore a = true -> Spec.no_underscore b = true -> a <> b ->
     fmt_key a b <> fmt_key b a) /\
  (forall thr now st,
     exists found,
       snd (Analyzer.analyze_cross_dex_opportunities thr now all_pools st)
       = st ++ map CrossDex found /\
       forall o, In o found ->
         exists buy sell,
           In buy (Cross.listed (cd_token_pair o) pp) /\
           In sell (Cross.listed (cd_token_pair o) pp) /\
           Cross.buy_side_of o buy /\ Cross.sell_side_of o sell).
Proof.
  intro Hrun. split; [|split; [|split; [|split]]].
  - intros key pools p t0 t1 r0 r1 Hkv Hp Hu.
    destruct (extract_records all_pools pp key pools p t0 t1 r0 r1 Hrun Hkv Hp Hu)
      as (d & n & K & G).
    exists d, n. split; [exact K|]. split; [exact G|].
    unfold Cross.filed_by_pool. rewrite Hu. split; [reflexivity|].
    intros k Hne. unfold Cross.under. simpl.
    destruct (String.eqb (fmt_key t0 t1) k) eqn:E; [|reflexivity].
    apply String.eqb_eq in E. congruence.
  - apply extract_listed. exact Hrun.
  - intros a b a' b' Ha Ha'. split.
    + apply fmt_key_injective; assumption.
    + intros [-> ->]. reflexivity.
  - apply fmt_key_swapped.
  - intros thr now st.
    unfold Analyzer.analyze_cross_dex_opportunities, bind, lift. rewrite Hrun.
    apply scan_pairs_sides. apply (extract_nodup all_pools pp Hrun).
Qed.

Lemma C4_witness :
  Analyzer.extract Sample.swapped_pools
  = Ok [("WETH_USDC", [Sample.obs_weth_usdc]); ("USDC_WETH", [Sample.obs_usdc_weth])] /\
  Cross.under "WETH_USDC" (Cross.filed Sample.swapped_pools) = [Sample.obs_weth_usdc] /\
  Cross.under "USDC_WETH" (Cross.filed Sample.swapped_pools) = [Sample.obs_usdc_weth] /\
  fmt_key "WETH" "USDC" <> fmt_key "USDC" "WETH".
Proof.
  assert (E : Analyzer.extract Sample.swapped_pools
              = Ok [("WETH_USDC", [Sample.obs_weth_usdc]);
                    ("USDC_WETH", [Sample.obs_usdc_weth])])
    by (vm_compute; reflexivity).
  split; [exact E|].
  destruct (C4_pair_key_is_ordered Sample.swapped_pools _ E)
    as (_ & Hlisted & _ & Hswap & _).
  split; [rewrite <- Hlisted; reflexivity|].
  split; [rewrite <- Hlisted; reflexivity|].
  apply Hswap; [reflexivity | reflexivity | discriminate].
Defined.
